(** * Replay buffers of [utils/buffer_large.py]

    A shallow embedding of the index policies ([reservoir], [ring], [fifo]),
    the windowed view [StreamDataset], the two stream buffers and the two
    attribute buffers, followed by the properties established about them.

    Conventions of the embedding:
    - a Python [int] is a [Z]; [//] and [%] are [Z.div] and [Z.modulo] (both
      round towards minus infinity, like Python's) and raise
      [ZeroDivisionError] on a zero divisor;
    - a raised exception is the [Raise] branch of [result]; code that mutates
      [self] or consumes the global random generator runs in [stateful],
      which returns the final state also when an exception was raised;
    - a tensor whose first axis enumerates items is the list of its items;
      the tensors of the attribute buffers are allocated with dtype float32,
      so that a store keeps the item converted to float32; the items offered
      to one buffer have one shape and make up one type;
    - a 3-D series tensor [(batch, time, feature)] is its two outer
      dimensions together with the list of its time-steps;
    - attributes created with [setattr] and removed with [delattr] live in
      a finite map from attribute names to tensors;
    - device transfers ([.to(device)], [.cpu()]) are not represented. *)

From Stdlib Require Import ZArith List Lia Permutation.
From stdpp Require Import base option list gmap strings.

Local Open Scope Z_scope.

(** ** Exceptions and the two monads *)

Inductive exn : Set :=
  | AssertionError
  | AttributeError
  | IndexError
  | NameError
  | RuntimeError
  | TypeError
  | ValueError
  | ZeroDivisionError.

Inductive result (A : Type) : Type :=
  | Ok (a : A)
  | Raise (e : exn).
Arguments Ok {A} a.
Arguments Raise {A} e.

Definition result_bind {A B : Type} (m : result A) (k : A -> result B) : result B :=
  match m with
  | Ok a => k a
  | Raise e => Raise e
  end.

(** A computation over a mutable state [S]: the state reached is returned in
    both outcomes, since an exception does not roll back earlier writes. *)
Definition stateful (S A : Type) : Type := S -> result A * S.

Definition st_ret {S A : Type} (a : A) : stateful S A := fun s => (Ok a, s).

Definition st_raise {S A : Type} (e : exn) : stateful S A := fun s => (Raise e, s).

Definition st_bind {S A B : Type} (m : stateful S A) (k : A -> stateful S B) : stateful S B :=
  fun s =>
    match m s with
    | (Ok a, s') => k a s'
    | (Raise e, s') => (Raise e, s')
    end.

Definition st_lift {S A : Type} (r : result A) : stateful S A := fun s => (r, s).

Definition st_get {S : Type} : stateful S S := fun s => (Ok s, s).

Definition st_modify {S : Type} (f : S -> S) : stateful S unit := fun s => (Ok tt, f s).

Declare Scope py_scope.
Delimit Scope py_scope with py.
Notation "'let?' x := m 'in' k" := (result_bind m (fun x => k))
  (at level 10, x name, m at level 100, k at level 200) : py_scope.
Notation "'do' x <- m ; k" := (st_bind m (fun x => k))
  (at level 10, x name, m at level 100, k at level 200) : py_scope.
Notation "m ;; k" := (st_bind m (fun _ => k))
  (at level 100, k at level 200, right associativity) : py_scope.
Local Open Scope py_scope.

(** [for x in xs: body x] *)
Fixpoint st_for {S A : Type} (xs : list A) (body : A -> stateful S unit) : stateful S unit :=
  match xs with
  | [] => st_ret tt
  | x :: xs' => body x ;; st_for xs' body
  end.

(** ** Python integers, indexing and slicing *)

Definition py_floordiv (a b : Z) : result Z :=
  if decide (b = 0) then Raise ZeroDivisionError else Ok (a / b).

Definition py_mod (a b : Z) : result Z :=
  if decide (b = 0) then Raise ZeroDivisionError else Ok (a mod b).

(** [range(n)] *)
Definition py_range (n : Z) : list Z := map Z.of_nat (seq 0 (Z.to_nat n)).

(** Position designated by the integer subscript [i] in a sequence of [n]
    items: negative subscripts count from the end. *)
Definition py_index (n : nat) (i : Z) : result nat :=
  if decide (0 <= i < Z.of_nat n) then Ok (Z.to_nat i)
  else if decide (- Z.of_nat n <= i < 0) then Ok (Z.to_nat (Z.of_nat n + i))
  else Raise IndexError.

(** [l[i]] *)
Definition py_getitem {A : Type} (l : list A) (i : Z) : result A :=
  let? p := py_index (length l) i in
  match l !! p with
  | Some a => Ok a
  | None => Raise IndexError
  end.

(** [l[i] = v] *)
Definition py_setitem {A : Type} (l : list A) (i : Z) (v : A) : result (list A) :=
  let? p := py_index (length l) i in Ok (<[p := v]> l).

(** [l[k:]]: a negative [k] keeps the last [-k] items, and a bound beyond
    either end is clamped. *)
Definition py_slice_from {A : Type} (k : Z) (l : list A) : list A :=
  if decide (k < 0) then drop (length l - Z.to_nat (- k))%nat l
  else drop (Z.to_nat k) l.

(** [len(obj)] over an object whose [__len__] returned [n] *)
Definition py_len (n : result Z) : result Z :=
  let? v := n in if decide (v < 0) then Raise ValueError else Ok v.

(** ** Index policies *)

Definition fifo (num_seen_examples buffer_size : Z) : result Z :=
  py_mod num_seen_examples buffer_size.

Definition ring (num_seen_examples buffer_portion_size task : Z) : result Z :=
  let? r := py_mod num_seen_examples buffer_portion_size in
  Ok (r + task * buffer_portion_size).

(** ** The random generator

    [np.random] is a global generator; its state is threaded explicitly.
    [random_interval max] is numpy's bounded draw, a number of [[0, max]]. *)
Class RandomState (G : Type) : Type := {
  random_interval : Z -> G -> Z * G;
  random_interval_range :
    forall (max : Z) (g : G), 0 <= max -> 0 <= (random_interval max g).1 <= max
}.

(** A linear congruential generator, as a concrete generator to run the
    randomised operations on. *)
Definition lcg_next (g : Z) : Z := (1103515245 * g + 12345) mod 2147483648.

Definition lcg_interval (max : Z) (g : Z) : Z * Z := (g mod (max + 1), lcg_next g).

Lemma lcg_interval_range (max g : Z) : 0 <= max -> 0 <= (lcg_interval max g).1 <= max.
Proof.
  intros Hmax. unfold lcg_interval. simpl.
  pose proof (Z.mod_pos_bound g (max + 1)). lia.
Qed.

#[export] Instance lcg_RandomState : RandomState Z :=
  {| random_interval := lcg_interval; random_interval_range := lcg_interval_range |}.

Section Random.
Context {G : Type} `{RandomState G}.

(** [np.random.randint(low, high)]: a draw from [[low, high)], of dtype
    int64; bounds outside the range of int64 and an empty range are refused. *)
Definition np_random_randint (low high : Z) : stateful G Z :=
  fun g =>
    if decide (low < - 2 ^ 63) then (Raise ValueError, g)
    else if decide (2 ^ 63 < high) then (Raise ValueError, g)
    else if decide (high <= low) then (Raise ValueError, g)
    else let '(r, g') := random_interval (high - low - 1) g in (Ok (low + r), g').

Definition reservoir (num_seen_examples buffer_size : Z) : stateful G Z :=
  if decide (num_seen_examples < buffer_size) then st_ret num_seen_examples
  else
    do rand <- np_random_randint 0 (num_seen_examples + 1);
    if decide (rand < buffer_size) then st_ret rand else st_ret (-1).

(** [x[i], x[j] = x[j], x[i]] *)
Definition swap (x : list Z) (i j : nat) : list Z :=
  match x !! i, x !! j with
  | Some a, Some b => <[j := a]> (<[i := b]> x)
  | _, _ => x
  end.

(** numpy's shuffle, [for i in reversed(range(1, n)): j = random_interval(i);
    swap x[i], x[j]]; the argument [i] is the loop's current index. *)
Fixpoint shuffle_from (i : nat) (x : list Z) (g : G) : list Z * G :=
  match i with
  | O => (x, g)
  | S i' =>
      let '(j, g') := random_interval (Z.of_nat i) g in
      shuffle_from i' (swap x i (Z.to_nat j)) g'
  end.

(** [np.random.permutation(n)] *)
Definition np_random_permutation (n : Z) (g : G) : list Z * G :=
  shuffle_from (Z.to_nat n - 1) (py_range n) g.

(** [np.random.choice(a, size=size, replace=False)] over an integer
    population [a]: the first [size] entries of a random permutation. *)
Definition np_random_choice (a size : Z) : stateful G (list Z) :=
  fun g =>
    if decide (a <= 0 /\ size <> 0) then (Raise ValueError, g)
    else if decide (a < size) then (Raise ValueError, g)
    else if decide (size < 0) then (Raise ValueError, g)
    else let '(p, g') := np_random_permutation a g in (Ok (take (Z.to_nat size) p), g').
End Random.

(** ** Series tensors *)

Section Streams.
(** [step] is one time-step of a series (its [batch * feature] values),
    [side] a side-channel value (the [logits] of one window). *)
Context {step side : Type}.

(** A tensor of shape [(shape0, length steps, shape2)]. *)
Record tensor3 : Type := Tensor3 {
  shape0 : Z;
  steps : list step;
  shape2 : Z
}.

(** [t.size(1)] *)
Definition size1 (t : tensor3) : Z := Z.of_nat (length (steps t)).

(** [t[:, k:, :]] *)
Definition slice1_from (k : Z) (t : tensor3) : tensor3 :=
  {| shape0 := shape0 t; steps := py_slice_from k (steps t); shape2 := shape2 t |}.

(** [torch.cat((a, b), 1)]: the sizes of the other two axes must agree. *)
Definition torch_cat1 (a b : tensor3) : result tensor3 :=
  if decide (shape0 a = shape0 b /\ shape2 a = shape2 b)
  then Ok {| shape0 := shape0 a; steps := steps a ++ steps b; shape2 := shape2 a |}
  else Raise RuntimeError.

(** Values that reach [StreamDataset.__init__], whose parameters are bound
    by position whatever their type. *)
Inductive pyval : Type :=
  | PNone
  | PBool (b : bool)
  | PInt (n : Z)
  | PTensor (t : tensor3)
  | PList (l : list side).

(** [v.size(1)]: only tensors have the method. *)
Definition pv_size1 (v : pyval) : result Z :=
  match v with
  | PTensor t => Ok (size1 t)
  | _ => Raise AttributeError
  end.

(** An operand of integer arithmetic; [True] and [False] count as 1 and 0. *)
Definition pv_int (v : pyval) : result Z :=
  match v with
  | PInt n => Ok n
  | PBool b => Ok (if b then 1 else 0)
  | _ => Raise TypeError
  end.

(** Truth value of [if v:]. A tensor of several elements has none; series
    tensors of a single element are not told apart from the others. *)
Definition pv_truth (v : pyval) : result bool :=
  match v with
  | PNone => Ok false
  | PBool b => Ok b
  | PInt n => Ok (negb (n =? 0))
  | PTensor _ => Raise RuntimeError
  | PList l => Ok (negb (Nat.eqb (length l) 0))
  end.
End Streams.
Arguments tensor3 : clear implicits.
Arguments pyval : clear implicits.

Module StreamDataset.
Section StreamDataset.
Context {step side : Type}.
#[local] Abbreviation pyval := (pyval step side).

Record t : Type := Make {
  x : pyval;
  y : pyval;
  logits : pyval;
  seq_len : pyval;
  pred_len : pyval;
  sample_freq : pyval;
  fast_mode : pyval
}.

(** [StreamDataset(args..., fast_mode=kw)]: [x], [y], [logits], [seq_len],
    [pred_len] and [sample_freq] are required; [fast_mode] defaults to
    [True] and may be given as the seventh positional argument or by
    keyword, not both. *)
Definition __init__ (args : list pyval) (kw_fast_mode : option pyval) : result t :=
  match args, kw_fast_mode with
  | [a; b; c; d; e; f], None => Ok (Make a b c d e f (PBool true))
  | [a; b; c; d; e; f], Some m => Ok (Make a b c d e f m)
  | [a; b; c; d; e; f; m], None => Ok (Make a b c d e f m)
  | _, _ => Raise TypeError
  end.

Definition __len__ (self : t) : result Z :=
  let? dense := pv_truth (fast_mode self) in
  if (dense : bool) then
    let? n := pv_size1 (x self) in
    let? s := pv_int (seq_len self) in
    Ok (n - s)
  else
    let? n := pv_size1 (x self) in
    let? s := pv_int (seq_len self) in
    let? p := pv_int (pred_len self) in
    let? f := pv_int (sample_freq self) in
    let? q := py_floordiv (n - s - p) f in
    Ok (q + 1).

(** [len(dataset)]: the builtin rejects a negative [__len__]. *)
Definition len (self : t) : result Z := py_len (__len__ self).
End StreamDataset.
Arguments t : clear implicits.
End StreamDataset.

(** [torch.utils.data.DataLoader(dataset, batch_size=..., shuffle=True,
    drop_last=False)]: the loader is an external collaborator, kept as the
    record of its arguments; its constructor rejects a batch size that is
    not positive. *)
Record DataLoader (step side : Type) : Type := MkDataLoader {
  dataset : StreamDataset.t step side;
  batch_size : Z;
  shuffle : bool;
  drop_last : bool
}.
Arguments MkDataLoader {step side}.
Arguments dataset {step side}.
Arguments batch_size {step side}.
Arguments shuffle {step side}.
Arguments drop_last {step side}.

Definition new_DataLoader {step side : Type} (d : StreamDataset.t step side)
    (size : Z) (shuf drop : bool) : result (DataLoader step side) :=
  if decide (size <= 0) then Raise ValueError else Ok (MkDataLoader d size shuf drop).

(** [if size > len(dataset): size = len(dataset)] *)
Definition clamp_size {step side : Type} (d : StreamDataset.t step side) (size : Z) : result Z :=
  let? n := StreamDataset.len d in
  if decide (n < size) then
    let? n' := StreamDataset.len d in Ok n'
  else Ok size.

Module FastStreamBuffer.
Section FastStreamBuffer.
Context {step side : Type}.
#[local] Abbreviation tensor3 := (tensor3 step).
#[local] Abbreviation pyval := (pyval step side).

(** [x] is [None] or a tensor; the attribute [y] does not exist before
    the first [add_data] ([y = None] stands for the absent attribute). *)
Record t : Type := Make {
  buffer_size : Z;
  seq_len : Z;
  pred_len : Z;
  x : option tensor3;
  y : option tensor3;
  length : Z
}.

Definition __init__ (buffer_size seq_len pred_len : Z) : t :=
  Make buffer_size seq_len pred_len None None 0.

Definition set_x (v : option tensor3) (self : t) : t :=
  Make (buffer_size self) (seq_len self) (pred_len self) v (y self) (length self).
Definition set_y (v : option tensor3) (self : t) : t :=
  Make (buffer_size self) (seq_len self) (pred_len self) (x self) v (length self).
Definition set_length (v : Z) (self : t) : t :=
  Make (buffer_size self) (seq_len self) (pred_len self) (x self) (y self) v.

Definition add_data (x_new pred : tensor3) : stateful t unit :=
  do self <- st_get;
  match x self with
  | None =>
      st_modify (set_x (Some x_new)) ;;
      st_modify (set_y (Some pred)) ;;
      st_modify (set_length 0)
  | Some cur =>
      do cur <- (if decide (buffer_size self <= length self)
                 then st_modify (set_x (Some (slice1_from 1 cur))) ;;
                      st_ret (slice1_from 1 cur)
                 else st_ret cur);
      do cur <- st_lift (torch_cat1 cur (slice1_from (-1) x_new));
      st_modify (set_x (Some cur)) ;;
      do target <- st_lift (torch_cat1 cur pred);
      st_modify (set_y (Some target)) ;;
      st_modify (set_length (size1 cur - seq_len self))
  end.

(** [self.y]: reading the attribute before it was ever assigned fails. *)
Definition get_y (self : t) : result pyval :=
  match y self with
  | Some v => Ok (PTensor v)
  | None => Raise AttributeError
  end.

Definition get_x (self : t) : pyval :=
  match x self with
  | Some v => PTensor v
  | None => PNone
  end.

Definition get_data (size : Z) (self : t) : result (DataLoader step side) :=
  let? yv := get_y self in
  let? dataset :=
    StreamDataset.__init__
      [get_x self; yv; PInt (seq_len self); PInt (pred_len self)] None in
  let? size := clamp_size dataset size in
  new_DataLoader dataset size true false.

Definition clear : stateful t unit :=
  st_modify (set_x None) ;; st_modify (set_length 0).
End FastStreamBuffer.
Arguments t : clear implicits.
End FastStreamBuffer.

Module SlowStreamBuffer.
Section SlowStreamBuffer.
Context {step side : Type}.
#[local] Abbreviation tensor3 := (tensor3 step).
#[local] Abbreviation pyval := (pyval step side).

Record t : Type := Make {
  buffer_size : Z;
  seq_len : Z;
  pred_len : Z;
  sample_freq : Z;
  x : option tensor3;
  length : Z;
  logits : list side
}.

Definition __init__ (buffer_size seq_len pred_len sample_freq : Z) : t :=
  Make buffer_size seq_len pred_len sample_freq None 0 [].

Definition set_x (v : option tensor3) (self : t) : t :=
  Make (buffer_size self) (seq_len self) (pred_len self) (sample_freq self)
       v (length self) (logits self).
Definition set_length (v : Z) (self : t) : t :=
  Make (buffer_size self) (seq_len self) (pred_len self) (sample_freq self)
       (x self) v (logits self).
Definition set_logits (v : list side) (self : t) : t :=
  Make (buffer_size self) (seq_len self) (pred_len self) (sample_freq self)
       (x self) (length self) v.

Definition add_data (x_new : tensor3) (logits_new : side) : stateful t unit :=
  do self <- st_get;
  match x self with
  | None =>
      st_modify (set_x (Some x_new)) ;;
      st_modify (set_logits [logits_new]) ;;
      st_modify (set_length 0)
  | Some cur =>
      do cur <- (if decide (buffer_size self <= length self)
                 then st_modify (set_x (Some (slice1_from (sample_freq self) cur))) ;;
                      st_modify (set_logits (py_slice_from 1 (logits self))) ;;
                      st_ret (slice1_from (sample_freq self) cur)
                 else st_ret cur);
      do cur <- st_lift (torch_cat1 cur (slice1_from (- sample_freq self) x_new));
      st_modify (set_x (Some cur)) ;;
      st_modify (fun s => set_logits (logits s ++ [logits_new]) s) ;;
      if decide (0 <= size1 cur - seq_len self - pred_len self) then
        do q <- st_lift (py_floordiv (size1 cur - seq_len self - pred_len self)
                                     (sample_freq self));
        st_modify (set_length (q + 1))
      else st_modify (set_length 0)
  end.

Definition get_x (self : t) : pyval :=
  match x self with
  | Some v => PTensor v
  | None => PNone
  end.

Definition get_data (size : Z) (self : t) : result (DataLoader step side) :=
  let? dataset :=
    StreamDataset.__init__
      [get_x self; get_x self; PList (logits self); PInt (seq_len self);
       PInt (pred_len self); PInt (sample_freq self)] (Some (PBool false)) in
  let? size := clamp_size dataset size in
  new_DataLoader dataset size true false.

Definition clear : stateful t unit :=
  st_modify (set_x None) ;; st_modify (set_logits []) ;; st_modify (set_length 0).
End SlowStreamBuffer.
Arguments t : clear implicits.
End SlowStreamBuffer.

(** ** Item tensors *)

(** The items of the tensors of the attribute buffers. Every tensor is
    allocated by [torch.zeros((buffer_size, *attr.shape[1:]),
    dtype=torch.float32)], and a store [t[i] = v] copies [v] into it
    converted to float32: [zeros] is an item of a tensor as allocated, the
    float32 zeros of shape [attr.shape[1:]], and [to_float32 v] is the item
    that the store of [v] leaves. The shape of the items is a matter of the
    type [T]: the items offered to a buffer of items of type [T] have one
    shape, whatever their dtype, so that no store fails on a mismatch of
    shapes; items of another shape are items of another type. *)
Class Float32 (T : Type) : Type := {
  zeros : T;
  to_float32 : T -> T
}.

(** The float32 nearest to an integer, ties going to the even significand:
    an integer of at most 24 significant bits is kept, a longer one loses
    its low bits. *)
Definition round_float32 (z : Z) : Z :=
  let a := Z.abs z in
  let e := Z.log2 a - 23 in
  if decide (e <= 0) then z
  else
    let q := a / 2 ^ e in
    let r := a mod 2 ^ e in
    let half := 2 ^ (e - 1) in
    let q' := if decide (half < r \/ (r = half /\ Z.odd q = true)) then q + 1 else q in
    Z.sgn z * (q' * 2 ^ e).

(** Scalar items of an integer tensor (dtype int64, whose numbers are far
    below the largest float32): a number stored as float32 is given by the
    integer it equals. *)
#[export] Instance Z_Float32 : Float32 Z :=
  {| zeros := 0; to_float32 := round_float32 |}.

(** Items of two components, as the items of shape [(2,)] are for scalar
    components: the conversion goes component by component. *)
#[export] Instance prod_Float32 {A B : Type} `{Float32 A} `{Float32 B} : Float32 (A * B) :=
  {| zeros := (zeros, zeros); to_float32 := fun v => (to_float32 v.1, to_float32 v.2) |}.

(** [torch.zeros((n, *attr.shape[1:]), dtype=torch.float32)]: a negative
    dimension is refused. *)
Definition torch_zeros {T : Type} `{Float32 T} (n : Z) : result (list T) :=
  if decide (n < 0) then Raise RuntimeError else Ok (replicate (Z.to_nat n) zeros).

(** [torch.stack(rows)]: an empty list of tensors is refused. *)
Definition torch_stack {T : Type} (rows : list T) : result (list T) :=
  match rows with
  | [] => Raise RuntimeError
  | _ :: _ => Ok rows
  end.

(** [t[choice]] for an array of integer subscripts *)
Fixpoint gather {T : Type} (t : list T) (choice : list Z) : result (list T) :=
  match choice with
  | [] => Ok []
  | i :: rest =>
      let? a := py_getitem t i in
      let? r := gather t rest in
      Ok (a :: r)
  end.

(** [l[a:b]] *)
Definition py_slice {A : Type} (a b : Z) (l : list A) : list A :=
  let n := Z.of_nat (length l) in
  let clamp i := if decide (i < 0) then Z.max 0 (i + n) else Z.min i n in
  take (Z.to_nat (clamp b - clamp a)) (drop (Z.to_nat (clamp a)) l).

(** [eval(name)] inside a method: the value of the parameter of that name. *)
Definition eval_param {V : Type} (env : list (string * V)) (name : string) : result V :=
  match list_find (fun kv => kv.1 = name) env with
  | Some (_, (_, v)) => Ok v
  | None => Raise NameError
  end.

Module Buffer.
Section Buffer.
Context {T : Type} `{Float32 T}.

(** [tensors] holds the attributes among [examples], [labels], [logits] and
    [task_labels] that currently exist on the object. *)
Record t : Type := Make {
  buffer_size : Z;
  num_seen_examples : Z;
  functional_index : string;
  task_number : option Z;
  buffer_portion_size : option Z;
  attributes : list string;
  tensors : gmap string (list T)
}.

Definition __init__ (buffer_size : Z) (n_tasks : option Z) (mode : string) : result t :=
  if decide (mode ∈ ["ring"; "reservoir"; "fifo"]%string) then
    if decide (mode = "ring"%string) then
      match n_tasks with
      | None => Raise AssertionError
      | Some n =>
          let? portion := py_floordiv buffer_size n in
          Ok (Make buffer_size 0 mode (Some n) (Some portion)
                   ["examples"; "labels"; "logits"; "task_labels"]%string ∅)
      end
    else Ok (Make buffer_size 0 mode None None
                  ["examples"; "labels"; "logits"; "task_labels"]%string ∅)
  else Raise AssertionError.

Definition set_num_seen_examples (v : Z) (self : t) : t :=
  Make (buffer_size self) v (functional_index self) (task_number self)
       (buffer_portion_size self) (attributes self) (tensors self).

Definition set_tensors (m : gmap string (list T)) (self : t) : t :=
  Make (buffer_size self) (num_seen_examples self) (functional_index self)
       (task_number self) (buffer_portion_size self) (attributes self) m.

(** [setattr(self, name, v)] *)
Definition setattr (name : string) (v : list T) (self : t) : t :=
  set_tensors (<[name := v]> (tensors self)) self.

(** [delattr(self, name)] *)
Definition delattr (name : string) (self : t) : t :=
  set_tensors (delete name (tensors self)) self.

(** [self.<name>] *)
Definition getattr (name : string) (self : t) : result (list T) :=
  match tensors self !! name with
  | Some v => Ok v
  | None => Raise AttributeError
  end.

Definition init_tensors (examples labels logits task_labels : option (list T)) : stateful t unit :=
  let env := [("examples", examples); ("labels", labels);
              ("logits", logits); ("task_labels", task_labels)]%string in
  do self <- st_get;
  st_for (attributes self) (fun attr_str =>
    do attr <- st_lift (eval_param env attr_str);
    do self <- st_get;
    match attr, tensors self !! attr_str with
    | Some _, None =>
        do z <- st_lift (torch_zeros (buffer_size self));
        st_modify (setattr attr_str z)
    | _, _ => st_ret tt
    end).

(** [self.<name>[index] = v]: the tensor is of dtype float32, and the
    store copies [v] into it converted. *)
Definition setitem_attr (name : string) (index : Z) (v : T) : stateful t unit :=
  do self <- st_get;
  do ten <- st_lift (getattr name self);
  do ten' <- st_lift (py_setitem ten index (to_float32 v));
  st_modify (setattr name ten').

(** [if arg is not None: self.<name>[index] = arg[i]] *)
Definition store_optional (name : string) (arg : option (list T)) (index i : Z) : stateful t unit :=
  match arg with
  | None => st_ret tt
  | Some a =>
      do v <- st_lift (py_getitem a i);
      setitem_attr name index v
  end.

Definition add_data (examples : list T) (labels logits task_labels : option (list T)) : stateful t unit :=
  do self <- st_get;
  (match tensors self !! "examples"%string with
   | None => init_tensors (Some examples) labels logits task_labels
   | Some _ => st_ret tt
   end) ;;
  st_for (py_range (Z.of_nat (length examples))) (fun i =>
    do self <- st_get;
    do index <- st_lift (fifo (num_seen_examples self) (buffer_size self));
    st_modify (set_num_seen_examples (num_seen_examples self + 1)) ;;
    if decide (0 <= index) then
      do e <- st_lift (py_getitem examples i);
      setitem_attr "examples" index e ;;
      store_optional "labels" labels index i ;;
      store_optional "logits" logits index i ;;
      store_optional "task_labels" task_labels index i
    else st_ret tt).

(** The loop over [self.attributes[1:]] shared by the two readers: every
    attribute that exists contributes [project attr]. *)
Fixpoint other_attributes (names : list string) (project : list T -> result (list T))
    (self : t) : result (list (list T)) :=
  match names with
  | [] => Ok []
  | attr_str :: names' =>
      match tensors self !! attr_str with
      | Some attr =>
          let? a := project attr in
          let? r := other_attributes names' project self in
          Ok (a :: r)
      | None => other_attributes names' project self
      end
  end.

(** The subscripts drawn by [get_data]: lines 235 to 239. *)
Definition get_data_choice {G : Type} `{RandomState G} (size : Z) (self : t) : stateful G (list Z) :=
  do examples <- st_lift (getattr "examples" self);
  let n := Z.min (num_seen_examples self) (Z.of_nat (length examples)) in
  let size := if decide (n < size) then n else size in
  np_random_choice n size.

Definition get_data {G : Type} `{RandomState G} (size : Z) (transform : option (T -> T))
    (self : t) : stateful G (list (list T)) :=
  do choice <- get_data_choice size self;
  let transform := default (fun x => x) transform in
  st_lift (
    let? examples := getattr "examples" self in
    let? rows := gather examples choice in
    let? first := torch_stack (map transform rows) in
    let? others := other_attributes (py_slice_from 1 (attributes self))
                                    (fun attr => gather attr choice) self in
    Ok (first :: others)).

Definition is_empty (self : t) : bool :=
  if decide (num_seen_examples self = 0) then true else false.

Definition get_all_data (transform : option (T -> T)) (self : t) : result (list (list T)) :=
  let transform := default (fun x => x) transform in
  let? examples := getattr "examples" self in
  let? first := torch_stack (map transform examples) in
  let? others := other_attributes (py_slice_from 1 (attributes self))
                                  (fun attr => Ok attr) self in
  Ok (first :: others).

Definition empty : stateful t unit :=
  do self <- st_get;
  st_for (attributes self) (fun attr_str =>
    do self <- st_get;
    match tensors self !! attr_str with
    | Some _ => st_modify (delattr attr_str)
    | None => st_ret tt
    end) ;;
  st_modify (set_num_seen_examples 0).

(** The states a [Buffer] goes through: the state built by the constructor,
    and the state left by a call of a mutating method on a reachable state,
    whether the call returned or raised. *)
Inductive reachable : t -> Prop :=
  | reach_init (buffer_size : Z) (n_tasks : option Z) (mode : string) (b : t) :
      __init__ buffer_size n_tasks mode = Ok b -> reachable b
  | reach_add_data (b : t) (examples : list T) (labels logits task_labels : option (list T)) :
      reachable b -> reachable (add_data examples labels logits task_labels b).2
  | reach_empty (b : t) :
      reachable b -> reachable (empty b).2.
End Buffer.
Arguments t : clear implicits.
End Buffer.

Module BufferFIFO.
Section BufferFIFO.
Context {T : Type} `{Float32 T}.

(** [tensors] holds the tensor attributes that currently exist on the
    object; only [setattr] in [init_tensors] ever creates one. *)
Record t : Type := Make {
  buffer_size : Z;
  num_seen_examples : Z;
  functional_index : string;
  task_number : option Z;
  buffer_portion_size : option Z;
  attributes : list string;
  tensors : gmap string (list T)
}.

Definition __init__ (buffer_size : Z) (n_tasks : option Z) (mode : string) : result t :=
  if decide (mode ∈ ["ring"; "reservoir"]%string) then
    if decide (mode = "ring"%string) then
      match n_tasks with
      | None => Raise AssertionError
      | Some n =>
          let? portion := py_floordiv buffer_size n in
          Ok (Make buffer_size 0 mode (Some n) (Some portion) ["losses"%string] ∅)
      end
    else Ok (Make buffer_size 0 mode None None ["losses"%string] ∅)
  else Raise AssertionError.

Definition set_num_seen_examples (v : Z) (self : t) : t :=
  Make (buffer_size self) v (functional_index self) (task_number self)
       (buffer_portion_size self) (attributes self) (tensors self).

Definition set_tensors (m : gmap string (list T)) (self : t) : t :=
  Make (buffer_size self) (num_seen_examples self) (functional_index self)
       (task_number self) (buffer_portion_size self) (attributes self) m.

Definition setattr (name : string) (v : list T) (self : t) : t :=
  set_tensors (<[name := v]> (tensors self)) self.

Definition delattr (name : string) (self : t) : t :=
  set_tensors (delete name (tensors self)) self.

Definition getattr (name : string) (self : t) : result (list T) :=
  match tensors self !! name with
  | Some v => Ok v
  | None => Raise AttributeError
  end.

(** The parameters are [losses], [labels], [logits] and [task_labels];
    [losses] is a tensor, the other three may be [None]. A loss is a scalar
    tensor, so that [losses.shape[1:]] is the shape of [losses] itself. *)
Definition init_tensors (losses : T) (labels logits task_labels : option (list T)) : stateful t unit :=
  let env := [("losses", true); ("labels", bool_decide (is_Some labels));
              ("logits", bool_decide (is_Some logits));
              ("task_labels", bool_decide (is_Some task_labels))]%string in
  do self <- st_get;
  st_for (attributes self) (fun attr_str =>
    do attr_is_not_None <- st_lift (eval_param env attr_str);
    do self <- st_get;
    match attr_is_not_None, tensors self !! attr_str with
    | true, None =>
        do z <- st_lift (torch_zeros (buffer_size self));
        st_modify (setattr attr_str z)
    | _, _ => st_ret tt
    end).

Definition add_data (losses : T) (labels logits task_labels : option (list T)) : stateful t unit :=
  do self <- st_get;
  (match tensors self !! "losses"%string with
   | None => init_tensors losses labels logits task_labels
   | Some _ => st_ret tt
   end) ;;
  do self <- st_get;
  do ten <- st_lift (getattr "losses" self);
  do ten' <- st_lift (py_setitem ten (num_seen_examples self) (to_float32 losses));
  st_modify (setattr "losses" ten') ;;
  st_modify (set_num_seen_examples (num_seen_examples self + 1)).

(** [torch.mean] is taken as a parameter. *)
Definition get_data (torch_mean : list T -> T) (size : Z) (self : t) : result T :=
  let? losses := getattr "losses" self in
  let n := Z.min (num_seen_examples self) (Z.of_nat (length losses)) in
  let size := if decide (n < size) then n else size in
  Ok (torch_mean (py_slice (num_seen_examples self - size) (num_seen_examples self) losses)).

Definition is_empty (self : t) : bool :=
  if decide (num_seen_examples self = 0) then true else false.

Fixpoint other_attributes (names : list string) (self : t) : list (list T) :=
  match names with
  | [] => []
  | attr_str :: names' =>
      match tensors self !! attr_str with
      | Some attr => attr :: other_attributes names' self
      | None => other_attributes names' self
      end
  end.

Definition get_all_data (transform : option (T -> T)) (self : t) : result (list (list T)) :=
  let transform := default (fun x => x) transform in
  let? examples := getattr "examples" self in
  let? first := torch_stack (map transform examples) in
  Ok (first :: other_attributes (py_slice_from 1 (attributes self)) self).

Definition empty : stateful t unit :=
  do self <- st_get;
  st_for (attributes self) (fun attr_str =>
    do self <- st_get;
    match tensors self !! attr_str with
    | Some _ => st_modify (delattr attr_str)
    | None => st_ret tt
    end) ;;
  st_modify (set_num_seen_examples 0).

(** The states a [BufferFIFO] goes through: the state built by the
    constructor, and the state left by a call of a mutating method on a
    reachable state, whether the call returned or raised. *)
Inductive reachable : t -> Prop :=
  | reach_init (buffer_size : Z) (n_tasks : option Z) (mode : string) (b : t) :
      __init__ buffer_size n_tasks mode = Ok b -> reachable b
  | reach_add_data (b : t) (losses : T) (labels logits task_labels : option (list T)) :
      reachable b -> reachable (add_data losses labels logits task_labels b).2
  | reach_empty (b : t) :
      reachable b -> reachable (empty b).2.
End BufferFIFO.
Arguments t : clear implicits.
End BufferFIFO.

(** ** Invariants of stateful code *)

(** [m] keeps [P]: the state it leaves satisfies [P] whenever the state it
    starts from does, whether [m] returns or raises. *)
Definition preserves {S A : Type} (P : S -> Prop) (m : stateful S A) : Prop :=
  forall s, P s -> P (m s).2.

(** ** Invariants of the buffers *)

(** What every reachable [BufferFIFO] satisfies: the attribute list is the
    one of the constructor, the counter is not negative, and the only tensor
    attribute that can exist is [losses], of [buffer_size] entries. *)
Definition fifo_inv {T : Type} (b : BufferFIFO.t T) : Prop :=
  BufferFIFO.attributes b = ["losses"%string] /\
  0 <= BufferFIFO.num_seen_examples b /\
  forall (k : string) (v : list T),
    BufferFIFO.tensors b !! k = Some v ->
    k = "losses"%string /\ Z.of_nat (length v) = BufferFIFO.buffer_size b.

(** What every reachable [Buffer] satisfies: the attribute list is the one
    of the constructor, the counter is not negative, and every tensor
    attribute that exists has [buffer_size] items. *)
Definition buf_inv {T : Type} (b : Buffer.t T) : Prop :=
  Buffer.attributes b = ["examples"; "labels"; "logits"; "task_labels"]%string /\
  0 <= Buffer.num_seen_examples b /\
  forall (k : string) (v : list T),
    Buffer.tensors b !! k = Some v -> Z.of_nat (length v) = Buffer.buffer_size b.

(** ** Writing through the fifo policy *)

(** The slots after the items of a batch were written one after the other,
    each converted to float32 and put at the counter modulo the capacity,
    the counter advancing by one per item. *)
Fixpoint fifo_write {T : Type} `{Float32 T} (buffer_size n : Z) (slots items : list T) :
    list T :=
  match items with
  | [] => slots
  | e :: items' =>
      fifo_write buffer_size (n + 1)
        (<[Z.to_nat (n mod buffer_size) := to_float32 e]> slots) items'
  end.

(** The argument [add_data] stores under the attribute [name], if any. *)
Definition add_data_arg {T : Type} (examples : list T) (labels logits task_labels : option (list T))
    (name : string) : option (list T) :=
  if decide (name = "examples"%string) then Some examples
  else if decide (name = "labels"%string) then labels
  else if decide (name = "logits"%string) then logits
  else if decide (name = "task_labels"%string) then task_labels
  else None.

(** The attribute [old] after the first [count] items of [arg] were written
    into it; an argument that is [None] leaves it as it is. *)
Definition written {T : Type} `{Float32 T} (buffer_size n : Z) (count : nat)
    (arg old : option (list T)) : option (list T) :=
  match arg, old with
  | Some a, Some o => Some (fifo_write buffer_size n o (take count a))
  | _, _ => old
  end.

(** The attribute [name] once the allocation at the head of [add_data] is
    done: an attribute that exists is kept; on a buffer without [examples]
    an attribute whose argument is given is created, filled with zeros. *)
Definition allocated {T : Type} `{Float32 T} (b : Buffer.t T) (arg : option (list T))
    (name : string) : option (list T) :=
  match Buffer.tensors b !! name, Buffer.tensors b !! "examples"%string, arg with
  | Some v, _, _ => Some v
  | None, None, Some _ => Some (replicate (Z.to_nat (Buffer.buffer_size b)) zeros)
  | None, _, _ => None
  end.

(** The body of the loop of [Buffer.add_data] for the item of subscript
    [i], with the store into [examples] written as the three optional ones. *)
Definition add_data_item {T : Type} `{Float32 T} (examples : list T)
    (labels logits task_labels : option (list T)) (i : Z) : stateful (Buffer.t T) unit :=
  do self <- st_get;
  do index <- st_lift (fifo (Buffer.num_seen_examples self) (Buffer.buffer_size self));
  st_modify (Buffer.set_num_seen_examples (Buffer.num_seen_examples self + 1)) ;;
  if decide (0 <= index) then
    Buffer.store_optional "examples" (Some examples) index i ;;
    Buffer.store_optional "labels" labels index i ;;
    Buffer.store_optional "logits" logits index i ;;
    Buffer.store_optional "task_labels" task_labels index i
  else st_ret tt.

(** ** Example states *)

(** A scalar-metric buffer of capacity 2, fresh and after two calls of
    [add_data]. *)
Definition fifo_fresh : BufferFIFO.t Z :=
  BufferFIFO.Make 2 0 "reservoir" None None ["losses"%string] ∅.

Definition fifo_two : BufferFIFO.t Z :=
  (BufferFIFO.add_data 8 None None None (BufferFIFO.add_data 7 None None None fifo_fresh).2).2.

(** A buffer of capacity 3 in fifo mode, as its constructor builds it. *)
Definition fifo3 : Buffer.t Z :=
  Buffer.Make 3 0 "fifo" None None ["examples"; "labels"; "logits"; "task_labels"]%string ∅.

(** The five labels added one at a time, each with itself as its example. *)
Definition fifo3_scenario : result unit * Buffer.t Z :=
  st_for [10; 20; 30; 40; 50] (fun l => Buffer.add_data [l] (Some [l]) None None) fifo3.

(** [fifo3] after a first item. *)
Definition fifo3_one : Buffer.t Z := (Buffer.add_data [10] (Some [10]) None None fifo3).2.

(** A fast stream buffer of capacity 2 with [seq_len = 1], fresh and after
    one and two calls of [add_data]. *)
Definition fast0 : FastStreamBuffer.t Z := FastStreamBuffer.__init__ 2 1 1.

Definition fast_x3 : tensor3 Z := Tensor3 1 [1; 2; 3] 1.

Definition fast_pred : tensor3 Z := Tensor3 1 [4] 1.

Definition fast1 : FastStreamBuffer.t Z := (FastStreamBuffer.add_data fast_x3 fast_pred fast0).2.

Definition fast2 : FastStreamBuffer.t Z :=
  (FastStreamBuffer.add_data (Tensor3 1 [4; 5] 1) fast_pred fast1).2.

(** A slow stream buffer of capacity 1 with [seq_len = pred_len =
    sample_freq = 1], fresh and after one and two calls of [add_data]. *)
Definition slow0 : SlowStreamBuffer.t Z Z := SlowStreamBuffer.__init__ 1 1 1 1.

Definition slow_x : tensor3 Z := Tensor3 1 [1; 2] 1.

Definition slow1 : SlowStreamBuffer.t Z Z := (SlowStreamBuffer.add_data slow_x 7 slow0).2.

Definition slow2 : SlowStreamBuffer.t Z Z := (SlowStreamBuffer.add_data slow_x 8 slow1).2.

(** A slow stream buffer of capacity 1 with a stride of 3, given four times
    a series [x] of two time-steps, fewer than the stride. *)
Definition slow_short0 : SlowStreamBuffer.t Z Z := SlowStreamBuffer.__init__ 1 1 1 3.

Definition slow_short_run : result unit * SlowStreamBuffer.t Z Z :=
  st_for [7; 8; 9; 10] (fun l => SlowStreamBuffer.add_data slow_x l) slow_short0.

Definition slow_short4 : SlowStreamBuffer.t Z Z := slow_short_run.2.

(** A capacity-3 buffer filled by one batch of three items with labels
    that differ from the examples. *)
Definition fifo3_full : Buffer.t Z :=
  (Buffer.add_data [10; 20; 30] (Some [1; 2; 3]) None None fifo3).2.

(** ** More invariants of the attribute buffer *)

(** What every reachable [Buffer] satisfies besides [buf_inv]: a tensor
    attribute that exists is one of the names listed in [attributes], and
    [examples] exists as soon as an item was counted. *)
Definition buf_dom_inv {T : Type} (b : Buffer.t T) : Prop :=
  (forall k : string, is_Some (Buffer.tensors b !! k) -> k ∈ Buffer.attributes b) /\
  (0 < Buffer.num_seen_examples b -> is_Some (Buffer.tensors b !! "examples"%string)).

(** The state [empty()] leaves holds no tensor, so that it is a state of the
    buffer whatever the shape of the items offered next: [emptied b] is this
    state for items of type [T'], given the buffer [b] for items of type
    [T]. *)
Definition emptied {T T' : Type} (b : Buffer.t T) : Buffer.t T' :=
  Buffer.Make (Buffer.buffer_size b) 0 (Buffer.functional_index b) (Buffer.task_number b)
    (Buffer.buffer_portion_size b) (Buffer.attributes b) ∅.

(** The existing tensor attributes are the names that satisfy [S]. *)
Definition has_attrs {T : Type} (S : string -> Prop) (b : Buffer.t T) : Prop :=
  Buffer.attributes b = ["examples"; "labels"; "logits"; "task_labels"]%string /\
  forall k : string, is_Some (Buffer.tensors b !! k) <-> S k.

(** [fifo3] after a first item given without labels. *)
Definition fifo3_plain : Buffer.t Z := (Buffer.add_data [10] None None None fifo3).2.

(** [for v in values: buffer.add_data(v)] on a scalar-metric buffer. *)
Definition fifo_adds {T : Type} `{Float32 T} (values : list T) : stateful (BufferFIFO.t T) unit :=
  st_for values (fun v => BufferFIFO.add_data v None None None).

(** ** Items of the windowed view and runs of the stream buffers *)

Section StreamItems.
Context {step side : Type}.




(** The view [SlowStreamBuffer.get_data] builds over the series [cur]. *)
Definition slow_view (b : SlowStreamBuffer.t step side) (cur : tensor3 step) :
    StreamDataset.t step side :=
  StreamDataset.Make (PTensor cur) (PTensor cur) (PList (SlowStreamBuffer.logits b))
    (PInt (SlowStreamBuffer.seq_len b)) (PInt (SlowStreamBuffer.pred_len b))
    (PInt (SlowStreamBuffer.sample_freq b)) (PBool false).

(** The series and the side-channel list of a slow buffer are aligned: the
    series is one window and horizon long, plus one stride per side-channel
    entry after the first, and the length field counts the entries (it is
    still 0 after the first call); a buffer without a series has no
    side-channel entry and a length field of 0. *)
Definition slow_aligned (b : SlowStreamBuffer.t step side) : Prop :=
  match SlowStreamBuffer.x b with
  | None => SlowStreamBuffer.logits b = [] /\ SlowStreamBuffer.length b = 0
  | Some cur =>
      let entries := Z.of_nat (length (SlowStreamBuffer.logits b)) in
      size1 cur = SlowStreamBuffer.seq_len b + SlowStreamBuffer.pred_len b
                  + (entries - 1) * SlowStreamBuffer.sample_freq b /\
      ((SlowStreamBuffer.length b = 0 /\ entries = 1) \/
       (SlowStreamBuffer.length b = entries /\ 2 <= entries))
  end.

(** [for (x, pred) in inputs: buffer.add_data(x, pred)] on a fast buffer. *)
Definition fast_adds (inputs : list (tensor3 step * tensor3 step)) :
    stateful (FastStreamBuffer.t step) unit :=
  st_for inputs (fun xp => FastStreamBuffer.add_data xp.1 xp.2).

(** The newest time-step of each input, in order. *)
Definition newest_steps (inputs : list (tensor3 step * tensor3 step)) : list step :=
  concat (map (fun xp => py_slice_from (-1) (steps xp.1)) inputs).
End StreamItems.

(** * Properties *)

(** ** The embedding on concrete inputs *)

Example py_slice_from_examples :
  py_slice_from (-1) [1; 2; 3] = [3] /\ py_slice_from 1 [1; 2; 3] = [2; 3] /\
  py_slice_from (-5) [1; 2] = [1; 2] /\ py_slice_from 5 [1; 2] = [].
Proof. repeat split; reflexivity. Qed.

Example py_arithmetic_examples :
  py_mod (-1) 3 = Ok 2 /\ py_mod 5 (-3) = Ok (-1) /\ py_mod 5 0 = Raise ZeroDivisionError /\
  py_floordiv (-7) 2 = Ok (-4) /\ py_floordiv 7 0 = Raise ZeroDivisionError.
Proof. repeat split; reflexivity. Qed.

Example py_getitem_examples :
  py_getitem [1; 2; 3] (-1) = Ok 3 /\ py_getitem [1; 2; 3] 3 = Raise IndexError /\
  py_setitem [1; 2; 3] 1 9 = Ok [1; 9; 3] /\ py_setitem [1; 2; 3] (-4) 9 = Raise IndexError.
Proof. repeat split; reflexivity. Qed.

Example index_policy_examples :
  fifo 5 3 = Ok 2 /\ fifo 4 3 = Ok 1 /\ fifo 3 3 = Ok 0 /\ ring 5 2 3 = Ok 7 /\
  (reservoir 2 3 (42 : Z)).1 = Ok 2 /\ (reservoir 5 3 (42 : Z)).1 = Ok 0 /\
  (reservoir 5 3 (5 : Z)).1 = Ok (-1).
Proof. vm_compute. repeat split; reflexivity. Qed.

Example np_random_choice_examples :
  (np_random_choice 5 3 (7 : Z)).1 = Ok [1; 4; 3] /\
  (np_random_choice 0 0 (7 : Z)).1 = Ok [] /\
  (np_random_choice 3 4 (7 : Z)).1 = Raise ValueError /\
  (np_random_choice 3 (-1) (7 : Z)).1 = Raise ValueError.
Proof. vm_compute. repeat split; reflexivity. Qed.

Example Buffer_get_data_examples :
  (Buffer.get_data 2 None fifo3_scenario.2 (42 : Z)).1 = Ok [[30; 50]; [30; 50]] /\
  (Buffer.get_data 7 None fifo3_scenario.2 (4 : Z)).1 = Ok [[40; 30; 50]; [40; 30; 50]] /\
  (Buffer.get_data 0 None fifo3_scenario.2 (4 : Z)).1 = Raise RuntimeError /\
  (Buffer.get_data (-1) None fifo3_scenario.2 (4 : Z)).1 = Raise ValueError.
Proof. vm_compute. repeat split; reflexivity. Qed.

(** Integers of up to 24 significant bits are float32 numbers; longer ones
    are rounded to the nearest float32, a tie going to the even significand. *)
Example round_float32_examples :
  round_float32 16777216 = 16777216 /\ round_float32 16777217 = 16777216 /\
  round_float32 16777219 = 16777220 /\ round_float32 (-16777217) = -16777216 /\
  round_float32 123456789 = 123456792 /\ round_float32 (2 ^ 63 - 1) = 2 ^ 63.
Proof. vm_compute. repeat split; reflexivity. Qed.

(** With a negative stride the length field of a slow buffer is not the
    [__len__] of its view clamped at zero: after the second call it is -1. *)
Example SlowStreamBuffer_negative_stride_example :
  let b1 := (SlowStreamBuffer.add_data (side := Z) slow_x 7
               (SlowStreamBuffer.__init__ 1 1 1 (-1))).2 in
  let out := SlowStreamBuffer.add_data (Tensor3 1 [3; 4; 5] 1) 8 b1 in
  out.1 = Ok tt /\
  SlowStreamBuffer.x out.2 = Some (Tensor3 1 [1; 2; 4; 5] 1) /\
  SlowStreamBuffer.length out.2 = -1 /\
  StreamDataset.__len__ (slow_view out.2 (Tensor3 1 [1; 2; 4; 5] 1)) = Ok (-1).
Proof. vm_compute. repeat split; reflexivity. Qed.

(** The strided loader of a slow buffer is built with all its arguments. *)
Example SlowStreamBuffer_get_data_example :
  exists d, @SlowStreamBuffer.get_data Z Z 5 slow2 = Ok (MkDataLoader d 2 true false).
Proof. eexists. vm_compute. reflexivity. Qed.

(** ** Index policies *)

Section RandomFacts.
Context {G : Type} `{RandomState G}.



End RandomFacts.



(** ** Stateful code and invariants *)

Section Preserves.
Context {S : Type} (P : S -> Prop).

Lemma preserves_ret {A : Type} (a : A) : preserves P (st_ret a).
Proof. intros s Hs. exact Hs. Qed.

Lemma preserves_raise {A : Type} (e : exn) : preserves P (@st_raise S A e).
Proof. intros s Hs. exact Hs. Qed.

Lemma preserves_lift {A : Type} (r : result A) : preserves P (st_lift r).
Proof. intros s Hs. exact Hs. Qed.

Lemma preserves_get : preserves P st_get.
Proof. intros s Hs. exact Hs. Qed.

Lemma preserves_modify (f : S -> S) :
  (forall s, P s -> P (f s)) -> preserves P (st_modify f).
Proof. intros Hf s Hs. apply Hf, Hs. Qed.

Lemma preserves_bind {A B : Type} (m : stateful S A) (k : A -> stateful S B) :
  preserves P m -> (forall a, preserves P (k a)) -> preserves P (st_bind m k).
Proof.
  intros Hm Hk s Hs. unfold st_bind.
  specialize (Hm s Hs). destruct (m s) as [[a|e] s']; simpl in *.
  - apply Hk, Hm.
  - exact Hm.
Qed.

Lemma preserves_for {A : Type} (xs : list A) (body : A -> stateful S unit) :
  (forall a, preserves P (body a)) -> preserves P (st_for xs body).
Proof.
  intros Hbody. induction xs as [|a xs IH]; simpl.
  - apply preserves_ret.
  - apply preserves_bind; [apply Hbody|intros _; exact IH].
Qed.
End Preserves.

Lemma py_setitem_length {A : Type} (l l' : list A) (i : Z) (v : A) :
  py_setitem l i v = Ok l' -> length l' = length l.
Proof.
  unfold py_setitem. destruct (py_index (length l) i) as [p|e]; simpl; [|discriminate].
  intros [= <-]. apply length_insert.
Qed.

Lemma py_index_nonneg (n : nat) (i : Z) :
  0 <= i -> py_index n i = if decide (i < Z.of_nat n) then Ok (Z.to_nat i) else Raise IndexError.
Proof.
  intros Hi. unfold py_index.
  destruct (decide (0 <= i < Z.of_nat n)), (decide (i < Z.of_nat n)); try lia; try reflexivity.
  destruct (decide (- Z.of_nat n <= i < 0)); [lia|reflexivity].
Qed.

Lemma torch_zeros_length {T : Type} `{Float32 T} (n : Z) (z : list T) :
  torch_zeros n = Ok z -> Z.of_nat (length z) = n.
Proof.
  unfold torch_zeros. destruct (decide (n < 0)); [discriminate|].
  intros [= <-]. rewrite length_replicate. lia.
Qed.

(** ** The scalar-metric buffer *)

Section BufferFIFOFacts.
Context {T : Type} `{Float32 T}.
Import BufferFIFO.

Lemma fifo_inv_init (size : Z) (n_tasks : option Z) (mode : string) (b : BufferFIFO.t T) :
  __init__ size n_tasks mode = Ok b -> fifo_inv b.
Proof.
  unfold __init__. intros Hinit.
  assert (attributes b = ["losses"%string] /\ num_seen_examples b = 0 /\ tensors b = ∅)
    as (Ha & Hn & Ht).
  { destruct (decide _); [|discriminate].
    destruct (decide _).
    - destruct n_tasks as [n|]; [|discriminate].
      destruct (py_floordiv size n); simpl in Hinit; [|discriminate].
      injection Hinit as <-. auto.
    - injection Hinit as <-. auto. }
  split; [exact Ha|]. split; [lia|].
  intros k v Hk. rewrite Ht, lookup_empty in Hk. discriminate.
Qed.

Lemma fifo_inv_setattr (b : BufferFIFO.t T) (v : list T) :
  fifo_inv b -> Z.of_nat (length v) = buffer_size b -> fifo_inv (setattr "losses" v b).
Proof.
  intros (Ha & Hn & Ht) Hv. split; [exact Ha|]. split; [exact Hn|].
  intros k w Hk. unfold setattr, set_tensors in Hk. simpl in Hk.
  destruct (decide (k = "losses"%string)) as [->|Hne].
  - rewrite lookup_insert_eq in Hk. injection Hk as <-. auto.
  - rewrite lookup_insert_ne in Hk by congruence. apply (Ht _ _ Hk).
Qed.

Lemma fifo_inv_init_tensors (losses : T) (labels logits task_labels : option (list T)) :
  preserves (@fifo_inv T) (init_tensors losses labels logits task_labels).
Proof.
  intros b Hb. unfold init_tensors, st_bind, st_get.
  assert (Hattr : attributes b = ["losses"%string]) by apply Hb.
  rewrite Hattr. simpl. unfold st_bind, st_get, st_lift. simpl.
  destruct (tensors b !! "losses"%string) eqn:E; [exact Hb|].
  destruct (torch_zeros (buffer_size b)) as [z|e] eqn:Ez; [|exact Hb].
  simpl. apply fifo_inv_setattr; [exact Hb|]. apply (torch_zeros_length _ _ Ez).
Qed.

(** [add_data] once the first-call allocation is done: the body of lines
    325 and 326. *)
Lemma fifo_add_data_allocated (b : BufferFIFO.t T) (ten : list T) (losses : T)
    (labels logits task_labels : option (list T)) :
  tensors b !! "losses"%string = Some ten ->
  add_data losses labels logits task_labels b =
    match py_setitem ten (num_seen_examples b) (to_float32 losses) with
    | Ok ten' =>
        (Ok tt, set_num_seen_examples (num_seen_examples b + 1) (setattr "losses" ten' b))
    | Raise e => (Raise e, b)
    end.
Proof.
  intros E. unfold add_data, st_bind, st_get, st_lift, st_modify, st_ret, getattr.
  rewrite E. simpl. rewrite E.
  destruct (py_setitem ten (num_seen_examples b) (to_float32 losses)); reflexivity.
Qed.

(** The first call: [init_tensors] allocates [losses], then the body runs. *)
Lemma fifo_add_data_first (b : BufferFIFO.t T) (losses : T)
    (labels logits task_labels : option (list T)) :
  attributes b = ["losses"%string] ->
  tensors b !! "losses"%string = None ->
  add_data losses labels logits task_labels b =
    match torch_zeros (buffer_size b) with
    | Ok z =>
        match py_setitem z (num_seen_examples b) (to_float32 losses) with
        | Ok ten' =>
            (Ok tt, set_num_seen_examples (num_seen_examples b + 1)
                      (setattr "losses" ten' (setattr "losses" z b)))
        | Raise e => (Raise e, setattr "losses" z b)
        end
    | Raise e => (Raise e, b)
    end.
Proof.
  intros Ha E.
  unfold add_data, init_tensors, st_bind, st_get, st_lift, st_modify, st_ret, getattr.
  rewrite E, Ha. simpl. unfold st_bind, st_get, st_lift, st_modify, st_ret. simpl.
  rewrite E. destruct (torch_zeros (buffer_size b)) as [z|e]; [|reflexivity].
  simpl. rewrite lookup_insert_eq.
  destruct (py_setitem z (num_seen_examples b) (to_float32 losses)); reflexivity.
Qed.

Lemma fifo_inv_add_data (losses : T) (labels logits task_labels : option (list T)) :
  preserves (@fifo_inv T) (add_data losses labels logits task_labels).
Proof.
  intros b Hb.
  assert (Hstep : forall (b' : BufferFIFO.t T) (ten : list T),
            fifo_inv b' -> tensors b' !! "losses"%string = Some ten ->
            fifo_inv (match py_setitem ten (num_seen_examples b') (to_float32 losses) with
                      | Ok ten' => (Ok tt, set_num_seen_examples (num_seen_examples b' + 1)
                                             (setattr "losses" ten' b'))
                      | Raise e => (Raise e, b')
                      end).2).
  { intros b' ten Hb' E.
    destruct (py_setitem ten (num_seen_examples b') (to_float32 losses)) as [ten'|e] eqn:Es; [|exact Hb'].
    simpl. pose proof (py_setitem_length _ _ _ _ Es) as Hlen.
    destruct Hb' as (Ha & Hn & Ht).
    destruct (fifo_inv_setattr b' ten') as (Ha' & _ & Ht').
    - split; [exact Ha|]. split; [exact Hn|exact Ht].
    - rewrite Hlen. apply (Ht _ _ E).
    - split; [exact Ha'|]. split; [simpl; lia|exact Ht']. }
  destruct (tensors b !! "losses"%string) as [ten|] eqn:E.
  - rewrite (fifo_add_data_allocated b ten) by exact E. apply Hstep; assumption.
  - rewrite fifo_add_data_first by (try apply Hb; exact E).
    destruct (torch_zeros (buffer_size b)) as [z|e] eqn:Ez; [|exact Hb].
    pose proof (fifo_inv_setattr b z Hb (torch_zeros_length _ _ Ez)) as Hb1.
    specialize (Hstep (setattr "losses" z b) z Hb1).
    simpl in Hstep. rewrite lookup_insert_eq in Hstep. apply Hstep. reflexivity.
Qed.

Lemma fifo_empty_eq (b : BufferFIFO.t T) :
  attributes b = ["losses"%string] ->
  empty b = (Ok tt, set_num_seen_examples 0 (delattr "losses" b)).
Proof.
  intros Ha. unfold empty, st_bind, st_get. rewrite Ha. simpl.
  unfold st_bind, st_get, st_modify, st_ret.
  destruct (tensors b !! "losses"%string) eqn:E; simpl; [reflexivity|].
  unfold delattr, set_tensors, set_num_seen_examples. simpl.
  rewrite delete_id by exact E. reflexivity.
Qed.

Lemma fifo_inv_empty : preserves (@fifo_inv T) empty.
Proof.
  intros b Hb. rewrite fifo_empty_eq by apply Hb. simpl.
  destruct Hb as (Ha & Hn & Ht). split; [exact Ha|]. split; [simpl; lia|].
  intros k v Hk. simpl in Hk. apply lookup_delete_Some in Hk as [_ Hk]. apply (Ht _ _ Hk).
Qed.

Lemma fifo_reachable_inv (b : BufferFIFO.t T) : reachable b -> fifo_inv b.
Proof.
  induction 1 as [size n_tasks mode b Hinit|b losses labels logits task_labels _ IH|b _ IH].
  - apply (fifo_inv_init _ _ _ _ Hinit).
  - apply fifo_inv_add_data, IH.
  - apply fifo_inv_empty, IH.
Qed.

(** C10: in every reachable state of a [BufferFIFO], [get_all_data] raises
    [AttributeError]: it reads [self.examples], and the only tensor attribute
    the class ever creates is [losses]. *)
Theorem BufferFIFO_get_all_data_raises (b : BufferFIFO.t T) (transform : option (T -> T)) :
  reachable b ->
  tensors b !! "examples"%string = None /\
  get_all_data transform b = Raise AttributeError.
Proof.
  intros Hr. apply fifo_reachable_inv in Hr as (_ & _ & Ht).
  assert (E : tensors b !! "examples"%string = None).
  { destruct (tensors b !! "examples"%string) as [v|] eqn:E; [|reflexivity].
    destruct (Ht _ _ E) as [Hk _]. discriminate. }
  split; [exact E|]. unfold get_all_data, getattr. rewrite E. reflexivity.
Qed.

(** C8: [add_data] of a [BufferFIFO] of non-negative capacity writes the value
    (converted to float32, the dtype of the tensor) at slot
    [num_seen_examples], without wraparound, and then increments the counter; once the counter has reached [buffer_size] the call raises
    [IndexError], leaves the counter where it is and overwrites no slot, so
    every later call fails the same way. *)
Theorem BufferFIFO_add_data_no_wraparound (b : BufferFIFO.t T) (losses : T)
    (labels logits task_labels : option (list T)) :
  reachable b ->
  0 <= buffer_size b ->
  let n := num_seen_examples b in
  let cur := default (replicate (Z.to_nat (buffer_size b)) zeros)
                     (tensors b !! "losses"%string) in
  let out := add_data losses labels logits task_labels b in
  (n < buffer_size b ->
     out.1 = Ok tt /\
     tensors out.2 !! "losses"%string = Some (<[Z.to_nat n := to_float32 losses]> cur) /\
     num_seen_examples out.2 = n + 1) /\
  (buffer_size b <= n ->
     out.1 = Raise IndexError /\
     tensors out.2 !! "losses"%string = Some cur /\
     num_seen_examples out.2 = n /\
     buffer_size out.2 <= num_seen_examples out.2).
Proof.
  intros Hr Hsize n cur out. subst n cur out.
  apply fifo_reachable_inv in Hr as (Ha & Hn & Ht).
  destruct (tensors b !! "losses"%string) as [ten|] eqn:E; simpl.
  - destruct (Ht _ _ E) as [_ Hlen].
    rewrite (fifo_add_data_allocated b ten) by exact E.
    unfold py_setitem. rewrite py_index_nonneg by exact Hn.
    split; intros Hcmp.
    + destruct (decide _) as [_|Hc]; [|lia]. simpl.
      rewrite lookup_insert_eq. auto.
    + destruct (decide _) as [Hc|_]; [lia|]. simpl. auto.
  - rewrite fifo_add_data_first by assumption.
    unfold torch_zeros. destruct (decide (buffer_size b < 0)) as [Hneg|_]; [lia|].
    unfold py_setitem. rewrite py_index_nonneg by exact Hn.
    rewrite length_replicate.
    split; intros Hcmp.
    + destruct (decide _) as [_|Hc]; [|lia]. simpl.
      rewrite lookup_insert_eq. auto.
    + destruct (decide _) as [Hc|_]; [lia|]. simpl.
      rewrite lookup_insert_eq. auto.
Qed.
End BufferFIFOFacts.

Lemma fifo_two_reachable : BufferFIFO.reachable fifo_two.
Proof.
  unfold fifo_two. do 2 apply BufferFIFO.reach_add_data.
  apply (BufferFIFO.reach_init 2 None "reservoir"). reflexivity.
Qed.

(** [BufferFIFO_get_all_data_raises] after two calls of [add_data]. *)
Lemma BufferFIFO_get_all_data_raises_witness :
  BufferFIFO.reachable fifo_two /\
  BufferFIFO.get_all_data None fifo_two = Raise AttributeError.
Proof.
  split; [exact fifo_two_reachable|].
  exact (proj2 (BufferFIFO_get_all_data_raises fifo_two None fifo_two_reachable)).
Defined.

(** [BufferFIFO_add_data_no_wraparound] on a full buffer: the third value is
    refused and the two stored values stay. *)
Lemma BufferFIFO_add_data_no_wraparound_witness :
  BufferFIFO.reachable fifo_two /\
  0 <= BufferFIFO.buffer_size fifo_two /\
  BufferFIFO.buffer_size fifo_two <= BufferFIFO.num_seen_examples fifo_two /\
  (BufferFIFO.add_data 9 None None None fifo_two).1 = Raise IndexError /\
  BufferFIFO.tensors (BufferFIFO.add_data 9 None None None fifo_two).2 !! "losses"%string
    = Some [7; 8].
Proof.
  assert (Hsize : 0 <= BufferFIFO.buffer_size fifo_two) by (vm_compute; discriminate).
  assert (Hfull : BufferFIFO.buffer_size fifo_two <= BufferFIFO.num_seen_examples fifo_two)
    by (vm_compute; discriminate).
  split; [exact fifo_two_reachable|]. split; [exact Hsize|]. split; [exact Hfull|].
  pose proof (proj2 (BufferFIFO_add_data_no_wraparound fifo_two 9 None None None
                       fifo_two_reachable Hsize) Hfull) as (Hres & Hten & _).
  split; [exact Hres|]. exact Hten.
Defined.

(** ** The attribute buffer *)

Section BufferFacts.
Context {T : Type} `{Float32 T}.
Import Buffer.

Lemma buf_init_fresh (size : Z) (n_tasks : option Z) (mode : string) (b : Buffer.t T) :
  __init__ size n_tasks mode = Ok b ->
  attributes b = ["examples"; "labels"; "logits"; "task_labels"]%string /\
  num_seen_examples b = 0 /\ tensors b = ∅ /\ buffer_size b = size.
Proof.
  unfold __init__. intros Hinit.
  destruct (decide _); [|discriminate].
  destruct (decide _).
  - destruct n_tasks as [n|]; [|discriminate].
    destruct (py_floordiv size n); simpl in Hinit; [|discriminate].
    injection Hinit as <-. auto.
  - injection Hinit as <-. auto.
Qed.

Lemma buf_inv_init (size : Z) (n_tasks : option Z) (mode : string) (b : Buffer.t T) :
  __init__ size n_tasks mode = Ok b -> buf_inv b.
Proof.
  intros Hinit. apply buf_init_fresh in Hinit as (Ha & Hn & Ht & _).
  split; [exact Ha|]. split; [lia|].
  intros k v Hk. rewrite Ht, lookup_empty in Hk. discriminate.
Qed.

Lemma buf_inv_setattr (b : Buffer.t T) (name : string) (v : list T) :
  buf_inv b -> Z.of_nat (length v) = buffer_size b -> buf_inv (setattr name v b).
Proof.
  intros (Ha & Hn & Ht) Hv. split; [exact Ha|]. split; [exact Hn|].
  intros k w Hk. unfold setattr, set_tensors in Hk. simpl in Hk.
  destruct (decide (name = k)) as [->|Hne].
  - rewrite lookup_insert_eq in Hk. injection Hk as <-. exact Hv.
  - rewrite lookup_insert_ne in Hk by exact Hne. apply (Ht _ _ Hk).
Qed.

Lemma buf_inv_delattr (b : Buffer.t T) (name : string) :
  buf_inv b -> buf_inv (delattr name b).
Proof.
  intros (Ha & Hn & Ht). split; [exact Ha|]. split; [exact Hn|].
  intros k w Hk. simpl in Hk. apply lookup_delete_Some in Hk as [_ Hk]. apply (Ht _ _ Hk).
Qed.

Lemma buf_inv_set_num_seen (b : Buffer.t T) (n : Z) :
  buf_inv b -> 0 <= n -> buf_inv (set_num_seen_examples n b).
Proof.
  intros (Ha & Hn & Ht) Hpos. split; [exact Ha|]. split; [exact Hpos|exact Ht].
Qed.

Lemma buf_inv_init_tensors (examples labels logits task_labels : option (list T)) :
  preserves (@buf_inv T) (init_tensors examples labels logits task_labels).
Proof.
  unfold init_tensors. apply preserves_bind; [apply preserves_get|]. intros self.
  apply preserves_for. intros attr_str.
  apply preserves_bind; [apply preserves_lift|]. intros attr.
  intros b Hb. unfold st_bind, st_get, st_lift.
  destruct attr; [|exact Hb].
  destruct (tensors b !! attr_str); [exact Hb|].
  destruct (torch_zeros (buffer_size b)) as [z|e] eqn:Ez; [|exact Hb].
  simpl. apply buf_inv_setattr; [exact Hb|]. apply (torch_zeros_length _ _ Ez).
Qed.

Lemma buf_inv_setitem_attr (name : string) (index : Z) (v : T) :
  preserves (@buf_inv T) (setitem_attr name index v).
Proof.
  intros b Hb. unfold setitem_attr, st_bind, st_get, st_lift, getattr.
  destruct (tensors b !! name) as [ten|] eqn:E; [|exact Hb].
  destruct (py_setitem ten index (to_float32 v)) as [ten'|e] eqn:Es; [|exact Hb].
  simpl. apply buf_inv_setattr; [exact Hb|].
  rewrite (py_setitem_length _ _ _ _ Es). destruct Hb as (_ & _ & Ht). apply (Ht _ _ E).
Qed.

Lemma buf_inv_store_optional (name : string) (arg : option (list T)) (index i : Z) :
  preserves (@buf_inv T) (store_optional name arg index i).
Proof.
  unfold store_optional. destruct arg as [a|]; [|apply preserves_ret].
  apply preserves_bind; [apply preserves_lift|]. intros v. apply buf_inv_setitem_attr.
Qed.

Lemma buf_inv_add_data (examples : list T) (labels logits task_labels : option (list T)) :
  preserves (@buf_inv T) (add_data examples labels logits task_labels).
Proof.
  unfold add_data. apply preserves_bind; [apply preserves_get|]. intros self.
  apply preserves_bind.
  { destruct (tensors self !! "examples"%string);
      [apply preserves_ret|apply buf_inv_init_tensors]. }
  intros _. apply preserves_for. intros i b Hb.
  unfold st_bind at 1, st_get at 1. unfold st_bind at 1, st_lift at 1.
  destruct (fifo (num_seen_examples b) (buffer_size b)) as [index|e]; [|exact Hb].
  unfold st_bind at 1, st_modify at 1.
  assert (Hb1 : buf_inv (set_num_seen_examples (num_seen_examples b + 1) b)).
  { apply buf_inv_set_num_seen; [exact Hb|]. destruct Hb as (_ & Hn & _). lia. }
  revert Hb1. generalize (set_num_seen_examples (num_seen_examples b + 1) b). intros b1 Hb1.
  destruct (decide (0 <= index)); [|exact Hb1].
  revert b1 Hb1. apply (preserves_bind (@buf_inv T)); [apply preserves_lift|]. intros e.
  apply preserves_bind; [apply buf_inv_setitem_attr|]. intros _.
  apply preserves_bind; [apply buf_inv_store_optional|]. intros _.
  apply preserves_bind; [apply buf_inv_store_optional|]. intros _.
  apply buf_inv_store_optional.
Qed.

Lemma buf_inv_empty : preserves (@buf_inv T) empty.
Proof.
  unfold empty. apply preserves_bind; [apply preserves_get|]. intros self.
  apply preserves_bind.
  - apply preserves_for. intros attr_str b Hb. unfold st_bind, st_get.
    destruct (tensors b !! attr_str); [|exact Hb].
    simpl. apply buf_inv_delattr, Hb.
  - intros _. apply preserves_modify. intros b Hb. apply buf_inv_set_num_seen; [exact Hb|lia].
Qed.

Lemma buf_reachable_inv (b : Buffer.t T) : reachable b -> buf_inv b.
Proof.
  induction 1 as [size n_tasks mode b Hinit|b examples labels logits task_labels _ IH|b _ IH].
  - apply (buf_inv_init _ _ _ _ Hinit).
  - apply buf_inv_add_data, IH.
  - apply buf_inv_empty, IH.
Qed.

(** The loop of [empty] removes every attribute it is run over. *)
Lemma empty_loop_removes (names : list string) (b : Buffer.t T) :
  exists b',
    st_for names (fun attr_str =>
      do self <- st_get;
      match tensors self !! attr_str with
      | Some _ => st_modify (delattr attr_str)
      | None => st_ret tt
      end) b = (Ok tt, b') /\
    forall k, tensors b' !! k = if decide (k ∈ names) then None else tensors b !! k.
Proof.
  revert b. induction names as [|name names IH]; intros b; simpl.
  - exists b. split; [reflexivity|]. intros k.
    destruct (decide (k ∈ [])) as [Hin|_]; [inversion Hin|reflexivity].
  - unfold st_bind at 1. unfold st_bind at 1, st_get at 1.
    assert (Hstep : exists b1,
              (match tensors b !! name with
               | Some _ => st_modify (delattr name)
               | None => st_ret tt
               end) b = (Ok tt, b1) /\
              forall k, tensors b1 !! k = if decide (k = name) then None else tensors b !! k).
    { destruct (tensors b !! name) eqn:E.
      - exists (delattr name b). split; [reflexivity|]. intros k. simpl.
        destruct (decide (k = name)) as [->|Hne].
        + apply lookup_delete_eq.
        + apply lookup_delete_ne. congruence.
      - exists b. split; [reflexivity|]. intros k.
        destruct (decide (k = name)) as [->|Hne]; [exact E|reflexivity]. }
    destruct Hstep as (b1 & -> & Hb1). destruct (IH b1) as (b' & Hrun & Hlk).
    exists b'. split; [exact Hrun|]. intros k. rewrite Hlk.
    destruct (decide (k ∈ names)) as [Hin|Hnin].
    + destruct (decide (k ∈ name :: names)) as [_|Hc]; [reflexivity|].
      exfalso. apply Hc. right. exact Hin.
    + rewrite Hb1. destruct (decide (k = name)) as [->|Hne].
      * destruct (decide (name ∈ name :: names)) as [_|Hc]; [reflexivity|].
        exfalso. apply Hc. left.
      * destruct (decide (k ∈ name :: names)) as [Hc|_]; [|reflexivity].
        apply elem_of_cons in Hc as [Hc|Hc]; contradiction.
Qed.

Lemma empty_deallocates (b : Buffer.t T) :
  attributes b = ["examples"; "labels"; "logits"; "task_labels"]%string ->
  (empty b).1 = Ok tt /\
  tensors (empty b).2 !! "examples"%string = None /\
  num_seen_examples (empty b).2 = 0.
Proof.
  intros Ha. unfold empty, st_bind, st_get.
  destruct (empty_loop_removes (attributes b) b) as (b1 & Hrun & Hlk).
  unfold st_bind, st_get in Hrun. rewrite Hrun. simpl.
  split; [reflexivity|]. split; [|reflexivity].
  rewrite Hlk, Ha. reflexivity.
Qed.

Lemma unallocated_reads_fail {G : Type} `{RandomState G} (b : Buffer.t T) (size : Z)
    (transform : option (T -> T)) (g : G) :
  tensors b !! "examples"%string = None ->
  get_data size transform b g = (Raise AttributeError, g) /\
  get_all_data transform b = Raise AttributeError.
Proof.
  intros E. unfold get_data, get_data_choice, get_all_data, st_bind, st_lift, getattr.
  rewrite E. split; reflexivity.
Qed.

(** C9: on a freshly constructed [Buffer], and on a [Buffer] in the state
    left by [empty()], [get_data] and [get_all_data] raise [AttributeError]
    (the tensors are unallocated); [get_data] fails before it draws. *)
Theorem Buffer_reads_before_add_data_raise {G : Type} `{RandomState G} (b : Buffer.t T)
    (size : Z) (transform : option (T -> T)) (g : G) :
  (exists buffer_size n_tasks mode, __init__ buffer_size n_tasks mode = Ok b) \/
  (exists b0, reachable b0 /\ b = (empty b0).2) ->
  get_data size transform b g = (Raise AttributeError, g) /\
  get_all_data transform b = Raise AttributeError.
Proof.
  intros Hb. apply unallocated_reads_fail.
  destruct Hb as [(size0 & n_tasks & mode & Hinit)|(b0 & Hr & ->)].
  - apply buf_init_fresh in Hinit as (_ & _ & -> & _). apply lookup_empty.
  - apply buf_reachable_inv in Hr as (Ha & _). apply (empty_deallocates b0 Ha).
Qed.
End BufferFacts.

(** ** The windowed view and the stream buffers *)

Lemma py_slice_from_nonneg {A : Type} (k : Z) (l : list A) :
  0 <= k -> py_slice_from k l = drop (Z.to_nat k) l.
Proof. intros Hk. unfold py_slice_from. destruct (decide (k < 0)); [lia|reflexivity]. Qed.

Lemma py_slice_from_neg {A : Type} (k : Z) (l : list A) :
  0 < k -> py_slice_from (- k) l = drop (length l - Z.to_nat k) l.
Proof.
  intros Hk. unfold py_slice_from. destruct (decide (- k < 0)); [|lia].
  rewrite Z.opp_involutive. reflexivity.
Qed.

Lemma py_slice_from_last {A : Type} (pre : list A) (a : A) :
  py_slice_from (-1) (pre ++ [a]) = [a].
Proof.
  rewrite (py_slice_from_neg 1) by lia. rewrite length_app. simpl.
  replace (length pre + 1 - Z.to_nat 1)%nat with (length pre) by lia.
  rewrite drop_app_length. reflexivity.
Qed.

Section StreamFacts.
Context {step side : Type}.

(** C7 (the code departs from it): [__len__] returns the value of the dense
    formula [len(X) - seq_len], or of the strided formula
    [(len(X) - seq_len - pred_len) // sample_freq + 1], as it is; nothing is
    clamped. On a series of 2 time-steps with [seq_len = 5] the dense view
    reports [-3], which [len()] turns into a [ValueError]; the strided view
    with [pred_len = 2] and [sample_freq = 1] reports [-4]; and a strided
    view with [sample_freq = 0] raises [ZeroDivisionError]. *)
Theorem StreamDataset_len_not_clamped :
  (forall (t : tensor3 step) (y lg p f : pyval step side) (s : Z),
     StreamDataset.__len__ (StreamDataset.Make (PTensor t) y lg (PInt s) p f (PBool true))
       = Ok (size1 t - s)) /\
  (forall (t : tensor3 step) (y lg : pyval step side) (s p f : Z),
     StreamDataset.__len__
       (StreamDataset.Make (PTensor t) y lg (PInt s) (PInt p) (PInt f) (PBool false))
       = if decide (f = 0) then Raise ZeroDivisionError else Ok ((size1 t - s - p) / f + 1)) /\
  (forall (a b : step) (lg : list side),
     let t := Tensor3 1 [a; b] 1 in
     let dense := StreamDataset.Make (PTensor t) (PTensor t) (PList lg)
                    (PInt 5) (PInt 2) (PInt 1) (PBool true) in
     let strided := StreamDataset.Make (PTensor t) (PTensor t) (PList lg)
                      (PInt 5) (PInt 2) (PInt 1) (PBool false) in
     StreamDataset.__len__ dense = Ok (-3) /\
     StreamDataset.len dense = Raise ValueError /\
     StreamDataset.__len__ strided = Ok (-4) /\
     StreamDataset.len strided = Raise ValueError).
Proof.
  split; [|split].
  - intros t y lg p f s. reflexivity.
  - intros t y lg s p f. unfold StreamDataset.__len__, py_floordiv. simpl.
    destruct (decide (f = 0)); reflexivity.
  - intros a b lg. repeat split; reflexivity.
Qed.

(** C5 (the code departs from it): [get_data] raises whatever the state and
    the requested size, and on a buffer that holds a series the exception is
    [TypeError]: [StreamDataset] is called with four positional arguments,
    two fewer than its constructor requires, so no view and no loader are
    built. *)
Theorem FastStreamBuffer_get_data_raises (b : FastStreamBuffer.t step)
    (x pred : tensor3 step) (size : Z) :
  (exists e, @FastStreamBuffer.get_data step side size b = Raise e) /\
  ((FastStreamBuffer.add_data x pred b).1 = Ok tt ->
   FastStreamBuffer.x (FastStreamBuffer.add_data x pred b).2 <> None /\
   @FastStreamBuffer.get_data step side size (FastStreamBuffer.add_data x pred b).2
     = Raise TypeError).
Proof.
  split.
  { unfold FastStreamBuffer.get_data, FastStreamBuffer.get_y.
    destruct (FastStreamBuffer.y b); simpl; eauto. }
  intros Hok.
  assert (Hy : exists cur target,
            FastStreamBuffer.x (FastStreamBuffer.add_data x pred b).2 = Some cur /\
            FastStreamBuffer.y (FastStreamBuffer.add_data x pred b).2 = Some target).
  { revert Hok. unfold FastStreamBuffer.add_data, st_bind, st_get, st_modify, st_lift, st_ret.
    destruct (FastStreamBuffer.x b) as [cur|]; simpl.
    - destruct (decide _); simpl.
      + destruct (torch_cat1 _ _) as [c|e]; simpl; [|discriminate].
        destruct (torch_cat1 c pred) as [tg|e]; simpl; [|discriminate]. eauto.
      + destruct (torch_cat1 _ _) as [c|e]; simpl; [|discriminate].
        destruct (torch_cat1 c pred) as [tg|e]; simpl; [|discriminate]. eauto.
    - eauto. }
  destruct Hy as (cur & target & Hx & Hy). split; [congruence|].
  unfold FastStreamBuffer.get_data, FastStreamBuffer.get_y. rewrite Hy. reflexivity.
Qed.

Lemma torch_cat1_agree (a b : tensor3 step) :
  shape0 b = shape0 a /\ shape2 b = shape2 a ->
  torch_cat1 a b = Ok (Tensor3 (shape0 a) (steps a ++ steps b) (shape2 a)).
Proof.
  intros [H0 H2]. unfold torch_cat1.
  destruct (decide _) as [_|Hc]; [reflexivity|]. exfalso. apply Hc. split; congruence.
Qed.

(** [add_data] on a buffer that already holds the series [cur]. *)
Lemma fast_add_data_later (b : FastStreamBuffer.t step) (x_new pred cur : tensor3 step) :
  FastStreamBuffer.x b = Some cur ->
  shape0 x_new = shape0 cur /\ shape2 x_new = shape2 cur ->
  shape0 pred = shape0 cur /\ shape2 pred = shape2 cur ->
  let kept := if decide (FastStreamBuffer.buffer_size b <= FastStreamBuffer.length b)
              then py_slice_from 1 (steps cur) else steps cur in
  let cur' := Tensor3 (shape0 cur) (kept ++ py_slice_from (-1) (steps x_new)) (shape2 cur) in
  FastStreamBuffer.add_data x_new pred b =
    (Ok tt,
     FastStreamBuffer.Make (FastStreamBuffer.buffer_size b) (FastStreamBuffer.seq_len b)
       (FastStreamBuffer.pred_len b) (Some cur')
       (Some (Tensor3 (shape0 cur) (steps cur' ++ steps pred) (shape2 cur)))
       (size1 cur' - FastStreamBuffer.seq_len b)).
Proof.
  intros Hx Hxs Hps kept cur'. subst kept cur'.
  unfold FastStreamBuffer.add_data, st_bind, st_get, st_modify, st_lift, st_ret.
  rewrite Hx.
  destruct (decide (FastStreamBuffer.buffer_size b <= FastStreamBuffer.length b)); simpl.
  - rewrite torch_cat1_agree by exact Hxs. simpl.
    rewrite torch_cat1_agree by exact Hps. reflexivity.
  - rewrite torch_cat1_agree by exact Hxs. simpl.
    rewrite torch_cat1_agree by exact Hps. reflexivity.
Qed.

(** C4, as the code has it: the first [add_data] stores the full series and
    sets the length field to 0, whatever the series length. Every later
    [add_data] (on tensors whose batch and feature sizes agree) returns and
    leaves the length field equal to the series length minus [seq_len]; it
    appends the newest time-step of [x], after dropping the oldest time-step
    of the series when the length field had reached [buffer_size] on entry:
    then one time-step goes, one comes, and the series length is unchanged. *)
Theorem FastStreamBuffer_add_data_length (b : FastStreamBuffer.t step)
    (x_new pred : tensor3 step) :
  let out := FastStreamBuffer.add_data x_new pred b in
  (FastStreamBuffer.x b = None ->
     out.1 = Ok tt /\
     FastStreamBuffer.x out.2 = Some x_new /\
     FastStreamBuffer.y out.2 = Some pred /\
     FastStreamBuffer.length out.2 = 0) /\
  (forall cur : tensor3 step,
     FastStreamBuffer.x b = Some cur ->
     shape0 x_new = shape0 cur /\ shape2 x_new = shape2 cur ->
     shape0 pred = shape0 cur /\ shape2 pred = shape2 cur ->
     exists cur' : tensor3 step,
       out.1 = Ok tt /\
       FastStreamBuffer.x out.2 = Some cur' /\
       FastStreamBuffer.seq_len out.2 = FastStreamBuffer.seq_len b /\
       FastStreamBuffer.buffer_size out.2 = FastStreamBuffer.buffer_size b /\
       FastStreamBuffer.length out.2 = size1 cur' - FastStreamBuffer.seq_len out.2 /\
       (FastStreamBuffer.length b < FastStreamBuffer.buffer_size b ->
          steps cur' = steps cur ++ py_slice_from (-1) (steps x_new)) /\
       (FastStreamBuffer.buffer_size b <= FastStreamBuffer.length b ->
          steps cur' = drop 1 (steps cur) ++ py_slice_from (-1) (steps x_new) /\
          forall (oldest newest : step) (rest earlier : list step),
            steps cur = oldest :: rest ->
            steps x_new = earlier ++ [newest] ->
            steps cur' = rest ++ [newest] /\ size1 cur' = size1 cur)).
Proof.
  intros out. subst out. split.
  - intros Hx. unfold FastStreamBuffer.add_data, st_bind, st_get, st_modify.
    rewrite Hx. simpl. auto.
  - intros cur Hx Hxs Hps.
    rewrite (fast_add_data_later b x_new pred cur Hx Hxs Hps). simpl.
    eexists. split; [reflexivity|]. split; [reflexivity|].
    split; [reflexivity|]. split; [reflexivity|]. split; [reflexivity|]. simpl.
    destruct (decide (FastStreamBuffer.buffer_size b <= FastStreamBuffer.length b))
      as [Hfull|Hroom].
    + split; [intros Hlt; lia|]. intros _.
      rewrite (py_slice_from_nonneg 1) by lia. split; [reflexivity|].
      intros oldest newest rest earlier Hcur Hnew. rewrite Hcur, Hnew, py_slice_from_last.
      simpl. rewrite drop_0. split; [reflexivity|].
      unfold size1. simpl. rewrite Hcur, length_app. simpl. lia.
    + split; [intros _; reflexivity|]. intros Hge. lia.
Qed.

(** [add_data] on a buffer that already holds the series [cur]. *)
Lemma slow_add_data_later (b : SlowStreamBuffer.t step side) (x_new cur : tensor3 step)
    (logits_new : side) :
  SlowStreamBuffer.x b = Some cur ->
  let full := bool_decide (SlowStreamBuffer.buffer_size b <= SlowStreamBuffer.length b) in
  let b1 := if full
            then SlowStreamBuffer.set_logits (py_slice_from 1 (SlowStreamBuffer.logits b))
                   (SlowStreamBuffer.set_x
                      (Some (slice1_from (SlowStreamBuffer.sample_freq b) cur)) b)
            else b in
  let kept := if full then slice1_from (SlowStreamBuffer.sample_freq b) cur else cur in
  SlowStreamBuffer.add_data x_new logits_new b =
    match torch_cat1 kept (slice1_from (- SlowStreamBuffer.sample_freq b) x_new) with
    | Raise e => (Raise e, b1)
    | Ok cur' =>
        let b2 := SlowStreamBuffer.set_logits (SlowStreamBuffer.logits b1 ++ [logits_new])
                    (SlowStreamBuffer.set_x (Some cur') b1) in
        let rest := size1 cur' - SlowStreamBuffer.seq_len b - SlowStreamBuffer.pred_len b in
        if decide (0 <= rest) then
          match py_floordiv rest (SlowStreamBuffer.sample_freq b) with
          | Ok q => (Ok tt, SlowStreamBuffer.set_length (q + 1) b2)
          | Raise e => (Raise e, b2)
          end
        else (Ok tt, SlowStreamBuffer.set_length 0 b2)
    end.
Proof.
  intros Hx full b1 kept. subst full b1 kept.
  unfold SlowStreamBuffer.add_data, st_bind, st_get, st_modify, st_lift, st_ret.
  rewrite Hx.
  destruct (decide (SlowStreamBuffer.buffer_size b <= SlowStreamBuffer.length b)) as [Hf|Hf].
  - rewrite bool_decide_eq_true_2 by exact Hf. simpl.
    destruct (torch_cat1 _ _) as [cur'|e]; simpl; [|reflexivity].
    destruct (decide _); simpl; [|reflexivity].
    destruct (py_floordiv _ _); reflexivity.
  - rewrite bool_decide_eq_false_2 by exact Hf. simpl.
    destruct (torch_cat1 _ _) as [cur'|e]; simpl; [|destruct b; reflexivity].
    destruct (decide _); simpl; [|reflexivity].
    destruct (py_floordiv _ _); reflexivity.
Qed.

Lemma torch_cat1_steps (a b c : tensor3 step) :
  torch_cat1 a b = Ok c ->
  steps c = steps a ++ steps b /\ shape0 b = shape0 a /\ shape2 b = shape2 a.
Proof.
  unfold torch_cat1. destruct (decide _) as [[H0 H2]|_]; [|discriminate].
  intros [= <-]. simpl. auto.
Qed.

Lemma py_slice_from_neg_length {A : Type} (k : Z) (l : list A) :
  0 < k <= Z.of_nat (length l) -> Z.of_nat (length (py_slice_from (- k) l)) = k.
Proof.
  intros Hk. rewrite py_slice_from_neg by lia. rewrite length_drop. lia.
Qed.

(** After a call of [add_data] that returned, the side-channel list is not
    empty. *)
Lemma slow_add_data_logits (b0 : SlowStreamBuffer.t step side) (x0 : tensor3 step) (l0 : side) :
  (SlowStreamBuffer.add_data x0 l0 b0).1 = Ok tt ->
  SlowStreamBuffer.logits (SlowStreamBuffer.add_data x0 l0 b0).2 <> [].
Proof.
  destruct (SlowStreamBuffer.x b0) as [c0|] eqn:Hx.
  - rewrite (slow_add_data_later b0 x0 c0 l0 Hx).
    destruct (torch_cat1 _ _) as [c1|e]; [|discriminate]. cbv zeta.
    destruct (decide _); [destruct (py_floordiv _ _); [|discriminate]|];
      intros _ Hnil; simpl in Hnil; apply app_eq_nil in Hnil as [_ Hnil]; discriminate.
  - unfold SlowStreamBuffer.add_data, st_bind, st_get, st_modify. rewrite Hx. simpl.
    intros _. discriminate.
Qed.

(** C6: with a positive stride, an [add_data] call after the first that
    finds the length field at or above [buffer_size] (and a series [x] that
    agrees in size with the stored one) returns, having dropped the oldest
    time-steps of the series, [sample_freq] of them or all of them when
    there are fewer, and the oldest side-channel entry, and appended the
    newest time-steps of [x], again [sample_freq] of them or all of them
    when there are fewer, and the new [logits]; the length field becomes
    [(n - seq_len - pred_len) // sample_freq + 1] for a series of
    [n >= seq_len + pred_len] time-steps, and 0 for a shorter one. There is
    a side-channel entry to drop on a buffer left by a call that returned. *)
Theorem SlowStreamBuffer_add_data_evicts (b : SlowStreamBuffer.t step side)
    (x_new cur : tensor3 step) (logits_new : side) :
  0 < SlowStreamBuffer.sample_freq b ->
  SlowStreamBuffer.x b = Some cur ->
  SlowStreamBuffer.buffer_size b <= SlowStreamBuffer.length b ->
  shape0 x_new = shape0 cur /\ shape2 x_new = shape2 cur ->
  let out := SlowStreamBuffer.add_data x_new logits_new b in
  let sf := SlowStreamBuffer.sample_freq b in
  exists (dropped rest earlier newest : list step) (cur' : tensor3 step),
    steps cur = dropped ++ rest /\
    Z.of_nat (length dropped) = Z.min sf (size1 cur) /\
    steps x_new = earlier ++ newest /\
    Z.of_nat (length newest) = Z.min sf (size1 x_new) /\
    out.1 = Ok tt /\
    SlowStreamBuffer.x out.2 = Some cur' /\
    steps cur' = rest ++ newest /\
    SlowStreamBuffer.logits out.2 = drop 1 (SlowStreamBuffer.logits b) ++ [logits_new] /\
    SlowStreamBuffer.length out.2 =
      (if decide (SlowStreamBuffer.seq_len b + SlowStreamBuffer.pred_len b <= size1 cur')
       then (size1 cur' - SlowStreamBuffer.seq_len b - SlowStreamBuffer.pred_len b) / sf + 1
       else 0) /\
    (forall (b0 : SlowStreamBuffer.t step side) (x0 : tensor3 step) (l0 : side),
       b = (SlowStreamBuffer.add_data x0 l0 b0).2 ->
       (SlowStreamBuffer.add_data x0 l0 b0).1 = Ok tt ->
       exists (oldest : side) (lrest : list side),
         SlowStreamBuffer.logits b = oldest :: lrest /\
         SlowStreamBuffer.logits out.2 = lrest ++ [logits_new]).
Proof.
  intros Hsf Hx Hfull Hshape out sf. subst out sf.
  exists (take (Z.to_nat (SlowStreamBuffer.sample_freq b)) (steps cur)),
         (drop (Z.to_nat (SlowStreamBuffer.sample_freq b)) (steps cur)),
         (take (length (steps x_new) - Z.to_nat (SlowStreamBuffer.sample_freq b))
               (steps x_new)),
         (drop (length (steps x_new) - Z.to_nat (SlowStreamBuffer.sample_freq b))
               (steps x_new)).
  rewrite (slow_add_data_later b x_new cur logits_new Hx).
  rewrite bool_decide_eq_true_2 by exact Hfull.
  rewrite torch_cat1_agree by exact Hshape. simpl.
  rewrite (py_slice_from_nonneg (SlowStreamBuffer.sample_freq b)) by lia.
  rewrite (py_slice_from_neg (SlowStreamBuffer.sample_freq b)) by lia.
  rewrite (py_slice_from_nonneg 1) by lia.
  change (Z.to_nat 1) with 1%nat.
  assert (Hlast : forall (b0 : SlowStreamBuffer.t step side) (x0 : tensor3 step) (l0 : side),
            b = (SlowStreamBuffer.add_data x0 l0 b0).2 ->
            (SlowStreamBuffer.add_data x0 l0 b0).1 = Ok tt ->
            exists (oldest : side) (lrest : list side),
              SlowStreamBuffer.logits b = oldest :: lrest /\
              drop 1 (SlowStreamBuffer.logits b) ++ [logits_new] = lrest ++ [logits_new]).
  { intros b0 x0 l0 Hb Hok. pose proof (slow_add_data_logits b0 x0 l0 Hok) as Hne.
    rewrite <- Hb in Hne.
    destruct (SlowStreamBuffer.logits b) as [|oldest lrest]; [contradiction|].
    exists oldest, lrest. split; reflexivity. }
  eexists. split; [symmetry; apply take_drop|].
  split; [rewrite length_take; unfold size1; lia|].
  split; [symmetry; apply take_drop|].
  split; [rewrite length_drop; unfold size1; lia|].
  match goal with
  | |- context [decide (0 <= ?r)] => destruct (decide (0 <= r)) as [Hpos|Hneg]
  end.
  - unfold py_floordiv. destruct (decide (SlowStreamBuffer.sample_freq b = 0)); [lia|].
    simpl. split; [reflexivity|]. split; [reflexivity|]. split; [reflexivity|].
    split; [reflexivity|]. split; [|exact Hlast].
    destruct (decide _) as [_|Hc]; [reflexivity|]. simpl in Hc. lia.
  - simpl. split; [reflexivity|]. split; [reflexivity|]. split; [reflexivity|].
    split; [reflexivity|]. split; [|exact Hlast].
    destruct (decide _) as [Hc|_]; [|reflexivity]. simpl in Hc. lia.
Qed.
End StreamFacts.

(** ** Sampling without replacement *)

Lemma swap_length (x : list Z) (i j : nat) : length (swap x i j) = length x.
Proof.
  unfold swap. destruct (x !! i), (x !! j); try reflexivity.
  rewrite !length_insert. reflexivity.
Qed.

(** A swap reads every position from the position the transposition of [i]
    and [j] sends it to. *)
Lemma swap_lookup (x : list Z) (i j k : nat) :
  (i < length x)%nat -> (j < length x)%nat ->
  swap x i j !! k = x !! (if decide (k = j) then i else if decide (k = i) then j else k).
Proof.
  intros Hi Hj. unfold swap.
  destruct (lookup_lt_is_Some_2 x i Hi) as [a Ha].
  destruct (lookup_lt_is_Some_2 x j Hj) as [b Hb].
  rewrite Ha, Hb. destruct (decide (k = j)) as [->|Hkj].
  - rewrite list_lookup_insert_eq by (rewrite length_insert; exact Hj). symmetry. exact Ha.
  - rewrite list_lookup_insert_ne by congruence.
    destruct (decide (k = i)) as [->|Hki].
    + rewrite list_lookup_insert_eq by exact Hi. symmetry. exact Hb.
    + rewrite list_lookup_insert_ne by congruence. reflexivity.
Qed.

Lemma swap_in_range (x : list Z) (i j : nat) :
  (i < length x)%nat /\ (j < length x)%nat \/ swap x i j = x.
Proof.
  unfold swap. destruct (x !! i) eqn:Ei; [|right; reflexivity].
  destruct (x !! j) eqn:Ej; [|right; reflexivity].
  left. split; eapply lookup_lt_Some; eassumption.
Qed.

Lemma swap_NoDup (x : list Z) (i j : nat) : NoDup x -> NoDup (swap x i j).
Proof.
  intros Hnd. destruct (swap_in_range x i j) as [[Hi Hj]| ->]; [|exact Hnd].
  apply NoDup_alt. intros k1 k2 v H1 H2.
  rewrite swap_lookup in H1, H2 by assumption.
  pose proof (proj1 (NoDup_alt x) Hnd _ _ _ H1 H2) as Heq.
  revert Heq. repeat (destruct (decide _)); intros; subst; congruence.
Qed.

Lemma swap_elem_of (x : list Z) (i j : nat) (v : Z) : v ∈ swap x i j -> v ∈ x.
Proof.
  destruct (swap_in_range x i j) as [[Hi Hj]| ->]; [|auto].
  intros Hin. apply list_elem_of_lookup in Hin as [k Hk].
  rewrite swap_lookup in Hk by assumption.
  apply list_elem_of_lookup. eauto.
Qed.

Section ChoiceFacts.
Context {G : Type} `{RandomState G}.

Lemma shuffle_from_spec (i : nat) (x : list Z) (g : G) :
  NoDup x ->
  NoDup (shuffle_from i x g).1 /\
  length (shuffle_from i x g).1 = length x /\
  forall v, v ∈ (shuffle_from i x g).1 -> v ∈ x.
Proof.
  revert x g. induction i as [|i IH]; intros x g Hnd; simpl.
  - auto.
  - destruct (random_interval (Z.of_nat (S i)) g) as [j g'].
    destruct (IH (swap x (S i) (Z.to_nat j)) g') as (Hnd' & Hlen & Hin).
    + apply swap_NoDup, Hnd.
    + split; [exact Hnd'|]. split; [rewrite Hlen; apply swap_length|].
      intros v Hv. eapply swap_elem_of, Hin, Hv.
Qed.

Lemma py_range_spec (n : Z) :
  NoDup (py_range n) /\
  Z.of_nat (length (py_range n)) = Z.max 0 n /\
  forall v, v ∈ py_range n -> 0 <= v < n.
Proof.
  unfold py_range. split; [|split].
  - apply NoDup_fmap_2; [intros a b; apply Nat2Z.inj|apply NoDup_seq].
  - rewrite length_map, length_seq. lia.
  - intros v Hv. apply list_elem_of_fmap in Hv as (k & -> & Hk).
    apply elem_of_seq in Hk. lia.
Qed.

(** What [np.random.choice(a, size, replace=False)] returns: [size] pairwise
    distinct numbers of [[0, a)]; and it returns whenever [0 <= size <= a]. *)
Lemma np_random_choice_spec (a size : Z) (g : G) :
  (forall choice g', np_random_choice a size g = (Ok choice, g') ->
     NoDup choice /\ Z.of_nat (length choice) = size /\
     forall v, v ∈ choice -> 0 <= v < a) /\
  (0 <= size <= a -> exists choice g', np_random_choice a size g = (Ok choice, g')).
Proof.
  unfold np_random_choice, np_random_permutation.
  destruct (py_range_spec a) as (Hnd & Hlen & Hin).
  destruct (shuffle_from_spec (Z.to_nat a - 1) (py_range a) g Hnd) as (Hnd' & Hlen' & Hin').
  destruct (shuffle_from (Z.to_nat a - 1) (py_range a) g) as [p g1]. simpl in *.
  split.
  - intros choice g'.
    destruct (decide (a <= 0 /\ size <> 0)); [discriminate|].
    destruct (decide (a < size)); [discriminate|].
    destruct (decide (size < 0)); [discriminate|].
    intros [= <- <-]. split; [|split].
    + eapply sublist_NoDup; [exact Hnd'|apply sublist_take].
    + rewrite length_take. lia.
    + intros v Hv. apply Hin, Hin'. eapply subseteq_take, Hv.
  - intros Hsize.
    destruct (decide (a <= 0 /\ size <> 0)); [lia|].
    destruct (decide (a < size)); [lia|].
    destruct (decide (size < 0)); [lia|]. eauto.
Qed.
End ChoiceFacts.

Lemma gather_length {T : Type} (t : list T) (choice : list Z) (rows : list T) :
  gather t choice = Ok rows -> length rows = length choice.
Proof.
  revert rows. induction choice as [|i choice IH]; intros rows; simpl.
  - intros [= <-]. reflexivity.
  - destruct (py_getitem t i) as [a|e]; simpl; [|discriminate].
    destruct (gather t choice) as [r|e]; simpl; [|discriminate].
    intros [= <-]. simpl. f_equal. apply IH. reflexivity.
Qed.

Lemma py_getitem_in_range {T : Type} (t : list T) (i : Z) :
  0 <= i < Z.of_nat (length t) -> exists a, py_getitem t i = Ok a.
Proof.
  intros Hi. unfold py_getitem. rewrite py_index_nonneg by lia.
  destruct (decide _) as [_|Hc]; [|lia]. simpl.
  destruct (lookup_lt_is_Some_2 t (Z.to_nat i)) as [a Ha]; [lia|].
  rewrite Ha. eauto.
Qed.

Lemma gather_in_range {T : Type} (t : list T) (choice : list Z) :
  (forall i, i ∈ choice -> 0 <= i < Z.of_nat (length t)) ->
  exists rows, gather t choice = Ok rows.
Proof.
  induction choice as [|i choice IH]; intros Hin; simpl.
  - eauto.
  - destruct (py_getitem_in_range t i) as [a ->]; [apply Hin; left|].
    destruct IH as [r ->]; [intros k Hk; apply Hin; right; exact Hk|].
    simpl. eauto.
Qed.

Section GetDataFacts.
Context {T : Type} `{Float32 T} {G : Type} `{RandomState G}.
Import Buffer.

Lemma other_attributes_gather_length (names : list string) (choice : list Z)
    (b : Buffer.t T) (others : list (list T)) :
  other_attributes names (fun attr => gather attr choice) b = Ok others ->
  Forall (fun comp => length comp = length choice) others.
Proof.
  revert others. induction names as [|name names IH]; intros others; simpl.
  - intros [= <-]. constructor.
  - destruct (tensors b !! name) as [attr|]; [|apply IH].
    destruct (gather attr choice) as [a|e] eqn:Ea; simpl; [|discriminate].
    destruct (other_attributes names _ b) as [r|e]; simpl; [|discriminate].
    intros [= <-]. constructor; [apply (gather_length _ _ _ Ea)|apply IH; reflexivity].
Qed.

Lemma other_attributes_gather_total (names : list string) (choice : list Z) (b : Buffer.t T) :
  (forall k v i, tensors b !! k = Some v -> i ∈ choice -> 0 <= i < Z.of_nat (length v)) ->
  exists others, other_attributes names (fun attr => gather attr choice) b = Ok others.
Proof.
  intros Hrange. induction names as [|name names [r IH]]; simpl.
  - eauto.
  - destruct (tensors b !! name) as [attr|] eqn:E; [|eauto].
    destruct (gather_in_range attr choice) as [a ->]; [intros i Hi; eapply Hrange; eassumption|].
    rewrite IH. simpl. eauto.
Qed.

Lemma get_data_choice_spec (b : Buffer.t T) (examples : list T) (size : Z) (g : G) :
  tensors b !! "examples"%string = Some examples ->
  let n := Z.min (num_seen_examples b) (Z.of_nat (length examples)) in
  get_data_choice size b g = np_random_choice n (if decide (n < size) then n else size) g.
Proof.
  intros E n. unfold get_data_choice, st_bind, st_lift, getattr. rewrite E. reflexivity.
Qed.

(** C3: when [get_data] returns, the subscripts [choice] it drew are
    pairwise distinct members of [[0, n)], for [n] the smaller of the
    counter and the capacity; there are [min(size, n)] of them, so never more
    than that; and every tensor of the returned tuple holds exactly one item
    per subscript, the first being the transformed examples at [choice]. It
    does return on a buffer of positive capacity to which data was added,
    for a request of at least one item. *)
Theorem Buffer_get_data_distinct (b : Buffer.t T) (size : Z) (transform : option (T -> T))
    (g : G) :
  (forall ret g', get_data size transform b g = (Ok ret, g') ->
     exists (examples : list T) (choice : list Z) (rows : list T),
       tensors b !! "examples"%string = Some examples /\
       get_data_choice size b g = (Ok choice, g') /\
       NoDup choice /\
       (forall i, i ∈ choice ->
          0 <= i < Z.min (num_seen_examples b) (Z.of_nat (length examples))) /\
       Z.of_nat (length choice) =
         Z.min size (Z.min (num_seen_examples b) (Z.of_nat (length examples))) /\
       gather examples choice = Ok rows /\
       head ret = Some (map (default (fun x => x) transform) rows) /\
       Forall (fun comp => length comp = length choice) ret) /\
  (reachable b -> 0 < buffer_size b -> 1 <= num_seen_examples b -> 1 <= size ->
   is_Some (tensors b !! "examples"%string) ->
   exists ret g', get_data size transform b g = (Ok ret, g')).
Proof.
  split.
  - intros ret g' Hrun.
    destruct (tensors b !! "examples"%string) as [examples|] eqn:E.
    2:{ unfold get_data, get_data_choice, st_bind, st_lift, getattr in Hrun.
        rewrite E in Hrun. discriminate. }
    pose proof (get_data_choice_spec b examples size g E) as Hchoice. simpl in Hchoice.
    unfold get_data, st_bind in Hrun.
    destruct (get_data_choice size b g) as [[choice|e] g1] eqn:Hc; [|discriminate].
    unfold st_lift, getattr in Hrun. rewrite E in Hrun. simpl in Hrun.
    destruct (gather examples choice) as [rows|e] eqn:Hrows; simpl in Hrun; [|discriminate].
    destruct (torch_stack _) as [first|e] eqn:Hstack; simpl in Hrun; [|discriminate].
    destruct (other_attributes _ _ b) as [others|e] eqn:Hothers; simpl in Hrun; [|discriminate].
    injection Hrun as <- <-.
    symmetry in Hchoice.
    match type of Hchoice with
    | np_random_choice ?a ?k _ = _ =>
        destruct (np_random_choice_spec a k g) as [Hspec _]
    end.
    destruct (Hspec _ _ Hchoice) as (Hnd & Hlen & Hin).
    exists examples, choice, rows.
    split; [reflexivity|]. split; [reflexivity|]. split; [exact Hnd|].
    split; [exact Hin|]. split; [rewrite Hlen; destruct (decide _); lia|].
    split; [exact Hrows|].
    assert (Hfirst : first = map (default (fun x => x) transform) rows).
    { unfold torch_stack in Hstack. destruct (map _ rows); [discriminate|].
      injection Hstack as <-. reflexivity. }
    subst first. split; [reflexivity|]. constructor.
    + rewrite length_map. apply (gather_length _ _ _ Hrows).
    + apply (other_attributes_gather_length _ _ _ _ Hothers).
  - intros Hr Hsize Hseen Hreq [examples E].
    apply buf_reachable_inv in Hr as (_ & _ & Ht).
    pose proof (Ht _ _ E) as Hlen.
    pose proof (get_data_choice_spec b examples size g E) as Hchoice. simpl in Hchoice.
    destruct (np_random_choice_spec
                (Z.min (num_seen_examples b) (Z.of_nat (length examples)))
                (if decide (Z.min (num_seen_examples b) (Z.of_nat (length examples)) < size)
                 then Z.min (num_seen_examples b) (Z.of_nat (length examples)) else size) g)
      as [Hspec Htotal].
    destruct Htotal as (choice & g' & Hrun); [destruct (decide _); lia|].
    destruct (Hspec _ _ Hrun) as (Hnd & Hclen & Hin).
    unfold get_data, st_bind. rewrite Hchoice, Hrun.
    unfold st_lift, getattr. rewrite E. simpl.
    destruct (gather_in_range examples choice) as [rows Hrows].
    { intros i Hi. specialize (Hin i Hi). lia. }
    rewrite Hrows. simpl.
    assert (Hne : rows <> []).
    { intros ->. apply gather_length in Hrows. simpl in Hrows.
      destruct (decide _); lia. }
    destruct rows as [|r rows]; [contradiction|]. simpl.
    destruct (other_attributes_gather_total
                (py_slice_from 1 (attributes b)) choice b) as [others ->].
    { intros k v i Hk Hi. specialize (Hin i Hi). rewrite (Ht _ _ Hk). lia. }
    simpl. eauto.
Qed.
End GetDataFacts.

(** ** Writing through the fifo policy *)

Lemma fifo_write_app {T : Type} `{Float32 T} (bs n : Z) (slots xs ys : list T) :
  fifo_write bs n slots (xs ++ ys)
  = fifo_write bs (n + Z.of_nat (length xs)) (fifo_write bs n slots xs) ys.
Proof.
  revert n slots. induction xs as [|x xs IH]; intros n slots; simpl.
  - rewrite Z.add_0_r. reflexivity.
  - rewrite IH. f_equal. lia.
Qed.

Lemma fifo_write_length {T : Type} `{Float32 T} (bs n : Z) (slots items : list T) :
  length (fifo_write bs n slots items) = length slots.
Proof.
  revert n slots. induction items as [|e items IH]; intros n slots; simpl; [reflexivity|].
  rewrite IH. apply length_insert.
Qed.

Section AddDataFacts.
Context {T : Type} `{Float32 T}.
Import Buffer.

Lemma st_for_ext {S A : Type} (xs : list A) (f g : A -> stateful S unit) (s : S) :
  (forall a s', f a s' = g a s') -> st_for xs f s = st_for xs g s.
Proof.
  intros Hfg. revert s. induction xs as [|a xs IH]; intros s; simpl; [reflexivity|].
  unfold st_bind. rewrite Hfg. destruct (g a s) as [[[]|e] s']; [apply IH|reflexivity].
Qed.

Lemma add_data_unfold (examples : list T) (labels logits task_labels : option (list T))
    (b : Buffer.t T) :
  add_data examples labels logits task_labels b =
    (do self <- st_get;
     (match tensors self !! "examples"%string with
      | None => init_tensors (Some examples) labels logits task_labels
      | Some _ => st_ret tt
      end) ;;
     st_for (py_range (Z.of_nat (length examples)))
            (add_data_item examples labels logits task_labels)) b.
Proof.
  unfold add_data, st_bind at 1 2, st_get at 1. symmetry.
  unfold st_bind at 1 2, st_get at 1. symmetry.
  destruct (match tensors b !! "examples"%string with
            | Some _ => st_ret tt
            | None => init_tensors (Some examples) labels logits task_labels
            end b) as [[[]|e] b1]; [|reflexivity].
  apply st_for_ext. intros i s. unfold add_data_item, store_optional, st_bind, st_get, st_lift.
  destruct (fifo _ _) as [index|e]; [|reflexivity]. simpl.
  destruct (decide (0 <= index)); [|reflexivity].
  destruct (py_getitem examples i); [|reflexivity].
  destruct (setitem_attr _ _ _ _) as [[[]|e] s1]; reflexivity.
Qed.

(** One guarded store: the slot [index] of the attribute receives item [i]
    of the argument, converted to float32. *)
Lemma store_optional_spec (name : string) (arg : option (list T)) (index : Z) (i : nat)
    (b : Buffer.t T) :
  0 <= index < buffer_size b ->
  (forall k v, tensors b !! k = Some v -> Z.of_nat (length v) = buffer_size b) ->
  (forall a, arg = Some a -> is_Some (tensors b !! name) /\ (i < length a)%nat) ->
  exists b',
    store_optional name arg index (Z.of_nat i) b = (Ok tt, b') /\
    num_seen_examples b' = num_seen_examples b /\
    buffer_size b' = buffer_size b /\
    (forall k v, tensors b' !! k = Some v -> Z.of_nat (length v) = buffer_size b') /\
    forall k,
      tensors b' !! k =
        if decide (k = name) then
          match arg, tensors b !! name with
          | Some a, Some o => Some (<[Z.to_nat index := to_float32 (default zeros (a !! i))]> o)
          | _, _ => tensors b !! name
          end
        else tensors b !! k.
Proof.
  intros Hindex Hlen Harg. destruct arg as [a|]; simpl.
  - destruct (Harg a eq_refl) as [[o Ho] Hi].
    unfold st_bind, st_lift. unfold py_getitem.
    rewrite py_index_nonneg by lia.
    destruct (decide _) as [_|Hc]; [|lia]. simpl. rewrite Nat2Z.id.
    destruct (lookup_lt_is_Some_2 a i Hi) as [v Hv]. rewrite Hv.
    unfold setitem_attr, st_bind, st_get, st_lift, getattr. rewrite Ho.
    unfold py_setitem. rewrite py_index_nonneg by lia.
    destruct (decide _) as [_|Hc]; [|rewrite (Hlen _ _ Ho) in Hc; lia]. simpl.
    eexists. split; [reflexivity|]. split; [reflexivity|]. split; [reflexivity|]. split.
    + intros k w. simpl. destruct (decide (name = k)) as [->|Hne].
      * rewrite lookup_insert_eq. intros [= <-]. rewrite length_insert. apply (Hlen _ _ Ho).
      * rewrite lookup_insert_ne by exact Hne. apply Hlen.
    + intros k. simpl. destruct (decide (k = name)) as [->|Hne].
      * apply lookup_insert_eq.
      * apply lookup_insert_ne. congruence.
  - exists b. split; [reflexivity|]. split; [reflexivity|]. split; [reflexivity|].
    split; [exact Hlen|].
    intros k. destruct (decide (k = name)) as [->|Hne]; [|reflexivity].
    destruct (tensors b !! name); reflexivity.
Qed.

(** One turn of the loop: the slot is the counter modulo the capacity, the
    counter advances by one, and every attribute whose argument was given
    receives item [i] at that slot. *)
Lemma add_data_item_spec (examples : list T) (labels logits task_labels : option (list T))
    (i : nat) (b : Buffer.t T) :
  0 < buffer_size b ->
  0 <= num_seen_examples b ->
  (forall k v, tensors b !! k = Some v -> Z.of_nat (length v) = buffer_size b) ->
  (forall name a, add_data_arg examples labels logits task_labels name = Some a ->
                  is_Some (tensors b !! name) /\ (i < length a)%nat) ->
  exists b',
    add_data_item examples labels logits task_labels (Z.of_nat i) b = (Ok tt, b') /\
    num_seen_examples b' = num_seen_examples b + 1 /\
    buffer_size b' = buffer_size b /\
    (forall k v, tensors b' !! k = Some v -> Z.of_nat (length v) = buffer_size b') /\
    forall name,
      tensors b' !! name =
        match add_data_arg examples labels logits task_labels name, tensors b !! name with
        | Some a, Some o =>
            Some (<[Z.to_nat (num_seen_examples b mod buffer_size b)
                    := to_float32 (default zeros (a !! i))]> o)
        | _, _ => tensors b !! name
        end.
Proof.
  intros Hsize Hseen Hlen Hargs.
  pose proof (Z.mod_pos_bound (num_seen_examples b) (buffer_size b) Hsize) as Hidx.
  unfold add_data_item, st_bind at 1, st_get at 1, st_bind at 1, st_lift at 1.
  unfold fifo, py_mod. destruct (decide (buffer_size b = 0)) as [Hz|_]; [lia|].
  unfold st_bind at 1, st_modify at 1.
  destruct (decide (0 <= num_seen_examples b mod buffer_size b)) as [_|Hc]; [|lia].
  set (idx := num_seen_examples b mod buffer_size b) in *.
  set (b0 := set_num_seen_examples (num_seen_examples b + 1) b).
  destruct (store_optional_spec "examples" (Some examples) idx i b0)
    as (b1 & E1 & Hn1 & Hs1 & Hw1 & Hl1); [exact Hidx|exact Hlen| |].
  { intros a [= <-]. apply (Hargs "examples"%string). reflexivity. }
  destruct (store_optional_spec "labels" labels idx i b1)
    as (b2 & E2 & Hn2 & Hs2 & Hw2 & Hl2); [rewrite Hs1; exact Hidx|exact Hw1| |].
  { intros a ->. rewrite Hl1. simpl. apply (Hargs "labels"%string). reflexivity. }
  destruct (store_optional_spec "logits" logits idx i b2)
    as (b3 & E3 & Hn3 & Hs3 & Hw3 & Hl3); [rewrite Hs2, Hs1; exact Hidx|exact Hw2| |].
  { intros a ->. rewrite Hl2. simpl. rewrite Hl1. simpl.
    apply (Hargs "logits"%string). reflexivity. }
  destruct (store_optional_spec "task_labels" task_labels idx i b3)
    as (b4 & E4 & Hn4 & Hs4 & Hw4 & Hl4); [rewrite Hs3, Hs2, Hs1; exact Hidx|exact Hw3| |].
  { intros a ->. rewrite Hl3. simpl. rewrite Hl2. simpl. rewrite Hl1. simpl.
    apply (Hargs "task_labels"%string). reflexivity. }
  exists b4. unfold st_bind. rewrite E1, E2, E3, E4.
  split; [reflexivity|]. split; [rewrite Hn4, Hn3, Hn2, Hn1; reflexivity|].
  split; [rewrite Hs4, Hs3, Hs2, Hs1; reflexivity|]. split; [exact Hw4|].
  intros name. rewrite Hl4. unfold add_data_arg.
  destruct (decide (name = "task_labels"%string)) as [->|N4].
  { rewrite Hl3. simpl. rewrite Hl2. simpl. rewrite Hl1. simpl. reflexivity. }
  rewrite Hl3. destruct (decide (name = "logits"%string)) as [->|N3].
  { rewrite Hl2. simpl. rewrite Hl1. simpl. reflexivity. }
  rewrite Hl2. destruct (decide (name = "labels"%string)) as [->|N2].
  { rewrite Hl1. simpl. reflexivity. }
  rewrite Hl1. destruct (decide (name = "examples"%string)) as [->|N1].
  { simpl. reflexivity. }
  simpl. destruct (tensors b !! name); reflexivity.
Qed.

(** The loop of [add_data] over the items [start], ..., [start + count - 1]. *)
Lemma add_data_loop_spec (examples : list T) (labels logits task_labels : option (list T))
    (count start : nat) (b : Buffer.t T) :
  0 < buffer_size b ->
  0 <= num_seen_examples b ->
  (forall k v, tensors b !! k = Some v -> Z.of_nat (length v) = buffer_size b) ->
  (forall name a, add_data_arg examples labels logits task_labels name = Some a ->
                  is_Some (tensors b !! name) /\ (start + count <= length a)%nat) ->
  exists b',
    st_for (map Z.of_nat (seq start count))
           (add_data_item examples labels logits task_labels) b = (Ok tt, b') /\
    num_seen_examples b' = num_seen_examples b + Z.of_nat count /\
    buffer_size b' = buffer_size b /\
    (forall k v, tensors b' !! k = Some v -> Z.of_nat (length v) = buffer_size b') /\
    forall name,
      tensors b' !! name =
        match add_data_arg examples labels logits task_labels name, tensors b !! name with
        | Some a, Some o =>
            Some (fifo_write (buffer_size b) (num_seen_examples b) o
                             (take count (drop start a)))
        | _, _ => tensors b !! name
        end.
Proof.
  revert start b. induction count as [|count IH]; intros start b Hsize Hseen Hlen Hargs.
  - exists b. simpl. split; [reflexivity|]. split; [lia|]. split; [reflexivity|].
    split; [exact Hlen|]. intros name.
    destruct (add_data_arg _ _ _ _ name); [|reflexivity].
    destruct (tensors b !! name); reflexivity.
  - destruct (add_data_item_spec examples labels logits task_labels start b)
      as (b1 & E1 & Hn1 & Hs1 & Hw1 & Hl1); [exact Hsize|exact Hseen|exact Hlen| |].
    { intros name a Ha. destruct (Hargs name a Ha) as [Hsome Hle]. split; [exact Hsome|lia]. }
    destruct (IH (S start) b1) as (b' & E' & Hn' & Hs' & Hw' & Hl').
    + rewrite Hs1. exact Hsize.
    + rewrite Hn1. lia.
    + exact Hw1.
    + intros name a Ha. destruct (Hargs name a Ha) as [[o Ho] Hle].
      rewrite Hl1, Ha, Ho. split; [eauto|lia].
    + exists b'. simpl. unfold st_bind. rewrite E1.
      split; [exact E'|]. split; [rewrite Hn', Hn1; lia|].
      split; [rewrite Hs', Hs1; reflexivity|]. split; [exact Hw'|].
      intros name. rewrite Hl', Hl1, Hs1, Hn1.
      destruct (add_data_arg examples labels logits task_labels name) as [a|] eqn:Ha;
        [|reflexivity].
      destruct (tensors b !! name) as [o|] eqn:Ho; [|reflexivity].
      destruct (Hargs name a Ha) as [_ Hle].
      destruct (lookup_lt_is_Some_2 a start) as [v Hv]; [lia|].
      rewrite Hv. simpl. rewrite (drop_S a v start Hv). simpl. reflexivity.
Qed.

(** One turn of the loop of [init_tensors]. *)
Lemma init_tensors_step (name : string) (arg : option (list T)) (b : Buffer.t T) :
  0 <= buffer_size b ->
  exists b',
    (do self <- st_get;
     match arg, tensors self !! name with
     | Some _, None =>
         do z <- st_lift (torch_zeros (buffer_size self));
         st_modify (setattr name z)
     | _, _ => st_ret tt
     end) b = (Ok tt, b') /\
    num_seen_examples b' = num_seen_examples b /\
    buffer_size b' = buffer_size b /\
    forall k,
      tensors b' !! k =
        if decide (k = name) then
          match tensors b !! name with
          | Some v => Some v
          | None =>
              match arg with
              | Some _ => Some (replicate (Z.to_nat (buffer_size b)) zeros)
              | None => None
              end
          end
        else tensors b !! k.
Proof.
  intros Hsize. unfold st_bind, st_get, st_lift, st_modify, st_ret, torch_zeros.
  destruct (decide (buffer_size b < 0)) as [Hc|_]; [lia|].
  destruct arg as [a|], (tensors b !! name) as [v|] eqn:E;
    eexists; (split; [reflexivity|]); (split; [reflexivity|]); (split; [reflexivity|]);
    intros k; simpl; destruct (decide (k = name)) as [->|Hne];
    try rewrite E; try reflexivity.
  - apply lookup_insert_eq.
  - apply lookup_insert_ne. congruence.
Qed.

(** The first-call allocation: every attribute whose argument was given and
    that does not exist yet is created, filled with zeros. *)
Lemma init_tensors_spec (examples : list T) (labels logits task_labels : option (list T))
    (b : Buffer.t T) :
  attributes b = ["examples"; "labels"; "logits"; "task_labels"]%string ->
  0 <= buffer_size b ->
  exists b',
    init_tensors (Some examples) labels logits task_labels b = (Ok tt, b') /\
    num_seen_examples b' = num_seen_examples b /\
    buffer_size b' = buffer_size b /\
    forall name,
      tensors b' !! name =
        match tensors b !! name with
        | Some v => Some v
        | None =>
            match add_data_arg examples labels logits task_labels name with
            | Some _ => Some (replicate (Z.to_nat (buffer_size b)) zeros)
            | None => None
            end
        end.
Proof.
  intros Ha Hsize. unfold init_tensors. unfold st_bind at 1, st_get at 1. rewrite Ha.
  destruct (init_tensors_step "examples" (Some examples) b Hsize)
    as (b1 & E1 & Hn1 & Hs1 & Hl1).
  destruct (init_tensors_step "labels" labels b1) as (b2 & E2 & Hn2 & Hs2 & Hl2);
    [rewrite Hs1; exact Hsize|].
  destruct (init_tensors_step "logits" logits b2) as (b3 & E3 & Hn3 & Hs3 & Hl3);
    [rewrite Hs2, Hs1; exact Hsize|].
  destruct (init_tensors_step "task_labels" task_labels b3) as (b4 & E4 & Hn4 & Hs4 & Hl4);
    [rewrite Hs3, Hs2, Hs1; exact Hsize|].
  exists b4. split.
  { simpl. unfold st_bind at 1 2. unfold st_lift at 1.
    change (eval_param _ "examples"%string) with (Ok (Some examples)). cbv beta iota.
    rewrite E1.
    unfold st_bind at 1 2. unfold st_lift at 1.
    change (eval_param _ "labels"%string) with (Ok labels). cbv beta iota. rewrite E2.
    unfold st_bind at 1 2. unfold st_lift at 1.
    change (eval_param _ "logits"%string) with (Ok logits). cbv beta iota. rewrite E3.
    unfold st_bind at 1 2. unfold st_lift at 1.
    change (eval_param _ "task_labels"%string) with (Ok task_labels). cbv beta iota.
    rewrite E4. reflexivity. }
  split; [rewrite Hn4, Hn3, Hn2, Hn1; reflexivity|].
  split; [rewrite Hs4, Hs3, Hs2, Hs1; reflexivity|].
  intros name. rewrite Hl4. unfold add_data_arg. rewrite Hs3, Hs2, Hs1.
  destruct (decide (name = "task_labels"%string)) as [->|N4].
  { rewrite Hl3. simpl. rewrite Hl2. simpl. rewrite Hl1. simpl. reflexivity. }
  rewrite Hl3. rewrite Hs2, Hs1. destruct (decide (name = "logits"%string)) as [->|N3].
  { rewrite Hl2. simpl. rewrite Hl1. simpl. reflexivity. }
  rewrite Hl2. rewrite Hs1. destruct (decide (name = "labels"%string)) as [->|N2].
  { rewrite Hl1. simpl. reflexivity. }
  rewrite Hl1. destruct (decide (name = "examples"%string)) as [->|N1].
  { simpl. reflexivity. }
  destruct (tensors b !! name); reflexivity.
Qed.

Lemma add_data_spec_inv (examples : list T) (labels logits task_labels : option (list T))
    (b : Buffer.t T) :
  buf_inv b ->
  0 < buffer_size b ->
  (forall name a,
     add_data_arg examples labels logits task_labels name = Some a ->
     (length examples <= length a)%nat /\
     (is_Some (tensors b !! "examples"%string) -> is_Some (tensors b !! name))) ->
  exists b',
    add_data examples labels logits task_labels b = (Ok tt, b') /\
    num_seen_examples b' = num_seen_examples b + Z.of_nat (length examples) /\
    buffer_size b' = buffer_size b /\
    forall name,
      tensors b' !! name =
        written (buffer_size b) (num_seen_examples b) (length examples)
          (add_data_arg examples labels logits task_labels name)
          (allocated b (add_data_arg examples labels logits task_labels name) name).
Proof.
  intros (Ha & Hseen & Hlen) Hsize Hargs.
  rewrite add_data_unfold. unfold st_bind at 1 2, st_get at 1.
  unfold py_range. rewrite Nat2Z.id.
  destruct (tensors b !! "examples"%string) as [ex|] eqn:Eex.
  - unfold st_ret at 1.
    destruct (add_data_loop_spec examples labels logits task_labels (length examples) 0 b)
      as (b' & E & Hn & Hs & _ & Hl); [exact Hsize|exact Hseen|exact Hlen| |].
    { intros name a Harg. destruct (Hargs name a Harg) as [Hle Hsome].
      split; [apply Hsome; eauto|simpl; exact Hle]. }
    exists b'. split; [exact E|]. split; [exact Hn|]. split; [exact Hs|].
    intros name. rewrite Hl. unfold written, allocated. rewrite Eex.
    destruct (add_data_arg _ _ _ _ name) as [a|], (tensors b !! name) as [o|];
      reflexivity.
  - destruct (init_tensors_spec examples labels logits task_labels b Ha)
      as (b0 & E0 & Hn0 & Hs0 & Hl0); [lia|]. rewrite E0.
    destruct (add_data_loop_spec examples labels logits task_labels (length examples) 0 b0)
      as (b' & E & Hn & Hs & _ & Hl).
    + rewrite Hs0. exact Hsize.
    + rewrite Hn0. exact Hseen.
    + intros k v. rewrite Hl0, Hs0. destruct (tensors b !! k) as [o|] eqn:Ek.
      * intros [= <-]. apply (Hlen _ _ Ek).
      * destruct (add_data_arg _ _ _ _ k); [|discriminate].
        intros [= <-]. rewrite length_replicate. lia.
    + intros name a Harg. destruct (Hargs name a Harg) as [Hle _].
      rewrite Hl0, Harg. split; [destruct (tensors b !! name); eauto|simpl; exact Hle].
    + exists b'. split; [exact E|]. split; [rewrite Hn, Hn0; reflexivity|].
      split; [rewrite Hs, Hs0; reflexivity|].
      intros name. rewrite Hl, Hl0, Hs0, Hn0. unfold written, allocated. rewrite Eex.
      destruct (add_data_arg _ _ _ _ name) as [a|], (tensors b !! name) as [o|];
        reflexivity.
Qed.

Lemma add_data_spec (examples : list T) (labels logits task_labels : option (list T))
    (b : Buffer.t T) :
  reachable b ->
  0 < buffer_size b ->
  (forall name a,
     add_data_arg examples labels logits task_labels name = Some a ->
     (length examples <= length a)%nat /\
     (is_Some (tensors b !! "examples"%string) -> is_Some (tensors b !! name))) ->
  exists b',
    add_data examples labels logits task_labels b = (Ok tt, b') /\
    num_seen_examples b' = num_seen_examples b + Z.of_nat (length examples) /\
    buffer_size b' = buffer_size b /\
    forall name,
      tensors b' !! name =
        written (buffer_size b) (num_seen_examples b) (length examples)
          (add_data_arg examples labels logits task_labels name)
          (allocated b (add_data_arg examples labels logits task_labels name) name).
Proof. intros Hr. apply add_data_spec_inv, buf_reachable_inv, Hr. Qed.
End AddDataFacts.

Lemma fifo3_one_reachable : Buffer.reachable fifo3_one.
Proof.
  unfold fifo3_one. apply Buffer.reach_add_data.
  apply (Buffer.reach_init 3 (Some 1) "fifo"). reflexivity.
Qed.

(** C1: a capacity-3 fifo buffer given the labels 10, 20, 30, 40, 50 one at
    a time ends with 40, 50, 30 in slots 0, 1, 2 and a counter of 5. In
    general, on a reachable buffer of positive capacity, [add_data] returns
    after writing the items of the batch one after the other, each (converted
    to float32, the dtype of the tensors) at the slot
    [num_seen_examples mod buffer_size] of every attribute whose argument is
    given, and adding one to the counter after each item ([fifo_write]
    spells this out). *)
Theorem Buffer_add_data_fifo_slots :
  (Buffer.__init__ 3 (Some 1) "fifo" = Ok fifo3 /\
   fifo3_scenario.1 = Ok tt /\
   Buffer.tensors fifo3_scenario.2 !! "labels"%string = Some [40; 50; 30] /\
   Buffer.tensors fifo3_scenario.2 !! "examples"%string = Some [40; 50; 30] /\
   Buffer.num_seen_examples fifo3_scenario.2 = 5) /\
  (forall (T : Type) (F : Float32 T) (b : Buffer.t T) (examples : list T)
          (labels logits task_labels : option (list T)),
     Buffer.reachable b ->
     0 < Buffer.buffer_size b ->
     (forall name a,
        add_data_arg examples labels logits task_labels name = Some a ->
        (length examples <= length a)%nat /\
        (is_Some (Buffer.tensors b !! "examples"%string) ->
         is_Some (Buffer.tensors b !! name))) ->
     exists b',
       Buffer.add_data examples labels logits task_labels b = (Ok tt, b') /\
       Buffer.num_seen_examples b'
         = Buffer.num_seen_examples b + Z.of_nat (length examples) /\
       Buffer.buffer_size b' = Buffer.buffer_size b /\
       forall name,
         Buffer.tensors b' !! name =
           written (Buffer.buffer_size b) (Buffer.num_seen_examples b) (length examples)
             (add_data_arg examples labels logits task_labels name)
             (allocated b (add_data_arg examples labels logits task_labels name) name)) /\
  (forall num_seen_examples buffer_size : Z,
     buffer_size <> 0 ->
     fifo num_seen_examples buffer_size = Ok (num_seen_examples mod buffer_size)) /\
  (forall (T : Type) (F : Float32 T) (buffer_size n : Z) (slots : list T) (e : T)
          (items : list T),
     written buffer_size n (S (length items)) (Some (e :: items)) (Some slots)
       = written buffer_size (n + 1) (length items) (Some items)
           (Some (<[Z.to_nat (n mod buffer_size) := to_float32 e]> slots))).
Proof.
  split; [|split; [|split]].
  - vm_compute. repeat split; reflexivity.
  - intros T Z0 b examples labels logits task_labels. apply add_data_spec.
  - intros n bs Hbs. unfold fifo, py_mod. destruct (decide (bs = 0)); [contradiction|reflexivity].
  - intros T F bs n slots e items. reflexivity.
Qed.

(** [Buffer_add_data_fifo_slots] on a batch of three items with labels, added
    to a buffer that holds one item. *)
Lemma Buffer_add_data_fifo_slots_witness :
  Buffer.reachable fifo3_one /\
  0 < Buffer.buffer_size fifo3_one /\
  exists b',
    Buffer.add_data [20; 30; 40] (Some [20; 30; 40]) None None fifo3_one = (Ok tt, b') /\
    Buffer.num_seen_examples b' = Buffer.num_seen_examples fifo3_one + 3.
Proof.
  assert (Hsize : 0 < Buffer.buffer_size fifo3_one) by (vm_compute; reflexivity).
  split; [exact fifo3_one_reachable|]. split; [exact Hsize|].
  destruct (proj1 (proj2 Buffer_add_data_fifo_slots) Z Z_Float32 fifo3_one
              [20; 30; 40] (Some [20; 30; 40]) None None fifo3_one_reachable Hsize)
    as (b' & Hrun & Hn & _).
  - intros name a. unfold add_data_arg.
    destruct (decide (name = "examples"%string)) as [->|_].
    { intros [= <-]. split; [simpl; lia|intros _; vm_compute; eauto]. }
    destruct (decide (name = "labels"%string)) as [->|_].
    { intros [= <-]. split; [simpl; lia|intros _; vm_compute; eauto]. }
    destruct (decide (name = "logits"%string)) as [->|_]; [discriminate|].
    destruct (decide (name = "task_labels"%string)) as [->|_]; discriminate.
  - exists b'. split; [exact Hrun|exact Hn].
Defined.

Lemma fifo3_full_reachable : Buffer.reachable fifo3_full.
Proof.
  unfold fifo3_full. apply Buffer.reach_add_data.
  apply (Buffer.reach_init 3 (Some 1) "fifo"). reflexivity.
Qed.

(** [Buffer_get_data_distinct] for a request of two items on a full buffer of
    three: the two subscripts drawn, 2 and 0, differ, and the rows returned
    are the items of these two slots. *)
Lemma Buffer_get_data_distinct_witness :
  Buffer.reachable fifo3_full /\
  Buffer.tensors fifo3_full !! "examples"%string = Some [10; 20; 30] /\
  exists ret g' choice,
    Buffer.get_data 2 None fifo3_full (7 : Z) = (Ok ret, g') /\
    Buffer.get_data_choice 2 fifo3_full (7 : Z) = (Ok choice, g') /\
    choice = [2; 0] /\ NoDup choice /\
    (forall i, i ∈ choice -> 0 <= i < 3) /\
    Z.of_nat (length choice) = 2 /\
    ret = [[30; 10]; [3; 1]].
Proof.
  split; [exact fifo3_full_reachable|]. split; [reflexivity|].
  destruct (proj2 (Buffer_get_data_distinct fifo3_full 2 None (7 : Z)))
    as (ret & g' & Hrun).
  - exact fifo3_full_reachable.
  - vm_compute. reflexivity.
  - vm_compute. discriminate.
  - lia.
  - vm_compute. eauto.
  - destruct (proj1 (Buffer_get_data_distinct fifo3_full 2 None (7 : Z)) ret g' Hrun)
      as (examples & choice & rows & Hex & Hchoice & Hnd & Hin & Hlen & _).
    exists ret, g', choice. split; [exact Hrun|]. split; [exact Hchoice|].
    assert (Hexamples : examples = [10; 20; 30])
      by (vm_compute in Hex; injection Hex as <-; reflexivity).
    subst examples.
    assert (Hc : choice = [2; 0])
      by (vm_compute in Hchoice; injection Hchoice as <- _; reflexivity).
    split; [exact Hc|]. split; [exact Hnd|]. split; [exact Hin|].
    split; [exact Hlen|].
    vm_compute in Hrun. injection Hrun as <- _. reflexivity.
Defined.

(** [Buffer_reads_before_add_data_raise] on a fresh buffer and on an emptied
    one. *)
Lemma Buffer_reads_before_add_data_raise_witness :
  (exists buffer_size n_tasks mode, Buffer.__init__ buffer_size n_tasks mode = Ok fifo3) /\
  Buffer.get_data 2 None fifo3 (42 : Z) = (Raise AttributeError, 42) /\
  Buffer.get_all_data None fifo3 = Raise AttributeError /\
  Buffer.get_all_data None (Buffer.empty fifo3_one).2 = Raise AttributeError.
Proof.
  assert (Hfresh : exists buffer_size n_tasks mode,
            Buffer.__init__ buffer_size n_tasks mode = Ok fifo3).
  { exists 3, (Some 1), "fifo"%string. reflexivity. }
  split; [exact Hfresh|].
  destruct (Buffer_reads_before_add_data_raise fifo3 2 None (42 : Z) (or_introl Hfresh))
    as [Hget Hall].
  split; [exact Hget|]. split; [exact Hall|].
  refine (proj2 (Buffer_reads_before_add_data_raise (Buffer.empty fifo3_one).2 2 None (42 : Z)
                   (or_intror _))).
  exists fifo3_one. split; [exact fifo3_one_reachable|reflexivity].
Defined.

(** C4 as stated fails on the first call: the series stored has 3
    time-steps and [seq_len] is 1, yet the length field is 0, not 2. *)
Lemma FastStreamBuffer_first_add_length_counterexample :
  (FastStreamBuffer.add_data fast_x3 fast_pred fast0).1 = Ok tt /\
  FastStreamBuffer.x fast1 = Some fast_x3 /\
  FastStreamBuffer.length fast1 = 0 /\
  size1 fast_x3 - FastStreamBuffer.seq_len fast1 = 2 /\
  FastStreamBuffer.length fast1 <> size1 fast_x3 - FastStreamBuffer.seq_len fast1.
Proof. vm_compute. repeat split; discriminate. Qed.

(** [FastStreamBuffer_add_data_length] on a buffer whose length field, 3, has
    passed the capacity, 2: the oldest time-step goes and the newest comes. *)
Lemma FastStreamBuffer_add_data_length_witness :
  FastStreamBuffer.x fast2 = Some (Tensor3 1 [1; 2; 3; 5] 1) /\
  FastStreamBuffer.buffer_size fast2 <= FastStreamBuffer.length fast2 /\
  exists cur',
    FastStreamBuffer.x (FastStreamBuffer.add_data (Tensor3 1 [5; 6] 1) fast_pred fast2).2
      = Some cur' /\
    steps cur' = [2; 3; 5] ++ [6] /\
    FastStreamBuffer.length (FastStreamBuffer.add_data (Tensor3 1 [5; 6] 1) fast_pred fast2).2
      = size1 cur' - 1.
Proof.
  assert (Hx : FastStreamBuffer.x fast2 = Some (Tensor3 1 [1; 2; 3; 5] 1)) by reflexivity.
  assert (Hfull : FastStreamBuffer.buffer_size fast2 <= FastStreamBuffer.length fast2)
    by (vm_compute; discriminate).
  split; [exact Hx|]. split; [exact Hfull|].
  destruct (proj2 (FastStreamBuffer_add_data_length fast2 (Tensor3 1 [5; 6] 1) fast_pred)
              (Tensor3 1 [1; 2; 3; 5] 1) Hx (conj eq_refl eq_refl) (conj eq_refl eq_refl))
    as (cur' & _ & Hx' & Hseq & _ & Hlen & _ & Hdrop).
  exists cur'. split; [exact Hx'|].
  split; [exact (proj1 (proj2 (Hdrop Hfull) 1 6 [2; 3; 5] [5] eq_refl eq_refl))|].
  rewrite Hlen, Hseq. reflexivity.
Defined.

(** [FastStreamBuffer_get_data_raises] after a first [add_data]. *)
Lemma FastStreamBuffer_get_data_raises_witness :
  (FastStreamBuffer.add_data fast_x3 fast_pred fast0).1 = Ok tt /\
  @FastStreamBuffer.get_data Z Z 1 fast1 = Raise TypeError.
Proof.
  split; [reflexivity|].
  exact (proj2 (proj2 (FastStreamBuffer_get_data_raises (side := Z) fast0 fast_x3 fast_pred 1)
                 eq_refl)).
Defined.

(** [SlowStreamBuffer_add_data_evicts] on a buffer whose length field, 2, has
    passed the capacity, 1: with a stride of 1 the oldest time-step and the
    oldest side-channel entry go, the newest time-step of [x] and the new
    entry come. *)
Lemma SlowStreamBuffer_add_data_evicts_witness :
  SlowStreamBuffer.x slow2 = Some (Tensor3 1 [1; 2; 2] 1) /\
  SlowStreamBuffer.logits slow2 = [7; 8] /\
  SlowStreamBuffer.buffer_size slow2 <= SlowStreamBuffer.length slow2 /\
  exists cur',
    (SlowStreamBuffer.add_data (Tensor3 1 [3; 4] 1) 9 slow2).1 = Ok tt /\
    SlowStreamBuffer.x (SlowStreamBuffer.add_data (Tensor3 1 [3; 4] 1) 9 slow2).2 = Some cur' /\
    Z.of_nat (length (steps cur')) = 3 /\
    SlowStreamBuffer.logits (SlowStreamBuffer.add_data (Tensor3 1 [3; 4] 1) 9 slow2).2 = [8; 9] /\
    SlowStreamBuffer.length (SlowStreamBuffer.add_data (Tensor3 1 [3; 4] 1) 9 slow2).2 = 2.
Proof.
  assert (Hfull : SlowStreamBuffer.buffer_size slow2 <= SlowStreamBuffer.length slow2)
    by (vm_compute; discriminate).
  split; [reflexivity|]. split; [reflexivity|]. split; [exact Hfull|].
  destruct (SlowStreamBuffer_add_data_evicts slow2 (Tensor3 1 [3; 4] 1)
              (Tensor3 1 [1; 2; 2] 1) 9)
    as (dropped & rest & earlier & newest & cur' & Hcur & Hd & _ & Hn & Hok & Hx & Hsteps
        & Hlogits & Hlen & _).
  - vm_compute. reflexivity.
  - reflexivity.
  - exact Hfull.
  - split; reflexivity.
  - assert (Hsize : Z.of_nat (length (steps cur')) = 3).
    { apply (f_equal (@length Z)) in Hcur. rewrite length_app in Hcur.
      rewrite Hsteps, length_app. change (length (steps (Tensor3 1 [1; 2; 2] 1))) with 3%nat in Hcur.
      change (Z.min (SlowStreamBuffer.sample_freq slow2) (size1 (Tensor3 1 [1; 2; 2] 1)))
        with 1 in Hd.
      change (Z.min (SlowStreamBuffer.sample_freq slow2) (size1 (Tensor3 1 [3; 4] 1)))
        with 1 in Hn.
      lia. }
    exists cur'. split; [exact Hok|]. split; [exact Hx|]. split; [exact Hsize|].
    split; [exact Hlogits|]. rewrite Hlen. unfold size1. rewrite Hsize. reflexivity.
Defined.

(** C6 as stated fails when the stored series or [x] has fewer than
    [sample_freq] time-steps. With a stride of 3 and series [x] of two
    time-steps, all four calls return; the fifth finds the length field at
    the capacity and two time-steps stored, fewer than the three it should
    drop: it drops both and appends the two time-steps of [x], not three. *)
Lemma SlowStreamBuffer_short_x_counterexample :
  slow_short_run.1 = Ok tt /\
  SlowStreamBuffer.sample_freq slow_short4 = 3 /\
  SlowStreamBuffer.x slow_short4 = Some (Tensor3 1 [1; 2] 1) /\
  SlowStreamBuffer.buffer_size slow_short4 <= SlowStreamBuffer.length slow_short4 /\
  (SlowStreamBuffer.add_data slow_x 11 slow_short4).1 = Ok tt /\
  SlowStreamBuffer.x (SlowStreamBuffer.add_data slow_x 11 slow_short4).2
    = Some (Tensor3 1 [1; 2] 1) /\
  size1 slow_x = 2 /\
  ~ (exists dropped rest : list Z,
       steps (Tensor3 1 [1; 2] 1) = dropped ++ rest /\ Z.of_nat (length dropped) = 3).
Proof.
  split; [reflexivity|]. split; [reflexivity|]. split; [reflexivity|].
  split; [vm_compute; discriminate|]. split; [reflexivity|]. split; [reflexivity|].
  split; [reflexivity|].
  intros (dropped & rest & Hsplit & Hlen).
  apply (f_equal (@length Z)) in Hsplit. rewrite length_app in Hsplit. simpl in Hsplit. lia.
Qed.

(** * Further properties *)

(** ** The ring policy *)

(** X1: [ring] raises [ZeroDivisionError] on a portion size of zero; for a
    positive portion size it never rejects, its slot lies in the portion of
    the task, [[task * size, (task + 1) * size)], it is periodic in the
    counter with the portion size as period, and the slots of a lower task
    lie below those of a higher one. *)
Theorem ring_in_portion (num_seen_examples buffer_portion_size task : Z) :
  (buffer_portion_size = 0 ->
     ring num_seen_examples buffer_portion_size task = Raise ZeroDivisionError) /\
  (0 < buffer_portion_size ->
     exists slot,
       ring num_seen_examples buffer_portion_size task = Ok slot /\
       task * buffer_portion_size <= slot < (task + 1) * buffer_portion_size /\
       ring (num_seen_examples + buffer_portion_size) buffer_portion_size task = Ok slot /\
       forall (n' task' slot' : Z),
         task < task' ->
         ring n' buffer_portion_size task' = Ok slot' -> slot < slot').
Proof.
  unfold ring, py_mod. split.
  - intros ->. reflexivity.
  - intros Hpos. destruct (decide (buffer_portion_size = 0)) as [Hz|_]; [lia|]. simpl.
    pose proof (Z.mod_pos_bound num_seen_examples buffer_portion_size Hpos) as Hr.
    eexists. split; [reflexivity|]. split; [lia|]. split.
    + f_equal. f_equal.
      replace (num_seen_examples + buffer_portion_size)
        with (num_seen_examples + 1 * buffer_portion_size) by lia.
      apply Z.mod_add. lia.
    + intros n' task' slot' Hlt [= <-].
      pose proof (Z.mod_pos_bound n' buffer_portion_size Hpos) as Hr'. nia.
Qed.

(** [ring_in_portion] for the counter 5, portions of 2 slots and task 3. *)
Lemma ring_in_portion_witness :
  0 < 2 /\ exists slot, ring 5 2 3 = Ok slot /\ 3 * 2 <= slot < (3 + 1) * 2.
Proof.
  split; [lia|].
  destruct (proj2 (ring_in_portion 5 2 3)) as (slot & Hrun & Hrange & _); [lia|].
  exists slot. split; [exact Hrun|exact Hrange].
Defined.

Section RingConfigFacts.
Context {T : Type}.

(** X2: a [Buffer] built in ring mode for [n_tasks] tasks, with
    [0 < n_tasks <= buffer_size], has a portion size of at least one slot,
    the portions of all tasks fit in the buffer, and the ring slot of every
    task in [[0, n_tasks)] is a valid slot of the buffer. *)
Theorem Buffer_ring_portions_fit (buffer_size n_tasks : Z) (b : Buffer.t T) :
  0 < n_tasks <= buffer_size ->
  Buffer.__init__ buffer_size (Some n_tasks) "ring" = Ok b ->
  exists portion,
    Buffer.buffer_portion_size b = Some portion /\
    Buffer.task_number b = Some n_tasks /\
    1 <= portion /\ n_tasks * portion <= buffer_size /\
    forall (num_seen_examples task : Z),
      0 <= task < n_tasks ->
      exists slot,
        ring num_seen_examples portion task = Ok slot /\ 0 <= slot < Buffer.buffer_size b.
Proof.
  intros Hn Hinit. unfold Buffer.__init__ in Hinit.
  destruct (decide _) as [_|Hc]; [|discriminate].
  destruct (decide _) as [_|Hc]; [|contradiction].
  unfold py_floordiv in Hinit. destruct (decide (n_tasks = 0)) as [Hz|_]; [lia|].
  simpl in Hinit. injection Hinit as <-. simpl.
  exists (buffer_size / n_tasks).
  assert (Hq : 1 <= buffer_size / n_tasks) by (apply Z.div_le_lower_bound; lia).
  assert (Hm : n_tasks * (buffer_size / n_tasks) <= buffer_size)
    by (apply Z.mul_div_le; lia).
  split; [reflexivity|]. split; [reflexivity|]. split; [exact Hq|]. split; [exact Hm|].
  intros n task Htask. unfold ring, py_mod.
  destruct (decide (buffer_size / n_tasks = 0)) as [Hz|_]; [lia|]. simpl.
  pose proof (Z.mod_pos_bound n (buffer_size / n_tasks)) as Hr.
  eexists. split; [reflexivity|]. nia.
Qed.
End RingConfigFacts.

(** [Buffer_ring_portions_fit] for a buffer of 10 slots shared by 3 tasks. *)
Lemma Buffer_ring_portions_fit_witness :
  0 < 3 <= 10 /\
  exists b : Buffer.t Z,
    Buffer.__init__ 10 (Some 3) "ring" = Ok b /\
    Buffer.buffer_portion_size b = Some 3 /\
    exists slot, ring 7 3 2 = Ok slot /\ 0 <= slot < Buffer.buffer_size b.
Proof.
  split; [lia|]. eexists. split; [reflexivity|].
  destruct (Buffer_ring_portions_fit (T := Z) 10 3 _ ltac:(lia) eq_refl)
    as (portion & Hp & _ & _ & _ & Hslot).
  split; [reflexivity|].
  injection Hp as <-. apply (Hslot 7 2). lia.
Defined.

(** ** Which attributes of a [Buffer] exist *)

Section BufferDomFacts.
Context {T : Type} `{Float32 T}.
Import Buffer.

Lemma has_attrs_setitem_attr (S : string -> Prop) (name : string) (index : Z) (v : T) :
  preserves (has_attrs S) (setitem_attr name index v).
Proof.
  intros b [Ha Hdom]. unfold setitem_attr, st_bind, st_get, st_lift, getattr.
  destruct (tensors b !! name) as [ten|] eqn:E; [|split; assumption].
  destruct (py_setitem ten index (to_float32 v)) as [ten'|e]; [|split; assumption].
  simpl. split; [exact Ha|]. intros k. rewrite <- Hdom.
  unfold st_modify, setattr, set_tensors. simpl.
  destruct (decide (name = k)) as [<-|Hne].
  - rewrite lookup_insert_eq, E. split; eauto.
  - rewrite lookup_insert_ne by exact Hne. reflexivity.
Qed.

Lemma has_attrs_store_optional (S : string -> Prop) (name : string) (arg : option (list T))
    (index i : Z) :
  preserves (has_attrs S) (store_optional name arg index i).
Proof.
  unfold store_optional. destruct arg as [a|]; [|apply preserves_ret].
  apply preserves_bind; [apply preserves_lift|]. intros v. apply has_attrs_setitem_attr.
Qed.

Lemma has_attrs_add_data_item (S : string -> Prop) (examples : list T)
    (labels logits task_labels : option (list T)) (i : Z) :
  preserves (has_attrs S) (add_data_item examples labels logits task_labels i).
Proof.
  unfold add_data_item.
  apply preserves_bind; [apply preserves_get|]. intros self.
  apply preserves_bind; [apply preserves_lift|]. intros index.
  apply preserves_bind; [apply preserves_modify; intros b Hb; exact Hb|]. intros _.
  destruct (decide (0 <= index)); [|apply preserves_ret].
  repeat (apply preserves_bind; [apply has_attrs_store_optional|intros _]).
  apply has_attrs_store_optional.
Qed.

(** The allocation either raises at once, on a negative capacity, leaving
    the buffer as it was, or returns with [examples] allocated and the
    argument-less attributes as they were. *)
Lemma init_tensors_outcome (examples : list T) (labels logits task_labels : option (list T))
    (b : Buffer.t T) :
  attributes b = ["examples"; "labels"; "logits"; "task_labels"]%string ->
  tensors b !! "examples"%string = None ->
  let out := init_tensors (Some examples) labels logits task_labels b in
  (buffer_size b < 0 /\ out = (Raise RuntimeError, b)) \/
  (0 <= buffer_size b /\ out.1 = Ok tt /\
   attributes out.2 = attributes b /\ num_seen_examples out.2 = num_seen_examples b /\
   is_Some (tensors out.2 !! "examples"%string) /\
   forall k, is_Some (tensors out.2 !! k) ->
             is_Some (tensors b !! k) \/ k ∈ attributes b).
Proof.
  intros Ha Eex out. subst out. destruct (decide (buffer_size b < 0)) as [Hneg|Hpos].
  - left. split; [exact Hneg|].
    unfold init_tensors, st_bind at 1, st_get at 1. rewrite Ha. simpl.
    unfold st_bind at 1 2, st_lift at 1.
    change (eval_param _ "examples"%string) with (Ok (Some examples)). cbv beta iota.
    unfold st_bind at 1, st_get at 1. rewrite Eex.
    unfold st_bind at 1, st_lift at 1, torch_zeros.
    destruct (decide (buffer_size b < 0)); [reflexivity|contradiction].
  - right. split; [lia|].
    destruct (init_tensors_spec examples labels logits task_labels b Ha)
      as (b' & E & Hn & Hs & Hl); [lia|].
    rewrite E. simpl. split; [reflexivity|].
    assert (Ha' : attributes b' = attributes b).
    { pose proof (buf_inv_init_tensors (Some examples) labels logits task_labels) as Hp.
      assert (Hattr : forall s : Buffer.t T,
                attributes s = attributes b ->
                attributes (init_tensors (Some examples) labels logits task_labels s).2
                = attributes b).
      { clear. intros s. unfold init_tensors.
        apply (preserves_bind (fun s => attributes s = attributes b));
          [apply preserves_get|]. intros self.
        apply preserves_for. intros attr_str.
        apply preserves_bind; [apply preserves_lift|]. intros attr.
        intros s' Hs'. unfold st_bind, st_get, st_lift.
        destruct attr; [|exact Hs'].
        destruct (tensors s' !! attr_str); [exact Hs'|].
        destruct (torch_zeros (buffer_size s')); exact Hs'. }
      specialize (Hattr b eq_refl). rewrite E in Hattr. exact Hattr. }
    split; [exact Ha'|]. split; [exact Hn|]. split.
    + rewrite Hl, Eex. unfold add_data_arg. simpl. eauto.
    + intros k. rewrite Hl. destruct (tensors b !! k); [eauto|].
      unfold add_data_arg. rewrite Ha.
      destruct (decide (k = "examples"%string)) as [->|_]; [intros _; right; set_solver|].
      destruct (decide (k = "labels"%string)) as [->|_]; [intros _; right; set_solver|].
      destruct (decide (k = "logits"%string)) as [->|_]; [intros _; right; set_solver|].
      destruct (decide (k = "task_labels"%string)) as [->|_]; [intros _; right; set_solver|].
      intros [? ?]. discriminate.
Qed.

Lemma has_attrs_loop (S : string -> Prop) (examples : list T)
    (labels logits task_labels : option (list T)) (b : Buffer.t T) :
  has_attrs S b ->
  has_attrs S (st_for (py_range (Z.of_nat (length examples)))
                      (add_data_item examples labels logits task_labels) b).2.
Proof.
  revert b. apply (preserves_for (has_attrs S)). intros i.
  apply has_attrs_add_data_item.
Qed.

Lemma buf_dom_inv_of_has_attrs (S : string -> Prop) (b : Buffer.t T) :
  has_attrs S b ->
  (forall k, S k -> k ∈ ["examples"; "labels"; "logits"; "task_labels"]%string) ->
  S "examples"%string ->
  buf_dom_inv b.
Proof.
  intros [Ha Hdom] Hsub Hex. split.
  - intros k Hk. rewrite Ha. apply Hsub, Hdom, Hk.
  - intros _. apply Hdom, Hex.
Qed.

Lemma buf_dom_inv_add_data (examples : list T) (labels logits task_labels : option (list T))
    (b : Buffer.t T) :
  buf_inv b -> buf_dom_inv b ->
  buf_dom_inv (add_data examples labels logits task_labels b).2.
Proof.
  intros (Ha & Hseen & Hlen) [Hkeys Hcounted].
  rewrite add_data_unfold. unfold st_bind at 1 2, st_get at 1.
  destruct (tensors b !! "examples"%string) as [ex|] eqn:Eex.
  - unfold st_ret at 1.
    apply (buf_dom_inv_of_has_attrs (fun k => is_Some (tensors b !! k))).
    + apply has_attrs_loop. split; [exact Ha|reflexivity].
    + intros k Hk. rewrite <- Ha. apply Hkeys, Hk.
    + rewrite Eex. eauto.
  - destruct (init_tensors_outcome examples labels logits task_labels b Ha Eex)
      as [[_ ->]|(_ & Hok & Ha0 & _ & Hex0 & Hdom0)].
    + split; [exact Hkeys|]. simpl. rewrite Eex. exact Hcounted.
    + destruct (init_tensors (Some examples) labels logits task_labels b) as [r b0].
      simpl in Hok, Ha0, Hex0, Hdom0. subst r.
      apply (buf_dom_inv_of_has_attrs (fun k => is_Some (tensors b0 !! k))).
      * apply has_attrs_loop. split; [congruence|reflexivity].
      * intros k Hk. rewrite <- Ha. destruct (Hdom0 k Hk) as [Hb|Hb]; [apply Hkeys, Hb|exact Hb].
      * exact Hex0.
Qed.

(** The state [empty] leaves, on a buffer with the constructor's attribute
    list: the tensors it was run over are gone, the counter is 0, and the
    other fields are as before. *)
Lemma empty_state (b : Buffer.t T) :
  attributes b = ["examples"; "labels"; "logits"; "task_labels"]%string ->
  exists m : gmap string (list T),
    empty b = (Ok tt, set_num_seen_examples 0 (set_tensors m b)) /\
    forall k, m !! k = if decide (k ∈ attributes b) then None else tensors b !! k.
Proof.
  intros Ha.
  assert (Hloop : forall (names : list string) (s : Buffer.t T),
            exists m : gmap string (list T),
              st_for names (fun attr_str =>
                do self <- st_get;
                match tensors self !! attr_str with
                | Some _ => st_modify (delattr attr_str)
                | None => st_ret tt
                end) s = (Ok tt, set_tensors m s) /\
              forall k, m !! k = if decide (k ∈ names) then None else tensors s !! k).
  { induction names as [|name names IH]; intros s; simpl.
    - exists (tensors s). split; [destruct s; reflexivity|]. intros k.
      destruct (decide (k ∈ [])) as [Hin|_]; [inversion Hin|reflexivity].
    - unfold st_bind at 1. unfold st_bind at 1, st_get at 1.
      destruct (tensors s !! name) as [v|] eqn:E.
      + unfold st_modify at 1. cbv beta iota.
        destruct (IH (delattr name s)) as (m & Hrun & Hm).
        exists m. split; [rewrite Hrun; reflexivity|]. intros k. rewrite Hm. simpl.
        destruct (decide (k ∈ names)) as [Hin|Hnin].
        * destruct (decide (k ∈ name :: names)) as [_|Hc]; [reflexivity|].
          exfalso. apply Hc. right. exact Hin.
        * destruct (decide (k = name)) as [->|Hne].
          -- rewrite lookup_delete_eq.
             destruct (decide (name ∈ name :: names)) as [_|Hc]; [reflexivity|].
             exfalso. apply Hc. left.
          -- rewrite lookup_delete_ne by congruence.
             destruct (decide (k ∈ name :: names)) as [Hc|_]; [|reflexivity].
             apply elem_of_cons in Hc as [Hc|Hc]; contradiction.
      + unfold st_ret at 1. cbv beta iota. destruct (IH s) as (m & Hrun & Hm).
        exists m. split; [exact Hrun|]. intros k. rewrite Hm.
        destruct (decide (k ∈ names)) as [Hin|Hnin].
        * destruct (decide (k ∈ name :: names)) as [_|Hc]; [reflexivity|].
          exfalso. apply Hc. right. exact Hin.
        * destruct (decide (k ∈ name :: names)) as [Hc|_]; [|reflexivity].
          apply elem_of_cons in Hc as [->|Hc]; [exact E|contradiction]. }
  destruct (Hloop (attributes b) b) as (m & Hrun & Hm).
  exists m. split; [|exact Hm].
  unfold empty, st_bind at 1, st_get at 1, st_bind at 1. rewrite Hrun. reflexivity.
Qed.

Lemma buf_dom_inv_empty (b : Buffer.t T) :
  buf_inv b -> buf_dom_inv b -> buf_dom_inv (empty b).2.
Proof.
  intros (Ha & _) [Hkeys _]. destruct (empty_state b Ha) as (m & -> & Hm).
  split; simpl.
  - intros k [v Hk]. rewrite Hm in Hk. destruct (decide (k ∈ attributes b)); [discriminate|].
    apply Hkeys. eauto.
  - lia.
Qed.

Lemma buf_reachable_dom_inv (b : Buffer.t T) : reachable b -> buf_dom_inv b.
Proof.
  intros Hr. induction Hr as [size n_tasks mode b Hinit|b examples labels logits tl Hr IH|b Hr IH].
  - apply buf_init_fresh in Hinit as (_ & Hn & Ht & _). split.
    + intros k [v Hk]. rewrite Ht, lookup_empty in Hk. discriminate.
    + lia.
  - apply buf_dom_inv_add_data; [apply buf_reachable_inv, Hr|exact IH].
  - apply buf_dom_inv_empty; [apply buf_reachable_inv, Hr|exact IH].
Qed.

Lemma allocated_spec (b : Buffer.t T) (a : list T) (name : string) :
  buf_inv b -> 0 <= buffer_size b ->
  (is_Some (tensors b !! "examples"%string) -> is_Some (tensors b !! name)) ->
  exists slots, allocated b (Some a) name = Some slots /\
                Z.of_nat (length slots) = buffer_size b.
Proof.
  intros (_ & _ & Hlen) Hsize Hsome. unfold allocated.
  destruct (tensors b !! name) as [v|] eqn:E.
  - exists v. split; [reflexivity|apply (Hlen _ _ E)].
  - destruct (tensors b !! "examples"%string) as [ex|].
    + destruct Hsome as [? ?]; [eauto|discriminate].
    + eexists. split; [reflexivity|]. rewrite length_replicate. lia.
Qed.
End BufferDomFacts.

(** ** Which items a fifo write keeps *)

Lemma mod_distinct (m a b : Z) : 0 < m -> 0 < b - a < m -> a mod m <> b mod m.
Proof.
  intros Hm Hd Heq.
  assert (Hz : (b - a) mod m = 0) by (rewrite Zminus_mod, Heq, Z.sub_diag; reflexivity).
  rewrite Z.mod_small in Hz by lia. lia.
Qed.

Lemma fifo_write_snoc {T : Type} `{Float32 T} (bs n : Z) (slots xs : list T) (e : T) :
  fifo_write bs n slots (xs ++ [e])
  = <[Z.to_nat ((n + Z.of_nat (length xs)) mod bs) := to_float32 e]>
      (fifo_write bs n slots xs).
Proof. rewrite fifo_write_app. reflexivity. Qed.

(** Item [k] of a batch is found, converted to float32, at its slot
    afterwards, unless one of the later items of the batch has taken the
    slot, which needs at least [buffer_size] later items. *)
Lemma fifo_write_lookup_recent {T : Type} `{Float32 T} (bs n : Z) (slots items : list T)
    (k : nat) :
  0 < bs -> 0 <= n -> Z.of_nat (length slots) = bs ->
  (k < length items)%nat ->
  Z.of_nat (length items) - Z.of_nat k <= bs ->
  fifo_write bs n slots items !! Z.to_nat ((n + Z.of_nat k) mod bs)
  = to_float32 <$> items !! k.
Proof.
  intros Hbs Hn Hslots. revert k.
  induction items as [|e xs IH] using rev_ind; intros k Hk Hrecent; [simpl in Hk; lia|].
  rewrite length_app in Hk, Hrecent. simpl in Hk, Hrecent.
  rewrite fifo_write_snoc.
  pose proof (Z.mod_pos_bound (n + Z.of_nat k) bs Hbs) as Hrk.
  pose proof (Z.mod_pos_bound (n + Z.of_nat (length xs)) bs Hbs) as Hrl.
  destruct (decide (k = length xs)) as [->|Hne].
  - rewrite list_lookup_insert_eq by (rewrite fifo_write_length; lia).
    rewrite list_lookup_middle by reflexivity. reflexivity.
  - rewrite list_lookup_insert_ne.
    + rewrite lookup_app_l by lia. apply IH; lia.
    + intros Heq. apply Z2Nat.inj in Heq; [|lia|lia].
      revert Heq. apply not_eq_sym, mod_distinct; lia.
Qed.

(** A slot that no item of the batch is sent to keeps its value. *)
Lemma fifo_write_lookup_untouched {T : Type} `{Float32 T} (bs n : Z) (slots items : list T)
    (j : nat) :
  (forall k, (k < length items)%nat -> Z.to_nat ((n + Z.of_nat k) mod bs) <> j) ->
  fifo_write bs n slots items !! j = slots !! j.
Proof.
  induction items as [|e xs IH] using rev_ind; intros Hfree; [reflexivity|].
  rewrite fifo_write_snoc. rewrite list_lookup_insert_ne.
  - apply IH. intros k Hk. apply Hfree. rewrite length_app. simpl. lia.
  - apply Hfree. rewrite length_app. simpl. lia.
Qed.

(** A batch of exactly [buffer_size] items written from a counter of zero
    replaces the slots by the batch, converted to float32. *)
Lemma fifo_write_fill {T : Type} `{Float32 T} (bs : Z) (slots items : list T) :
  0 < bs -> Z.of_nat (length slots) = bs -> Z.of_nat (length items) = bs ->
  fifo_write bs 0 slots items = map to_float32 items.
Proof.
  intros Hbs Hslots Hitems. apply list_eq. intros i. rewrite list_lookup_fmap.
  destruct (decide (i < length items)%nat) as [Hi|Hi].
  - rewrite <- (fifo_write_lookup_recent bs 0 slots items i) by lia.
    rewrite Z.add_0_l, Z.mod_small, Nat2Z.id by lia. reflexivity.
  - rewrite (lookup_ge_None_2 items) by lia.
    rewrite lookup_ge_None_2; [reflexivity|rewrite fifo_write_length; lia].
Qed.

(** ** More on the attribute buffer *)

Section BufferMoreFacts.
Context {T : Type} `{Float32 T}.
Import Buffer.

(** X3: after [add_data] on a reachable buffer of positive capacity, every
    attribute whose argument was given holds, for each of the last
    [buffer_size] items of the batch, that item, converted to float32, at
    the slot its counter value selects: the most recent items are never
    lost, only older ones are overwritten. *)
Theorem Buffer_add_data_keeps_recent (examples : list T)
    (labels logits task_labels : option (list T)) (b : Buffer.t T) :
  reachable b ->
  0 < buffer_size b ->
  (forall name a,
     add_data_arg examples labels logits task_labels name = Some a ->
     (length examples <= length a)%nat /\
     (is_Some (tensors b !! "examples"%string) -> is_Some (tensors b !! name))) ->
  exists b',
    add_data examples labels logits task_labels b = (Ok tt, b') /\
    forall name a,
      add_data_arg examples labels logits task_labels name = Some a ->
      exists slots,
        tensors b' !! name = Some slots /\
        Z.of_nat (length slots) = buffer_size b /\
        forall k : nat,
          (k < length examples)%nat ->
          Z.of_nat (length examples) - Z.of_nat k <= buffer_size b ->
          slots !! Z.to_nat ((num_seen_examples b + Z.of_nat k) mod buffer_size b)
          = to_float32 <$> a !! k.
Proof.
  intros Hr Hsize Hargs.
  destruct (add_data_spec examples labels logits task_labels b Hr Hsize Hargs)
    as (b' & Hrun & _ & _ & Hl).
  pose proof (buf_reachable_inv b Hr) as Hinv.
  exists b'. split; [exact Hrun|]. intros name a Ha.
  destruct (Hargs name a Ha) as [Hle Hsome].
  destruct (allocated_spec b a name Hinv) as (slots & Hslots & Hlen); [lia|exact Hsome|].
  rewrite Hl, Ha, Hslots. simpl. eexists. split; [reflexivity|].
  split; [rewrite fifo_write_length; exact Hlen|].
  intros k Hk Hrecent.
  rewrite <- (lookup_take_lt a (length examples) k) by lia.
  destruct Hinv as (_ & Hseen & _).
  rewrite <- (fifo_write_lookup_recent (buffer_size b) (num_seen_examples b) slots
                (take (length examples) a) k); try assumption.
  - reflexivity.
  - rewrite length_take. lia.
  - rewrite length_take. lia.
Qed.

Lemma empty_clears (b : Buffer.t T) :
  reachable b -> empty b = (Ok tt, set_num_seen_examples 0 (set_tensors ∅ b)).
Proof.
  intros Hr. pose proof (buf_reachable_inv b Hr) as (Ha & _).
  pose proof (buf_reachable_dom_inv b Hr) as [Hkeys _].
  destruct (empty_state b Ha) as (m & -> & Hm).
  replace m with (∅ : gmap string (list T)); [reflexivity|].
  apply map_eq. intros k. rewrite Hm, lookup_empty.
  destruct (decide (k ∈ attributes b)) as [_|Hnin]; [reflexivity|].
  destruct (tensors b !! k) eqn:E; [|reflexivity].
  exfalso. apply Hnin, Hkeys. eauto.
Qed.

(** X4: [empty()] on a reachable buffer returns, leaves no tensor attribute
    at all and a counter of 0, keeps the configuration, and makes
    [is_empty()] true; the next [add_data] allocates again, whatever the
    shape of its items and whether it is the shape of the items held
    before or not: it creates tensors of [buffer_size] items of zeros of the
    new shape and writes its batch into them from slot 0, every item
    converted to float32. *)
Theorem Buffer_empty_resets (b : Buffer.t T) :
  reachable b ->
  empty b = (Ok tt, emptied b) /\
  is_empty (empty b).2 = true /\
  forall (T' : Type) (F : Float32 T') (examples : list T')
         (labels logits task_labels : option (list T')),
    0 < buffer_size b ->
    (forall name a, add_data_arg examples labels logits task_labels name = Some a ->
                    (length examples <= length a)%nat) ->
    exists b' : Buffer.t T',
      add_data examples labels logits task_labels (emptied b) = (Ok tt, b') /\
      num_seen_examples b' = Z.of_nat (length examples) /\
      forall name,
        tensors b' !! name =
          match add_data_arg examples labels logits task_labels name with
          | Some a =>
              Some (fifo_write (buffer_size b) 0
                      (replicate (Z.to_nat (buffer_size b)) zeros)
                      (take (length examples) a))
          | None => None
          end.
Proof.
  intros Hr. split; [exact (empty_clears b Hr)|].
  split; [rewrite (empty_clears b Hr); reflexivity|].
  intros T' F examples labels logits task_labels Hsize Hargs.
  pose proof (buf_reachable_inv b Hr) as (Ha & _ & _).
  assert (Hinv : buf_inv (emptied b : Buffer.t T')).
  { split; [exact Ha|]. split; [simpl; lia|].
    intros k v Hk. simpl in Hk. rewrite lookup_empty in Hk. discriminate. }
  destruct (add_data_spec_inv examples labels logits task_labels (emptied b) Hinv Hsize)
    as (b' & Hrun & Hn & _ & Hl).
  { intros name a Ha'. split; [apply (Hargs name a Ha')|].
    simpl. rewrite lookup_empty. intros [? ?]. discriminate. }
  exists b'. split; [exact Hrun|]. split; [rewrite Hn; simpl; lia|].
  intros name. rewrite Hl. unfold written, allocated. simpl. rewrite !lookup_empty.
  destruct (add_data_arg examples labels logits task_labels name); reflexivity.
Qed.

(** X5: filling a fresh or emptied buffer of positive capacity with one
    batch of exactly [buffer_size] items and reading it back with
    [get_all_data] returns the batch converted to float32: the examples,
    converted and then transformed, first, then the attributes that were
    given, converted, in the order labels, logits, task labels. It returns
    the batch itself when every item offered is a float32 item already, one
    that the conversion leaves as it is. *)
Theorem Buffer_fill_then_get_all_data (b : Buffer.t T) (examples : list T)
    (labels logits task_labels : option (list T)) (transform : option (T -> T)) :
  reachable b ->
  tensors b = ∅ -> num_seen_examples b = 0 ->
  0 < buffer_size b ->
  Z.of_nat (length examples) = buffer_size b ->
  (forall name a, add_data_arg examples labels logits task_labels name = Some a ->
                  length a = length examples) ->
  exists b',
    add_data examples labels logits task_labels b = (Ok tt, b') /\
    get_all_data transform b'
      = Ok (map (default (fun x => x) transform) (map to_float32 examples)
            :: omap (fmap (map to_float32)) [labels; logits; task_labels]) /\
    ((forall name a v, add_data_arg examples labels logits task_labels name = Some a ->
                       v ∈ a -> to_float32 v = v) ->
     get_all_data transform b'
       = Ok (map (default (fun x => x) transform) examples
             :: omap id [labels; logits; task_labels])).
Proof.
  intros Hr Hempty Hzero Hsize Hfull Hargs.
  destruct (add_data_spec examples labels logits task_labels b Hr Hsize)
    as (b' & Hrun & _ & _ & Hl).
  { intros name a Ha. split; [rewrite (Hargs name a Ha); lia|].
    rewrite Hempty, lookup_empty. intros [? ?]. discriminate. }
  exists b'. split; [exact Hrun|].
  assert (Hstored : forall name,
            tensors b' !! name
            = map to_float32 <$> add_data_arg examples labels logits task_labels name).
  { intros name. rewrite Hl. unfold written, allocated. rewrite Hempty, !lookup_empty, Hzero.
    destruct (add_data_arg examples labels logits task_labels name) as [a|] eqn:Ha;
      [|reflexivity].
    simpl. f_equal. rewrite take_ge by (rewrite (Hargs name a Ha); lia).
    apply fifo_write_fill; [exact Hsize|rewrite length_replicate; lia|].
    rewrite (Hargs name a Ha). exact Hfull. }
  assert (Ha' : attributes b' = ["examples"; "labels"; "logits"; "task_labels"]%string).
  { pose proof (reach_add_data b examples labels logits task_labels Hr) as Hr'.
    rewrite Hrun in Hr'. apply (buf_reachable_inv b' Hr'). }
  assert (Hget : get_all_data transform b'
                 = Ok (map (default (fun x => x) transform) (map to_float32 examples)
                       :: omap (fmap (map to_float32)) [labels; logits; task_labels])).
  { unfold get_all_data, getattr. rewrite Hstored, Ha'.
    change (add_data_arg examples labels logits task_labels "examples") with (Some examples).
    simpl. destruct examples as [|e examples]; [simpl in Hfull; lia|]. simpl.
    rewrite !Hstored.
    change (add_data_arg (e :: examples) labels logits task_labels "labels") with labels.
    change (add_data_arg (e :: examples) labels logits task_labels "logits") with logits.
    change (add_data_arg (e :: examples) labels logits task_labels "task_labels")
      with task_labels.
    destruct labels, logits, task_labels; reflexivity. }
  split; [exact Hget|]. intros Hfloat. rewrite Hget.
  assert (Hid : forall name a,
            add_data_arg examples labels logits task_labels name = Some a ->
            map to_float32 a = a).
  { intros name a Ha. rewrite <- (map_id a) at 2. apply map_ext_in. intros v Hv.
    apply (Hfloat name a v Ha). apply list_elem_of_In. exact Hv. }
  rewrite (Hid "examples"%string examples eq_refl).
  assert (Hopt : forall name o,
            add_data_arg examples labels logits task_labels name = o ->
            map to_float32 <$> o = o).
  { intros name [a|] Ho; [|reflexivity]. simpl. rewrite (Hid name a Ho). reflexivity. }
  pose proof (Hopt "labels"%string labels eq_refl) as Hlab.
  pose proof (Hopt "logits"%string logits eq_refl) as Hlog.
  pose proof (Hopt "task_labels"%string task_labels eq_refl) as Htl.
  do 2 f_equal. cbn [omap list_omap].
  rewrite Hlab, Hlog, Htl. destruct labels, logits, task_labels; reflexivity.
Qed.

Lemma other_attributes_all (names : list string) (b : Buffer.t T) :
  buf_inv b ->
  exists others,
    other_attributes names (fun attr => Ok attr) b = Ok others /\
    (length others <= length names)%nat /\
    Forall (fun comp => Z.of_nat (length comp) = buffer_size b) others.
Proof.
  intros (_ & _ & Hlen). induction names as [|name names (others & IH & Hn & Hall)]; simpl.
  - exists []. split; [reflexivity|]. split; [simpl; lia|constructor].
  - destruct (tensors b !! name) as [attr|] eqn:E.
    + rewrite IH. simpl. eexists. split; [reflexivity|]. split; [simpl; lia|].
      constructor; [apply (Hlen _ _ E)|exact Hall].
    + exists others. split; [exact IH|]. split; [lia|exact Hall].
Qed.

(** X6: on a reachable buffer of positive capacity for which [is_empty()] is
    false, [get_all_data] returns: between one and four tensors, each of
    [buffer_size] items (every slot, written or not), the first one being
    the transformed [examples] tensor. *)
Theorem Buffer_get_all_data_when_not_empty (b : Buffer.t T) (transform : option (T -> T)) :
  reachable b ->
  0 < buffer_size b ->
  is_empty b = false ->
  exists (examples : list T) (others : list (list T)),
    tensors b !! "examples"%string = Some examples /\
    get_all_data transform b = Ok (map (default (fun x => x) transform) examples :: others) /\
    (length others <= 3)%nat /\
    Forall (fun comp => Z.of_nat (length comp) = buffer_size b)
           (map (default (fun x => x) transform) examples :: others).
Proof.
  intros Hr Hsize Hne.
  pose proof (buf_reachable_inv b Hr) as Hinv.
  pose proof (buf_reachable_dom_inv b Hr) as [_ Hcounted].
  destruct Hinv as (Ha & Hseen & Hlen).
  assert (Hpos : 0 < num_seen_examples b).
  { unfold is_empty in Hne. destruct (decide (num_seen_examples b = 0)); [discriminate|lia]. }
  destruct (Hcounted Hpos) as [examples Eex].
  pose proof (Hlen _ _ Eex) as Hex.
  destruct (other_attributes_all (py_slice_from 1 (attributes b)) b) as (others & Ho & Hn & Hall).
  { split; [exact Ha|]. split; [exact Hseen|exact Hlen]. }
  exists examples, others. split; [exact Eex|].
  unfold get_all_data, getattr. rewrite Eex. simpl.
  destruct examples as [|e examples]; [simpl in Hex; lia|]. simpl. rewrite Ho. simpl.
  split; [reflexivity|]. split; [rewrite Ha in Hn; exact Hn|].
  constructor; [simpl; rewrite length_map; exact Hex|exact Hall].
Qed.

(** X7: an attribute that the first call did not allocate stays absent:
    when [examples] exists but [labels] does not, [add_data] with labels
    given and a batch that is not empty raises [AttributeError] on its first
    item, after it has counted that item and written its example (converted
    to float32). *)
Theorem Buffer_add_data_late_labels (b : Buffer.t T) (ex : list T) (e l : T)
    (es ls : list T) (logits task_labels : option (list T)) :
  reachable b ->
  0 < buffer_size b ->
  tensors b !! "examples"%string = Some ex ->
  tensors b !! "labels"%string = None ->
  let out := add_data (e :: es) (Some (l :: ls)) logits task_labels b in
  out.1 = Raise AttributeError /\
  num_seen_examples out.2 = num_seen_examples b + 1 /\
  tensors out.2 !! "examples"%string
    = Some (<[Z.to_nat (num_seen_examples b mod buffer_size b) := to_float32 e]> ex) /\
  tensors out.2 !! "labels"%string = None.
Proof.
  intros Hr Hsize Eex Elab out. subst out.
  pose proof (buf_reachable_inv b Hr) as (Ha & Hseen & Hlen).
  pose proof (Z.mod_pos_bound (num_seen_examples b) (buffer_size b) Hsize) as Hidx.
  assert (Hrun : exists b',
            add_data (e :: es) (Some (l :: ls)) logits task_labels b
              = (Raise AttributeError, b') /\
            num_seen_examples b' = num_seen_examples b + 1 /\
            tensors b' !! "examples"%string
              = Some (<[Z.to_nat (num_seen_examples b mod buffer_size b)
                        := to_float32 e]> ex) /\
            tensors b' !! "labels"%string = None).
  { rewrite add_data_unfold. unfold st_bind at 1 2, st_get at 1. rewrite Eex.
    unfold st_ret at 1. cbv beta iota.
    unfold py_range. rewrite Nat2Z.id. cbn [length seq map st_for]. unfold st_bind at 1.
    set (rest := st_for _ _).
    unfold add_data_item, st_bind at 1, st_get at 1, st_bind at 1, st_lift at 1.
    unfold fifo, py_mod. destruct (decide (buffer_size b = 0)) as [Hz|_]; [lia|].
    unfold st_bind at 1, st_modify at 1.
    destruct (decide (0 <= num_seen_examples b mod buffer_size b)) as [_|Hc]; [|lia].
    set (idx := num_seen_examples b mod buffer_size b) in *.
    set (b0 := set_num_seen_examples (num_seen_examples b + 1) b).
    destruct (store_optional_spec "examples" (Some (e :: es)) idx 0 b0)
      as (b1 & E1 & Hn1 & Hs1 & Hw1 & Hl1); [exact Hidx|exact Hlen| |].
    { intros a Hsome. injection Hsome as <-. split.
      - subst b0. simpl. rewrite Eex. eauto.
      - simpl. lia. }
    unfold st_bind at 1. rewrite E1.
    assert (E2 : store_optional "labels" (Some (l :: ls)) idx (Z.of_nat 0) b1
                 = (Raise AttributeError, b1)).
    { unfold store_optional, st_bind at 1, st_lift at 1. simpl.
      unfold setitem_attr, st_bind at 1, st_get at 1, st_bind at 1, st_lift at 1, getattr.
      rewrite Hl1. subst b0. simpl. rewrite Elab. reflexivity. }
    unfold st_bind at 1. rewrite E2.
    exists b1. split; [reflexivity|]. split; [rewrite Hn1; reflexivity|].
    rewrite !Hl1. subst b0. simpl. rewrite Elab, Eex. split; reflexivity. }
  destruct Hrun as (b' & -> & Hn & Hex & Hlab). simpl. auto.
Qed.

(** X8: [get_data] never returns an empty batch. On a reachable buffer whose
    tensors are allocated, a negative size raises [ValueError] before any
    number is drawn, and a size of zero, or any request on a buffer that
    has counted no item, raises [RuntimeError]. *)
Theorem Buffer_get_data_never_empty {G : Type} `{RandomState G} (b : Buffer.t T)
    (size : Z) (transform : option (T -> T)) (g : G) :
  reachable b ->
  is_Some (tensors b !! "examples"%string) ->
  (size < 0 -> get_data size transform b g = (Raise ValueError, g)) /\
  (size = 0 \/ (0 <= size /\ num_seen_examples b = 0) ->
   (get_data size transform b g).1 = Raise RuntimeError).
Proof.
  intros Hr [examples Eex].
  pose proof (buf_reachable_inv b Hr) as (_ & Hseen & _).
  pose proof (get_data_choice_spec b examples size g Eex) as Hchoice. simpl in Hchoice.
  set (n := Z.min (num_seen_examples b) (Z.of_nat (length examples))) in *.
  assert (Hn : 0 <= n) by (subst n; lia).
  split.
  - intros Hneg. unfold get_data, st_bind. rewrite Hchoice.
    destruct (decide (n < size)) as [Hc|_]; [lia|].
    unfold np_random_choice.
    destruct (decide (n <= 0 /\ size <> 0)); [reflexivity|].
    destruct (decide (n < size)); [reflexivity|].
    destruct (decide (size < 0)); [reflexivity|lia].
  - intros Hzero. unfold get_data, st_bind. rewrite Hchoice.
    assert (Hclamp : (if decide (n < size) then n else size) = 0).
    { destruct (decide (n < size)); subst n; lia. }
    rewrite Hclamp. unfold np_random_choice.
    destruct (decide (n <= 0 /\ 0 <> 0)) as [[_ Hc]|_]; [contradiction|].
    destruct (decide (n < 0)) as [Hc|_]; [lia|].
    destruct (decide (0 < 0)) as [Hc|_]; [lia|].
    destruct (np_random_permutation n g) as [p g']. simpl.
    unfold st_lift, getattr. rewrite Eex. reflexivity.
Qed.
End BufferMoreFacts.

Lemma fifo3_reachable : Buffer.reachable fifo3.
Proof. apply (Buffer.reach_init 3 (Some 1) "fifo"). reflexivity. Qed.

Lemma fifo3_plain_reachable : Buffer.reachable fifo3_plain.
Proof. unfold fifo3_plain. apply Buffer.reach_add_data, fifo3_reachable. Qed.

(** The arguments of a call with examples and labels only fit [fifo3_one]. *)
Lemma fifo3_one_args (examples ls : list Z) :
  (length examples <= length ls)%nat ->
  forall name a,
    add_data_arg examples (Some ls) None None name = Some a ->
    (length examples <= length a)%nat /\
    (is_Some (Buffer.tensors fifo3_one !! "examples"%string) ->
     is_Some (Buffer.tensors fifo3_one !! name)).
Proof.
  intros Hle name a. unfold add_data_arg.
  destruct (decide (name = "examples"%string)) as [->|_].
  { intros [= <-]. split; [lia|intros _; vm_compute; eauto]. }
  destruct (decide (name = "labels"%string)) as [->|_].
  { intros [= <-]. split; [exact Hle|intros _; vm_compute; eauto]. }
  destruct (decide (name = "logits"%string)) as [->|_]; [discriminate|].
  destruct (decide (name = "task_labels"%string)) as [->|_]; discriminate.
Qed.

Lemma examples_labels_same_length (examples ls : list Z) :
  length ls = length examples ->
  forall name a,
    add_data_arg examples (Some ls) None None name = Some a -> length a = length examples.
Proof.
  intros Hlen name a. unfold add_data_arg.
  destruct (decide (name = "examples"%string)) as [->|_]; [intros [= <-]; reflexivity|].
  destruct (decide (name = "labels"%string)) as [->|_]; [intros [= <-]; exact Hlen|].
  destruct (decide (name = "logits"%string)) as [->|_]; [discriminate|].
  destruct (decide (name = "task_labels"%string)) as [->|_]; discriminate.
Qed.

(** [Buffer_add_data_keeps_recent] for a batch of four items added to a
    capacity-3 buffer that holds one: the last three are all found, the
    label 16777217, which float32 cannot hold, as 16777216. *)
Lemma Buffer_add_data_keeps_recent_witness :
  Buffer.reachable fifo3_one /\ 0 < Buffer.buffer_size fifo3_one /\
  exists b' slots,
    Buffer.add_data [20; 30; 40; 50] (Some [21; 31; 41; 16777217]) None None fifo3_one
      = (Ok tt, b') /\
    Buffer.tensors b' !! "labels"%string = Some slots /\
    slots !! Z.to_nat ((Buffer.num_seen_examples fifo3_one + 1) mod 3) = Some 31 /\
    slots !! Z.to_nat ((Buffer.num_seen_examples fifo3_one + 3) mod 3) = Some 16777216.
Proof.
  assert (Hsize : 0 < Buffer.buffer_size fifo3_one) by (vm_compute; reflexivity).
  split; [exact fifo3_one_reachable|]. split; [exact Hsize|].
  destruct (Buffer_add_data_keeps_recent [20; 30; 40; 50] (Some [21; 31; 41; 16777217])
              None None fifo3_one fifo3_one_reachable Hsize)
    as (b' & Hrun & Hkept).
  - apply fifo3_one_args. simpl. lia.
  - destruct (Hkept "labels"%string [21; 31; 41; 16777217] eq_refl) as (slots & Hs & _ & Hk).
    exists b', slots. split; [exact Hrun|]. split; [exact Hs|]. split.
    + apply (Hk 1%nat); [simpl; lia|vm_compute; discriminate].
    + apply (Hk 3%nat); [simpl; lia|vm_compute; discriminate].
Defined.

(** [Buffer_empty_resets] on a buffer that holds one scalar item: after
    [empty()] a batch of items of two components lands in new tensors of
    such items, from slot 0, while the labels are scalars again. *)
Lemma Buffer_empty_resets_witness :
  Buffer.reachable fifo3_one /\
  Buffer.empty fifo3_one = (Ok tt, emptied fifo3_one) /\
  Buffer.is_empty (Buffer.empty fifo3_one).2 = true /\
  (exists b' : Buffer.t (Z * Z),
     Buffer.add_data [(16777217, 1); (8, 2)] None None None (emptied fifo3_one) = (Ok tt, b') /\
     Buffer.num_seen_examples b' = 2 /\
     Buffer.tensors b' !! "examples"%string = Some [(16777216, 1); (8, 2); (0, 0)] /\
     Buffer.tensors b' !! "labels"%string = None) /\
  (exists b' : Buffer.t Z,
     Buffer.add_data [16777217; 8] (Some [70; 80]) None None (emptied fifo3_one) = (Ok tt, b') /\
     Buffer.num_seen_examples b' = 2 /\
     Buffer.tensors b' !! "examples"%string = Some [16777216; 8; 0] /\
     Buffer.tensors b' !! "labels"%string = Some [70; 80; 0]).
Proof.
  split; [exact fifo3_one_reachable|].
  destruct (Buffer_empty_resets fifo3_one fifo3_one_reachable) as (Hrun0 & Hempty & Hnext).
  split; [exact Hrun0|]. split; [exact Hempty|]. split.
  - destruct (Hnext (Z * Z)%type _ [(16777217, 1); (8, 2)] None None None)
      as (b' & Hrun & Hn & Hten).
    + vm_compute. reflexivity.
    + intros name a. unfold add_data_arg.
      destruct (decide (name = "examples"%string)); [intros [= <-]; simpl; lia|].
      destruct (decide (name = "labels"%string)); [discriminate|].
      destruct (decide (name = "logits"%string)); [discriminate|].
      destruct (decide (name = "task_labels"%string)); discriminate.
    + exists b'. split; [exact Hrun|]. split; [exact Hn|].
      split; [exact (Hten "examples"%string)|exact (Hten "labels"%string)].
  - destruct (Hnext Z _ [16777217; 8] (Some [70; 80]) None None)
      as (b' & Hrun & Hn & Hten).
    + vm_compute. reflexivity.
    + intros name a Ha.
      rewrite (examples_labels_same_length [16777217; 8] [70; 80] eq_refl name a Ha). lia.
    + exists b'. split; [exact Hrun|]. split; [exact Hn|].
      split; [exact (Hten "examples"%string)|exact (Hten "labels"%string)].
Defined.

(** [Buffer_fill_then_get_all_data] on a fresh capacity-3 buffer: the batch
    comes back, the example 16777217 as the float32 nearest to it. *)
Lemma Buffer_fill_then_get_all_data_witness :
  Buffer.reachable fifo3 /\
  exists b',
    Buffer.add_data [1; 2; 16777217] (Some [10; 20; 30]) None None fifo3 = (Ok tt, b') /\
    Buffer.get_all_data None b' = Ok [[1; 2; 16777216]; [10; 20; 30]].
Proof.
  split; [exact fifo3_reachable|].
  destruct (Buffer_fill_then_get_all_data fifo3 [1; 2; 16777217] (Some [10; 20; 30]) None None
              None fifo3_reachable eq_refl eq_refl)
    as (b' & Hrun & Hget & _).
  - vm_compute. reflexivity.
  - reflexivity.
  - apply examples_labels_same_length. reflexivity.
  - exists b'. split; [exact Hrun|exact Hget].
Defined.

(** [Buffer_get_all_data_when_not_empty] on a capacity-3 buffer that holds
    one item: the two unwritten slots come back too. *)
Lemma Buffer_get_all_data_when_not_empty_witness :
  Buffer.reachable fifo3_one /\ Buffer.is_empty fifo3_one = false /\
  exists examples others,
    Buffer.get_all_data None fifo3_one = Ok (examples :: others) /\
    Z.of_nat (length examples) = 3.
Proof.
  split; [exact fifo3_one_reachable|]. split; [reflexivity|].
  destruct (Buffer_get_all_data_when_not_empty fifo3_one None fifo3_one_reachable)
    as (examples & others & _ & Hget & _ & Hall).
  - vm_compute. reflexivity.
  - reflexivity.
  - eexists _, others. split; [exact Hget|].
    apply Forall_cons in Hall as [Hlen _]. exact Hlen.
Defined.

(** [Buffer_add_data_late_labels] on a buffer whose first call had no
    labels. *)
Lemma Buffer_add_data_late_labels_witness :
  Buffer.reachable fifo3_plain /\
  (Buffer.add_data [20] (Some [21]) None None fifo3_plain).1 = Raise AttributeError /\
  Buffer.num_seen_examples (Buffer.add_data [20] (Some [21]) None None fifo3_plain).2 = 2.
Proof.
  split; [exact fifo3_plain_reachable|].
  destruct (Buffer_add_data_late_labels fifo3_plain [10; 0; 0] 20 21 [] [] None None
              fifo3_plain_reachable) as (Hraise & Hn & _).
  - vm_compute. reflexivity.
  - reflexivity.
  - reflexivity.
  - split; [exact Hraise|exact Hn].
Defined.

(** [Buffer_get_data_never_empty] for the sizes -1 and 0. *)
Lemma Buffer_get_data_never_empty_witness :
  Buffer.reachable fifo3_one /\
  Buffer.get_data (-1) None fifo3_one (42 : Z) = (Raise ValueError, 42) /\
  (Buffer.get_data 0 None fifo3_one (42 : Z)).1 = Raise RuntimeError.
Proof.
  assert (Hex : is_Some (Buffer.tensors fifo3_one !! "examples"%string))
    by (vm_compute; eauto).
  split; [exact fifo3_one_reachable|]. split.
  - apply (proj1 (Buffer_get_data_never_empty fifo3_one (-1) None (42 : Z)
                    fifo3_one_reachable Hex)). lia.
  - apply (proj2 (Buffer_get_data_never_empty fifo3_one 0 None (42 : Z)
                    fifo3_one_reachable Hex)). left. reflexivity.
Defined.

(** ** More on the scalar-metric buffer *)

Lemma py_slice_in_range {A : Type} (a b : Z) (l : list A) :
  0 <= a <= b -> b <= Z.of_nat (length l) ->
  py_slice a b l = take (Z.to_nat (b - a)) (drop (Z.to_nat a) l).
Proof.
  intros Hab Hb. unfold py_slice.
  destruct (decide (b < 0)); [lia|]. destruct (decide (a < 0)); [lia|].
  rewrite !Z.min_l by lia. reflexivity.
Qed.

Section BufferFIFOMoreFacts.
Context {T : Type} `{Float32 T}.
Import BufferFIFO.

(** One more value on a buffer with room: it goes, converted to float32,
    to the slot of the counter, in the tensor allocated on the spot if there
    was none. *)
Lemma fifo_add_data_room (b : BufferFIFO.t T) (v : T) :
  fifo_inv b ->
  num_seen_examples b < buffer_size b ->
  exists b',
    add_data v None None None b = (Ok tt, b') /\
    fifo_inv b' /\
    buffer_size b' = buffer_size b /\
    num_seen_examples b' = num_seen_examples b + 1 /\
    tensors b' !! "losses"%string
      = Some (<[Z.to_nat (num_seen_examples b) := to_float32 v]>
                (default (replicate (Z.to_nat (buffer_size b)) zeros)
                         (tensors b !! "losses"%string))).
Proof.
  intros Hinv Hroom.
  pose proof (fifo_inv_add_data v None None None b Hinv) as Hinv'.
  destruct Hinv as (Ha & Hn & Ht).
  destruct (tensors b !! "losses"%string) as [ten|] eqn:E; simpl.
  - destruct (Ht _ _ E) as [_ Hlen].
    rewrite (fifo_add_data_allocated b ten) in * by exact E.
    unfold py_setitem in *. rewrite py_index_nonneg in * by exact Hn.
    destruct (decide _) as [_|Hc]; [|lia]. simpl in *.
    eexists. split; [reflexivity|]. split; [exact Hinv'|]. simpl.
    rewrite lookup_insert_eq. auto.
  - rewrite fifo_add_data_first in * by assumption.
    unfold torch_zeros in *. destruct (decide (buffer_size b < 0)) as [Hneg|_]; [lia|].
    unfold py_setitem in *. rewrite py_index_nonneg in * by exact Hn.
    rewrite length_replicate in *.
    destruct (decide _) as [_|Hc]; [|lia]. simpl in *.
    eexists. split; [reflexivity|]. split; [exact Hinv'|]. simpl.
    rewrite lookup_insert_eq. auto.
Qed.

(** Several values on a buffer with room for them all: they take the slots
    from the counter on, in order. *)
Lemma fifo_adds_spec (values : list T) (b : BufferFIFO.t T) :
  fifo_inv b ->
  num_seen_examples b + Z.of_nat (length values) <= buffer_size b ->
  values <> [] ->
  let cur := default (replicate (Z.to_nat (buffer_size b)) zeros)
                     (tensors b !! "losses"%string) in
  let n := Z.to_nat (num_seen_examples b) in
  exists b',
    fifo_adds values b = (Ok tt, b') /\
    fifo_inv b' /\
    buffer_size b' = buffer_size b /\
    num_seen_examples b' = num_seen_examples b + Z.of_nat (length values) /\
    tensors b' !! "losses"%string
      = Some (take n cur ++ map to_float32 values ++ drop (n + length values) cur).
Proof.
  revert b. induction values as [|v values IH]; intros b Hinv Hroom Hne; [contradiction|].
  simpl in Hroom. intros cur n.
  destruct (fifo_add_data_room b v Hinv) as (b1 & E1 & Hinv1 & Hs1 & Hn1 & Hl1); [lia|].
  fold cur in Hl1. fold n in Hl1.
  assert (Hcur : Z.of_nat (length cur) = buffer_size b).
  { subst cur. destruct Hinv as (_ & _ & Ht).
    destruct (tensors b !! "losses"%string) as [ten|] eqn:E; simpl.
    - apply (Ht _ _ E).
    - rewrite length_replicate. destruct Hinv1 as (_ & Hpos & _). lia. }
  assert (Hseen : 0 <= num_seen_examples b) by apply Hinv.
  unfold fifo_adds. simpl. unfold st_bind. rewrite E1.
  destruct values as [|w values].
  - exists b1. split; [reflexivity|]. split; [exact Hinv1|]. split; [exact Hs1|].
    split; [rewrite Hn1; simpl; lia|]. rewrite Hl1. f_equal. simpl.
    rewrite insert_take_drop by lia. f_equal. f_equal. f_equal. lia.
  - destruct (IH b1 Hinv1) as (b' & E' & Hinv' & Hs' & Hn' & Hl');
      [rewrite Hn1, Hs1; simpl in *; lia|discriminate|].
    exists b'. split; [exact E'|]. split; [exact Hinv'|].
    split; [rewrite Hs', Hs1; reflexivity|].
    split; [rewrite Hn', Hn1; simpl length; lia|].
    rewrite Hl', Hl1, Hn1. simpl default.
    replace (Z.to_nat (num_seen_examples b + 1)) with (S n) by lia.
    rewrite insert_take_drop by lia.
    assert (Hpre : S n = length (take n cur ++ [to_float32 v]))
      by (rewrite length_app, length_take; simpl; lia).
    rewrite (cons_middle (to_float32 v) (take n cur)).
    rewrite !(app_assoc (take n cur) [to_float32 v] (drop (S n) cur)).
    rewrite (take_app_length' _ _ (S n) Hpre).
    rewrite (drop_app_add' _ _ (S n) _ Hpre), drop_drop.
    rewrite <- !app_assoc. simpl.
    replace (S (n + S (length values))) with (n + S (S (length values)))%nat by lia.
    reflexivity.
Qed.

(** X9: after values were added to a reachable scalar-metric buffer that
    had room for them all, [get_data(size)] for [0 <= size] up to their
    number returns the mean of the last [size] of them, as float32 numbers:
    the trailing window, in the order they were added. *)
Theorem BufferFIFO_get_data_trailing_window (b : BufferFIFO.t T) (values : list T)
    (torch_mean : list T -> T) (size : Z) :
  reachable b ->
  num_seen_examples b + Z.of_nat (length values) <= buffer_size b ->
  values <> [] ->
  0 <= size <= Z.of_nat (length values) ->
  exists b',
    fifo_adds values b = (Ok tt, b') /\
    num_seen_examples b' = num_seen_examples b + Z.of_nat (length values) /\
    get_data torch_mean size b'
      = Ok (torch_mean (drop (length values - Z.to_nat size) (map to_float32 values))).
Proof.
  intros Hr Hroom Hne Hsize. pose proof (fifo_reachable_inv b Hr) as Hinv.
  destruct (fifo_adds_spec values b Hinv Hroom Hne) as (b' & Hrun & Hinv' & Hs & Hn & Hl).
  exists b'. split; [exact Hrun|]. split; [exact Hn|].
  assert (Hseen : 0 <= num_seen_examples b) by apply Hinv.
  set (cur := default (replicate (Z.to_nat (buffer_size b)) zeros)
                      (tensors b !! "losses"%string)) in *.
  set (n := Z.to_nat (num_seen_examples b)) in *.
  assert (Hcur : Z.of_nat (length cur) = buffer_size b).
  { destruct Hinv' as (_ & _ & Ht). destruct (Ht _ _ Hl) as [_ Hlen].
    rewrite !length_app, length_take, length_drop, length_map in Hlen. subst cur.
    destruct Hinv as (_ & _ & Ht0).
    destruct (tensors b !! "losses"%string) as [ten|] eqn:E; simpl.
    - apply (Ht0 _ _ E).
    - rewrite length_replicate. lia. }
  unfold get_data, getattr. rewrite Hl. simpl.
  set (stored := take n cur ++ map to_float32 values ++ drop (n + length values) cur).
  assert (Hstored : Z.of_nat (length stored) = buffer_size b).
  { subst stored. rewrite !length_app, length_take, length_drop, length_map. lia. }
  rewrite Hn.
  rewrite Z.min_l by lia.
  destruct (decide (num_seen_examples b + Z.of_nat (length values) < size)) as [Hc|_]; [lia|].
  rewrite py_slice_in_range by lia. do 2 f_equal.
  subst stored.
  replace (Z.to_nat (num_seen_examples b + Z.of_nat (length values) - size))
    with (length (take n cur) + (length values - Z.to_nat size))%nat
    by (rewrite length_take; lia).
  rewrite drop_app_add'; [|reflexivity].
  rewrite drop_app_le by (rewrite length_map; lia).
  rewrite take_app_length'; [reflexivity|]. rewrite length_drop, length_map. lia.
Qed.

Lemma fifo_empty_clears (b : BufferFIFO.t T) :
  reachable b -> empty b = (Ok tt, set_num_seen_examples 0 (set_tensors ∅ b)).
Proof.
  intros Hr. pose proof (fifo_reachable_inv b Hr) as (Ha & _ & Ht).
  rewrite (fifo_empty_eq b Ha). unfold delattr. f_equal. f_equal. simpl. f_equal.
  apply map_eq. intros k. rewrite lookup_empty.
  destruct (decide (k = "losses"%string)) as [->|Hne]; [apply lookup_delete_eq|].
  rewrite lookup_delete_ne by congruence.
  destruct (tensors b !! k) as [v|] eqn:E; [|reflexivity].
  destruct (Ht _ _ E) as [Hk _]. contradiction.
Qed.

(** X10: [empty()] on a reachable scalar-metric buffer leaves no tensor and
    a counter of 0, so [is_empty()] is true and [get_data] raises
    [AttributeError]; and on a buffer of positive capacity, the next
    [add_data] succeeds again, also when the buffer had been full: it
    writes its value, converted to float32, to slot 0 of a new tensor of
    zeros. *)
Theorem BufferFIFO_empty_recovers (b : BufferFIFO.t T) (v : T) (torch_mean : list T -> T)
    (size : Z) :
  reachable b ->
  let b0 := (empty b).2 in
  empty b = (Ok tt, set_num_seen_examples 0 (set_tensors ∅ b)) /\
  is_empty b0 = true /\
  get_data torch_mean size b0 = Raise AttributeError /\
  (0 < buffer_size b ->
   exists b',
     add_data v None None None b0 = (Ok tt, b') /\
     num_seen_examples b' = 1 /\
     tensors b' !! "losses"%string
       = Some (<[0%nat := to_float32 v]> (replicate (Z.to_nat (buffer_size b)) zeros))).
Proof.
  intros Hr b0. subst b0. rewrite (fifo_empty_clears b Hr). simpl.
  split; [reflexivity|]. split; [reflexivity|]. split; [reflexivity|]. intros Hsize.
  assert (Hinv0 : fifo_inv (set_num_seen_examples 0 (set_tensors ∅ b))).
  { pose proof (fifo_inv_empty b (fifo_reachable_inv b Hr)) as Hinv0.
    rewrite (fifo_empty_clears b Hr) in Hinv0. exact Hinv0. }
  destruct (fifo_add_data_room _ v Hinv0) as (b' & Hrun & _ & _ & Hn & Hl); [simpl; lia|].
  exists b'. split; [exact Hrun|]. split; [exact Hn|]. exact Hl.
Qed.
End BufferFIFOMoreFacts.

(** ** More on the stream buffers and their view *)

Section StreamMoreFacts.
Context {step side : Type}.

Lemma py_slice_from_newest (l : list step) :
  l <> [] -> exists newest, py_slice_from (-1) l = [newest].
Proof.
  intros Hne. destruct l as [|a l] using rev_ind; [contradiction|].
  exists a. apply py_slice_from_last.
Qed.

(** X11: a fast buffer is a sliding window over its stream. From a state
    whose length field is the series length minus [seq_len], a run of
    [add_data] calls (inputs that are not empty, sizes agreeing) returns
    and leaves the stored series followed by the newest time-step of each
    input, less the oldest time-steps in excess: the length field grows by
    one per call up to the larger of the capacity and its starting value,
    and stays there. *)
Theorem FastStreamBuffer_sliding_window (inputs : list (tensor3 step * tensor3 step))
    (b : FastStreamBuffer.t step) (cur : tensor3 step) :
  FastStreamBuffer.x b = Some cur ->
  FastStreamBuffer.length b = size1 cur - FastStreamBuffer.seq_len b ->
  0 <= FastStreamBuffer.seq_len b ->
  0 < FastStreamBuffer.buffer_size b ->
  Forall (fun xp : tensor3 step * tensor3 step =>
            (shape0 xp.1 = shape0 cur /\ shape2 xp.1 = shape2 cur) /\
            (shape0 xp.2 = shape0 cur /\ shape2 xp.2 = shape2 cur) /\
            steps xp.1 <> []) inputs ->
  let calls := Z.of_nat (length inputs) in
  let cap := Z.max (FastStreamBuffer.buffer_size b) (FastStreamBuffer.length b) in
  exists (b' : FastStreamBuffer.t step) (cur' : tensor3 step),
    fast_adds inputs b = (Ok tt, b') /\
    FastStreamBuffer.x b' = Some cur' /\
    steps cur' = drop (Z.to_nat (FastStreamBuffer.length b + calls - cap))
                      (steps cur ++ newest_steps inputs) /\
    FastStreamBuffer.length b' = Z.min (FastStreamBuffer.length b + calls) cap /\
    FastStreamBuffer.length b' = size1 cur' - FastStreamBuffer.seq_len b'.
Proof.
  revert b cur. induction inputs as [|[x_new pred] inputs IH];
    intros b cur Hx Hlen Hseq Hcap Hin calls cap; subst calls cap.
  - exists b, cur. split; [reflexivity|]. split; [exact Hx|]. simpl.
    split; [|split; [lia|exact Hlen]].
    replace (Z.to_nat _) with 0%nat by lia. rewrite app_nil_r. reflexivity.
  - apply Forall_cons in Hin as [(Hxs & Hps & Hne) Hin]. simpl in Hxs, Hps, Hne.
    destruct (py_slice_from_newest (steps x_new) Hne) as [newest Hnew].
    pose proof (fast_add_data_later b x_new pred cur Hx Hxs Hps) as Hstep.
    simpl in Hstep. rewrite Hnew in Hstep.
    set (kept := if decide (FastStreamBuffer.buffer_size b <= FastStreamBuffer.length b)
                 then py_slice_from 1 (steps cur) else steps cur) in *.
    set (cur1 := Tensor3 (shape0 cur) (kept ++ [newest]) (shape2 cur)) in *.
    match type of Hstep with _ = (_, ?s) => set (b1 := s) in * end.
    assert (Hkept : kept ++ [newest]
                    = drop (Z.to_nat (FastStreamBuffer.length b + 1
                                      - Z.max (FastStreamBuffer.buffer_size b)
                                              (FastStreamBuffer.length b)))
                           (steps cur ++ [newest])).
    { subst kept. unfold size1 in Hlen.
      destruct (decide (FastStreamBuffer.buffer_size b <= FastStreamBuffer.length b)).
      - replace (Z.to_nat _) with 1%nat by lia.
        rewrite (py_slice_from_nonneg 1) by lia.
        destruct (steps cur) as [|s0 rest]; [simpl in Hlen; lia|]. reflexivity.
      - replace (Z.to_nat _) with 0%nat by lia. reflexivity. }
    assert (Hlen1 : FastStreamBuffer.length b1
                    = Z.min (FastStreamBuffer.length b + 1)
                            (Z.max (FastStreamBuffer.buffer_size b) (FastStreamBuffer.length b))).
    { subst b1 cur1. simpl. unfold size1 in *. simpl. rewrite Hkept, length_drop, length_app.
      simpl. lia. }
    assert (Hx1 : FastStreamBuffer.x b1 = Some cur1) by reflexivity.
    assert (Hf1 : FastStreamBuffer.length b1 = size1 cur1 - FastStreamBuffer.seq_len b1)
      by reflexivity.
    assert (Hq1 : FastStreamBuffer.seq_len b1 = FastStreamBuffer.seq_len b) by reflexivity.
    assert (Hb1 : FastStreamBuffer.buffer_size b1 = FastStreamBuffer.buffer_size b)
      by reflexivity.
    assert (Hc1 : steps cur1 = kept ++ [newest]) by reflexivity.
    assert (Hsh1 : shape0 cur1 = shape0 cur /\ shape2 cur1 = shape2 cur)
      by (split; reflexivity).
    simpl in Hstep. clearbody b1 cur1.
    destruct (IH b1 cur1) as (b' & cur' & Hrun & Hx' & Hsteps & Hlen' & Hform).
    + exact Hx1.
    + exact Hf1.
    + rewrite Hq1. exact Hseq.
    + rewrite Hb1. exact Hcap.
    + destruct Hsh1 as [-> ->]. exact Hin.
    + exists b', cur'. split.
      { unfold fast_adds. simpl. unfold st_bind. rewrite Hstep. exact Hrun. }
      split; [exact Hx'|]. split; [|split; [|exact Hform]].
      * rewrite Hsteps, Hc1, Hkept, Hb1, Hlen1.
        unfold newest_steps. simpl. rewrite Hnew.
        fold (newest_steps inputs).
        rewrite (app_assoc (steps cur) [newest]).
        set (L := FastStreamBuffer.length b) in *.
        set (B := FastStreamBuffer.buffer_size b) in *.
        set (k := Z.of_nat (length inputs)) in *.
        assert (Hfirst : (Z.to_nat (L + 1 - Z.max B L) <= length (steps cur ++ [newest]))%nat).
        { rewrite length_app. unfold size1 in Hlen. simpl. lia. }
        rewrite <- (drop_app_le _ _ _ Hfirst), drop_drop. f_equal. lia.
      * rewrite Hlen', Hb1, Hlen1. simpl length. lia.
Qed.

(** X12: the alignment of a slow buffer. It holds on a fresh buffer and on
    a cleared one, whose side-channel list and length field [clear()] has
    reset, and, for a positive stride and capacity, every
    [add_data] whose series has at least [sample_freq] time-steps (exactly
    [seq_len + pred_len] of them on the first call) and agrees in size with
    the stored one returns and keeps it: the series holds one window and
    horizon plus one stride per further side-channel entry, and from the
    second call on the length field is the number of side-channel entries. *)
Theorem SlowStreamBuffer_add_data_aligned (b : SlowStreamBuffer.t step side)
    (x_new : tensor3 step) (logits_new : side) :
  (forall buffer_size seq_len pred_len sample_freq : Z,
     @slow_aligned step side
       (SlowStreamBuffer.__init__ buffer_size seq_len pred_len sample_freq)) /\
  slow_aligned (SlowStreamBuffer.clear b).2 /\
  (0 < SlowStreamBuffer.sample_freq b ->
   0 < SlowStreamBuffer.buffer_size b ->
   0 <= SlowStreamBuffer.seq_len b + SlowStreamBuffer.pred_len b ->
   slow_aligned b ->
   (SlowStreamBuffer.x b = None ->
    size1 x_new = SlowStreamBuffer.seq_len b + SlowStreamBuffer.pred_len b) ->
   SlowStreamBuffer.sample_freq b <= size1 x_new ->
   (forall cur, SlowStreamBuffer.x b = Some cur ->
                shape0 x_new = shape0 cur /\ shape2 x_new = shape2 cur) ->
   let out := SlowStreamBuffer.add_data x_new logits_new b in
   out.1 = Ok tt /\ slow_aligned out.2 /\
   is_Some (SlowStreamBuffer.x out.2) /\
   SlowStreamBuffer.sample_freq out.2 = SlowStreamBuffer.sample_freq b /\
   SlowStreamBuffer.buffer_size out.2 = SlowStreamBuffer.buffer_size b /\
   SlowStreamBuffer.seq_len out.2 = SlowStreamBuffer.seq_len b /\
   SlowStreamBuffer.pred_len out.2 = SlowStreamBuffer.pred_len b).
Proof.
  split; [|split].
  - intros bs sq pl sf. split; reflexivity.
  - split; reflexivity.
  - intros Hsf Hbs Hsp Hal Hfirst Hlong Hshape out. subst out.
    unfold slow_aligned in Hal.
    destruct (SlowStreamBuffer.x b) as [cur|] eqn:Hx.
    + destruct Hal as [Hsize Hcount]. clear Hfirst.
      specialize (Hshape cur eq_refl).
      rewrite (slow_add_data_later b x_new cur logits_new Hx).
      unfold size1 in Hsize, Hlong.
      pose proof (py_slice_from_neg_length (SlowStreamBuffer.sample_freq b) (steps x_new))
        as Hnewest.
      destruct (decide (SlowStreamBuffer.buffer_size b <= SlowStreamBuffer.length b))
        as [Hfull|Hroom].
      * rewrite bool_decide_eq_true_2 by exact Hfull.
        destruct Hcount as [[Hz _]|[Hcount Htwo]]; [lia|].
        rewrite torch_cat1_agree by exact Hshape. cbn zeta.
        assert (Hentries : Z.of_nat (length (py_slice_from 1 (SlowStreamBuffer.logits b)
                                             ++ [logits_new]))
                           = Z.of_nat (length (SlowStreamBuffer.logits b))).
        { rewrite (py_slice_from_nonneg 1) by lia.
          rewrite length_app, length_drop. simpl. lia. }
        assert (Hsize' : Z.of_nat (length (py_slice_from (SlowStreamBuffer.sample_freq b)
                                             (steps cur)
                                           ++ py_slice_from (- SlowStreamBuffer.sample_freq b)
                                                (steps x_new)))
                         = Z.of_nat (length (steps cur))).
        { rewrite length_app, Nat2Z.inj_add, Hnewest by lia.
          rewrite (py_slice_from_nonneg (SlowStreamBuffer.sample_freq b)) by lia.
          rewrite length_drop. nia. }
        unfold size1. cbn [steps slice1_from].
        rewrite Hsize'.
        destruct (decide _) as [_|Hc]; [|nia].
        unfold py_floordiv. destruct (decide (SlowStreamBuffer.sample_freq b = 0)); [lia|].
        cbn [fst snd]. split; [reflexivity|]. split; [|cbn; eauto 10].
        unfold slow_aligned. cbn -[Z.mul Z.div Z.add Z.sub].
        unfold size1. cbn [steps]. rewrite Hsize', Hentries. split; [exact Hsize|].
        right. split; [|exact Htwo].
        replace (Z.of_nat (length (steps cur)) - SlowStreamBuffer.seq_len b
                 - SlowStreamBuffer.pred_len b)
          with ((Z.of_nat (length (SlowStreamBuffer.logits b)) - 1)
                * SlowStreamBuffer.sample_freq b) by lia.
        rewrite Z.div_mul by lia. lia.
      * rewrite bool_decide_eq_false_2 by exact Hroom.
        rewrite torch_cat1_agree by exact Hshape. cbn zeta.
        assert (Hsize' : Z.of_nat (length (steps cur
                                           ++ py_slice_from (- SlowStreamBuffer.sample_freq b)
                                                (steps x_new)))
                         = Z.of_nat (length (steps cur)) + SlowStreamBuffer.sample_freq b).
        { rewrite length_app, Nat2Z.inj_add, Hnewest by lia. reflexivity. }
        assert (Hentries : Z.of_nat (length (SlowStreamBuffer.logits b ++ [logits_new]))
                           = Z.of_nat (length (SlowStreamBuffer.logits b)) + 1).
        { rewrite length_app. simpl. lia. }
        unfold size1. cbn [steps slice1_from].
        rewrite Hsize'.
        destruct (decide _) as [_|Hc]; [|nia].
        unfold py_floordiv. destruct (decide (SlowStreamBuffer.sample_freq b = 0)); [lia|].
        cbn [fst snd]. split; [reflexivity|]. split; [|cbn; eauto 10].
        unfold slow_aligned. cbn -[Z.mul Z.div Z.add Z.sub].
        unfold size1. cbn [steps]. rewrite Hsize', Hentries. split; [lia|].
        right. split; [|lia].
        replace (Z.of_nat (length (steps cur)) + SlowStreamBuffer.sample_freq b
                 - SlowStreamBuffer.seq_len b - SlowStreamBuffer.pred_len b)
          with (Z.of_nat (length (SlowStreamBuffer.logits b))
                * SlowStreamBuffer.sample_freq b) by lia.
        rewrite Z.div_mul by lia. lia.
    + unfold SlowStreamBuffer.add_data, st_bind, st_get, st_modify. rewrite Hx. simpl.
      split; [reflexivity|]. split; [|eauto 10].
      unfold slow_aligned. simpl.
      split; [rewrite Hfirst by reflexivity; lia|]. left. split; reflexivity.
Qed.

Lemma slow_get_data_view (b : SlowStreamBuffer.t step side) (cur : tensor3 step) (size : Z) :
  SlowStreamBuffer.x b = Some cur ->
  SlowStreamBuffer.get_data size b =
    (let? size' := clamp_size (slow_view b cur) size in
     new_DataLoader (slow_view b cur) size' true false).
Proof.
  intros Hx. unfold SlowStreamBuffer.get_data, SlowStreamBuffer.get_x. rewrite Hx.
  reflexivity.
Qed.

(** X13: [get_data] of a slow buffer. Before any [add_data] it raises
    [AttributeError]. On an aligned buffer that holds a series, with a
    positive stride, the view it builds has as many windows as there are
    side-channel entries; a size that is not positive raises [ValueError],
    and otherwise the shuffling loader is returned, with the batch size
    clamped to the number of windows and no batch dropped. *)
Theorem SlowStreamBuffer_get_data_loader (b : SlowStreamBuffer.t step side) (size : Z) :
  (SlowStreamBuffer.x b = None -> SlowStreamBuffer.get_data size b = Raise AttributeError) /\
  (forall cur : tensor3 step,
     SlowStreamBuffer.x b = Some cur ->
     slow_aligned b ->
     0 < SlowStreamBuffer.sample_freq b ->
     let entries := Z.of_nat (length (SlowStreamBuffer.logits b)) in
     StreamDataset.len (slow_view b cur) = Ok entries /\
     SlowStreamBuffer.get_data size b =
       if decide (size <= 0) then Raise ValueError
       else Ok (MkDataLoader (slow_view b cur) (Z.min size entries) true false)).
Proof.
  split.
  - intros Hx. unfold SlowStreamBuffer.get_data, SlowStreamBuffer.get_x. rewrite Hx.
    reflexivity.
  - intros cur Hx Hal Hsf entries. subst entries.
    unfold slow_aligned in Hal. rewrite Hx in Hal. destruct Hal as [Hsize Hcount].
    assert (Hlen : StreamDataset.len (slow_view b cur)
                   = Ok (Z.of_nat (length (SlowStreamBuffer.logits b)))).
    { unfold StreamDataset.len, StreamDataset.__len__, slow_view, py_floordiv. simpl.
      destruct (decide (SlowStreamBuffer.sample_freq b = 0)); [lia|]. simpl.
      replace (size1 cur - SlowStreamBuffer.seq_len b - SlowStreamBuffer.pred_len b)
        with ((Z.of_nat (length (SlowStreamBuffer.logits b)) - 1)
              * SlowStreamBuffer.sample_freq b) by lia.
      rewrite Z.div_mul by lia.
      destruct (decide _) as [Hc|_]; [lia|]. f_equal. lia. }
    split; [exact Hlen|].
    rewrite (slow_get_data_view b cur size Hx). unfold clamp_size. rewrite Hlen. simpl.
    unfold new_DataLoader.
    destruct (decide (Z.of_nat (length (SlowStreamBuffer.logits b)) < size)); simpl.
    + destruct (decide (size <= 0)); [lia|].
      destruct (decide _) as [Hc|_]; [lia|]. rewrite Z.min_r by lia. reflexivity.
    + destruct (decide (size <= 0)); [reflexivity|]. rewrite Z.min_l by lia. reflexivity.
Qed.


(** X15: the length field of a slow buffer against its view. With a
    positive stride, after every [add_data] but the first (sizes agreeing),
    the length field is the [__len__] of the view that [get_data] builds,
    clamped at zero from below. *)
Theorem SlowStreamBuffer_length_is_clamped_len (b : SlowStreamBuffer.t step side)
    (x_new cur : tensor3 step) (logits_new : side) :
  SlowStreamBuffer.x b = Some cur ->
  0 < SlowStreamBuffer.sample_freq b ->
  shape0 x_new = shape0 cur /\ shape2 x_new = shape2 cur ->
  let out := SlowStreamBuffer.add_data x_new logits_new b in
  exists (cur' : tensor3 step) (len : Z),
    out.1 = Ok tt /\
    SlowStreamBuffer.x out.2 = Some cur' /\
    StreamDataset.__len__ (slow_view out.2 cur') = Ok len /\
    SlowStreamBuffer.length out.2 = Z.max 0 len.
Proof.
  intros Hx Hsf Hshape out. subst out.
  rewrite (slow_add_data_later b x_new cur logits_new Hx).
  set (full := bool_decide _). set (kept := if full then _ else _).
  assert (Hk : shape0 x_new = shape0 kept /\ shape2 x_new = shape2 kept)
    by (subst kept; destruct full; exact Hshape).
  rewrite torch_cat1_agree
    by (cbn [slice1_from shape0 shape2]; exact Hk).
  cbn zeta. set (cur' := Tensor3 _ _ _). set (b1 := if full then _ else _).
  assert (Hview : forall (s : SlowStreamBuffer.t step side),
            SlowStreamBuffer.seq_len s = SlowStreamBuffer.seq_len b ->
            SlowStreamBuffer.pred_len s = SlowStreamBuffer.pred_len b ->
            SlowStreamBuffer.sample_freq s = SlowStreamBuffer.sample_freq b ->
            StreamDataset.__len__ (slow_view s cur')
            = Ok ((size1 cur' - SlowStreamBuffer.seq_len b - SlowStreamBuffer.pred_len b)
                  / SlowStreamBuffer.sample_freq b + 1)).
  { intros s Hq Hp Hf. unfold StreamDataset.__len__, slow_view, py_floordiv. simpl.
    rewrite Hq, Hp, Hf. destruct (decide (SlowStreamBuffer.sample_freq b = 0)); [lia|].
    reflexivity. }
  assert (Hcfg : SlowStreamBuffer.seq_len b1 = SlowStreamBuffer.seq_len b /\
                 SlowStreamBuffer.pred_len b1 = SlowStreamBuffer.pred_len b /\
                 SlowStreamBuffer.sample_freq b1 = SlowStreamBuffer.sample_freq b)
    by (subst b1; destruct full; repeat split; reflexivity).
  destruct Hcfg as (Hq & Hp & Hf).
  destruct (decide (0 <= size1 cur' - SlowStreamBuffer.seq_len b - SlowStreamBuffer.pred_len b))
    as [Hpos|Hneg].
  - unfold py_floordiv. destruct (decide (SlowStreamBuffer.sample_freq b = 0)); [lia|].
    cbn [fst snd]. eexists cur', _. split; [reflexivity|]. split; [reflexivity|].
    split; [apply Hview; assumption|]. cbn [SlowStreamBuffer.length SlowStreamBuffer.set_length].
    pose proof (Z.div_pos _ _ Hpos Hsf). lia.
  - cbn [fst snd]. eexists cur', _. split; [reflexivity|]. split; [reflexivity|].
    split; [apply Hview; assumption|]. cbn [SlowStreamBuffer.length SlowStreamBuffer.set_length].
    assert ((size1 cur' - SlowStreamBuffer.seq_len b - SlowStreamBuffer.pred_len b)
            / SlowStreamBuffer.sample_freq b < 0) by (apply Z.div_lt_upper_bound; lia).
    lia.
Qed.
End StreamMoreFacts.

(** ** The further properties on concrete inputs *)

Lemma fifo_fresh_reachable : BufferFIFO.reachable fifo_fresh.
Proof. apply (BufferFIFO.reach_init 2 None "reservoir"). reflexivity. Qed.

(** [BufferFIFO_get_data_trailing_window] for two values and a window of
    one, with the sum standing for the mean. *)
Lemma BufferFIFO_get_data_trailing_window_witness :
  BufferFIFO.reachable fifo_fresh /\
  exists b',
    fifo_adds [7; 8] fifo_fresh = (Ok tt, b') /\
    BufferFIFO.get_data (fun l => foldr Z.add 0 l) 1 b' = Ok 8.
Proof.
  split; [exact fifo_fresh_reachable|].
  destruct (BufferFIFO_get_data_trailing_window fifo_fresh [7; 8]
              (fun l => foldr Z.add 0 l) 1 fifo_fresh_reachable)
    as (b' & Hrun & _ & Hget).
  - vm_compute. discriminate.
  - discriminate.
  - simpl. lia.
  - exists b'. split; [exact Hrun|exact Hget].
Defined.

(** [BufferFIFO_empty_recovers] on a full buffer. *)
Lemma BufferFIFO_empty_recovers_witness :
  BufferFIFO.reachable fifo_two /\
  (BufferFIFO.add_data 9 None None None fifo_two).1 = Raise IndexError /\
  exists b',
    BufferFIFO.add_data 9 None None None (BufferFIFO.empty fifo_two).2 = (Ok tt, b') /\
    BufferFIFO.num_seen_examples b' = 1.
Proof.
  split; [exact fifo_two_reachable|]. split; [reflexivity|].
  destruct (BufferFIFO_empty_recovers fifo_two 9 (fun l => foldr Z.add 0 l) 1
              fifo_two_reachable) as (_ & _ & _ & Hnext).
  destruct Hnext as (b' & Hrun & Hn & _); [vm_compute; reflexivity|].
  exists b'. split; [exact Hrun|exact Hn].
Defined.

(** [FastStreamBuffer_sliding_window] for two calls on a buffer past its
    capacity: the two oldest time-steps go, the two newest come. *)
Lemma FastStreamBuffer_sliding_window_witness :
  FastStreamBuffer.x fast2 = Some (Tensor3 1 [1; 2; 3; 5] 1) /\
  exists b' cur',
    fast_adds [(Tensor3 1 [5; 6] 1, fast_pred); (Tensor3 1 [7] 1, fast_pred)] fast2
      = (Ok tt, b') /\
    FastStreamBuffer.x b' = Some cur' /\
    steps cur' = [3; 5; 6; 7] /\
    FastStreamBuffer.length b' = 3.
Proof.
  split; [reflexivity|].
  destruct (FastStreamBuffer_sliding_window
              [(Tensor3 1 [5; 6] 1, fast_pred); (Tensor3 1 [7] 1, fast_pred)]
              fast2 (Tensor3 1 [1; 2; 3; 5] 1) eq_refl eq_refl)
    as (b' & cur' & Hrun & Hx & Hsteps & Hlen & _).
  - vm_compute. discriminate.
  - vm_compute. reflexivity.
  - repeat constructor; discriminate.
  - exists b', cur'. split; [exact Hrun|]. split; [exact Hx|].
    split; [exact Hsteps|exact Hlen].
Defined.

Lemma slow2_aligned : slow_aligned slow2.
Proof. vm_compute. split; [reflexivity|]. right. split; [reflexivity|discriminate]. Qed.

(** [SlowStreamBuffer_add_data_aligned] along a run: the first call on the
    fresh buffer, the second, which finds room, the third, which finds the
    length field past the capacity, and [clear()] after them. *)
Lemma SlowStreamBuffer_add_data_aligned_witness :
  slow_aligned slow0 /\
  slow_aligned slow1 /\
  SlowStreamBuffer.x slow1 = Some slow_x /\
  (SlowStreamBuffer.add_data slow_x 8 slow1).1 = Ok tt /\
  slow_aligned slow2 /\
  SlowStreamBuffer.buffer_size slow2 <= SlowStreamBuffer.length slow2 /\
  (SlowStreamBuffer.add_data slow_x 9 slow2).1 = Ok tt /\
  slow_aligned (SlowStreamBuffer.add_data slow_x 9 slow2).2 /\
  slow_aligned (SlowStreamBuffer.clear slow2).2 /\
  SlowStreamBuffer.logits (SlowStreamBuffer.clear slow2).2 = [].
Proof.
  pose proof (SlowStreamBuffer_add_data_aligned slow0 slow_x 7) as (Hinit & _ & Hstep0).
  pose proof (SlowStreamBuffer_add_data_aligned slow1 slow_x 8) as (_ & _ & Hstep1).
  pose proof (SlowStreamBuffer_add_data_aligned slow2 slow_x 9) as (_ & Hclear & Hstep2).
  assert (Hal0 : slow_aligned slow0) by apply (Hinit 1 1 1 1).
  assert (Hal1 : slow_aligned slow1).
  { apply Hstep0.
    - vm_compute. reflexivity.
    - vm_compute. reflexivity.
    - vm_compute. discriminate.
    - exact Hal0.
    - intros _. reflexivity.
    - vm_compute. discriminate.
    - intros cur Hx. discriminate. }
  assert (Hrun1 : (SlowStreamBuffer.add_data slow_x 8 slow1).1 = Ok tt /\ slow_aligned slow2).
  { destruct Hstep1 as (Hok & Hal & _).
    - vm_compute. reflexivity.
    - vm_compute. reflexivity.
    - vm_compute. discriminate.
    - exact Hal1.
    - intros Hx. discriminate.
    - vm_compute. discriminate.
    - intros cur Hx. injection Hx as <-. split; reflexivity.
    - split; [exact Hok|exact Hal]. }
  destruct Hrun1 as [Hok1 Hal2].
  assert (Hrun2 : (SlowStreamBuffer.add_data slow_x 9 slow2).1 = Ok tt /\
                  slow_aligned (SlowStreamBuffer.add_data slow_x 9 slow2).2).
  { destruct Hstep2 as (Hok & Hal & _).
    - vm_compute. reflexivity.
    - vm_compute. reflexivity.
    - vm_compute. discriminate.
    - exact Hal2.
    - intros Hx. discriminate.
    - vm_compute. discriminate.
    - intros cur Hx. injection Hx as <-. split; reflexivity.
    - split; [exact Hok|exact Hal]. }
  destruct Hrun2 as [Hok2 Hal3].
  split; [exact Hal0|]. split; [exact Hal1|]. split; [reflexivity|].
  split; [exact Hok1|]. split; [exact Hal2|].
  split; [vm_compute; discriminate|]. split; [exact Hok2|]. split; [exact Hal3|].
  split; [exact Hclear|]. exact (proj1 Hclear).
Defined.

(** [SlowStreamBuffer_get_data_loader] for a request of five windows on a
    buffer that has two. *)
Lemma SlowStreamBuffer_get_data_loader_witness :
  slow_aligned slow2 /\
  SlowStreamBuffer.get_data 5 slow2
    = Ok (MkDataLoader (slow_view slow2 (Tensor3 1 [1; 2; 2] 1)) 2 true false).
Proof.
  split; [exact slow2_aligned|].
  destruct (proj2 (SlowStreamBuffer_get_data_loader slow2 5) (Tensor3 1 [1; 2; 2] 1)
              eq_refl slow2_aligned) as [_ Hget].
  - vm_compute. reflexivity.
  - exact Hget.
Defined.


(** [SlowStreamBuffer_length_is_clamped_len] for the second call. *)
Lemma SlowStreamBuffer_length_is_clamped_len_witness :
  SlowStreamBuffer.x slow1 = Some slow_x /\
  exists len,
    StreamDataset.__len__ (slow_view slow2 (Tensor3 1 [1; 2; 2] 1)) = Ok len /\
    SlowStreamBuffer.length slow2 = Z.max 0 len.
Proof.
  split; [reflexivity|].
  destruct (SlowStreamBuffer_length_is_clamped_len slow1 slow_x slow_x 8 eq_refl)
    as (cur' & len & _ & Hx & Hlen & Hfield).
  - vm_compute. reflexivity.
  - split; reflexivity.
  - injection Hx as <-. exists len. split; [exact Hlen|exact Hfield].
Defined.

(** ** Degenerate capacities and whole-buffer reads *)

Section BufferEdgeFacts.
Context {T : Type} `{Float32 T}.
Import Buffer.

(** X16: [add_data] at the edges, on a reachable buffer. With a negative
    capacity it raises [RuntimeError] (no tensor can be allocated) and
    changes nothing. With a capacity of zero and a batch that is not empty
    it raises [ZeroDivisionError] and counts nothing. With an empty batch
    and a capacity that is not negative it returns and counts nothing, yet
    allocates [examples]. *)
Theorem Buffer_add_data_degenerate (b : Buffer.t T) (examples : list T)
    (labels logits task_labels : option (list T)) :
  reachable b ->
  let out := add_data examples labels logits task_labels b in
  (buffer_size b < 0 -> out = (Raise RuntimeError, b)) /\
  (buffer_size b = 0 -> examples <> [] ->
   out.1 = Raise ZeroDivisionError /\ num_seen_examples out.2 = num_seen_examples b) /\
  (0 <= buffer_size b -> examples = [] ->
   out.1 = Ok tt /\ num_seen_examples out.2 = num_seen_examples b /\
   is_Some (tensors out.2 !! "examples"%string)).
Proof.
  intros Hr out. subst out.
  pose proof (buf_reachable_inv b Hr) as (Ha & Hseen & Hlen).
  assert (Hinit : forall r b0,
            (match tensors b !! "examples"%string with
             | Some _ => st_ret tt
             | None => init_tensors (Some examples) labels logits task_labels
             end) b = (r, b0) ->
            (buffer_size b < 0 /\ r = Raise RuntimeError /\ b0 = b) \/
            (0 <= buffer_size b /\ r = Ok tt /\
             num_seen_examples b0 = num_seen_examples b /\
             buffer_size b0 = buffer_size b /\
             is_Some (tensors b0 !! "examples"%string))).
  { intros r b0. destruct (tensors b !! "examples"%string) as [ex|] eqn:Eex.
    - intros [= <- <-]. right. pose proof (Hlen _ _ Eex).
      split; [lia|]. rewrite Eex. eauto 10.
    - destruct (init_tensors_outcome examples labels logits task_labels b Ha Eex)
        as [[Hneg ->]|(Hpos & Hok & _ & Hn & Hex & _)].
      + intros [= <- <-]. left. auto.
      + intros Hrun. rewrite Hrun in Hok, Hn, Hex. simpl in Hok, Hn, Hex. subst r.
        right. split; [exact Hpos|]. split; [reflexivity|]. split; [exact Hn|].
        split; [|exact Hex].
        destruct (init_tensors_spec examples labels logits task_labels b Ha Hpos)
          as (b' & E & _ & Hs & _).
        rewrite Hrun in E. injection E as <-. exact Hs. }
  assert (Hunf : add_data examples labels logits task_labels b =
            match (match tensors b !! "examples"%string with
                   | Some _ => st_ret tt
                   | None => init_tensors (Some examples) labels logits task_labels
                   end) b with
            | (Ok _, s) => st_for (py_range (Z.of_nat (length examples)))
                                  (add_data_item examples labels logits task_labels) s
            | (Raise e, s) => (Raise e, s)
            end).
  { rewrite add_data_unfold. reflexivity. }
  rewrite Hunf. clear Hunf.
  destruct (match tensors b !! "examples"%string with
            | Some _ => st_ret tt
            | None => init_tensors (Some examples) labels logits task_labels
            end b) as [r b0] eqn:Hrun.
  destruct (Hinit r b0 eq_refl) as [(Hneg & -> & ->)|(Hpos & -> & Hn0 & Hs0 & Hex0)].
  - split; [intros _; reflexivity|]. split; intros; lia.
  - split; [intros; lia|]. split.
    + intros Hzero Hne. destruct examples as [|e es]; [contradiction|].
      assert (Hloop : st_for (py_range (Z.of_nat (length (e :: es))))
                             (add_data_item (e :: es) labels logits task_labels) b0
                      = (Raise ZeroDivisionError, b0)).
      { unfold py_range. rewrite Nat2Z.id. cbn [length seq map st_for].
        unfold st_bind at 1, add_data_item, st_bind at 1, st_get at 1, st_bind at 1,
          st_lift at 1, fifo, py_mod.
        destruct (decide (buffer_size b0 = 0)) as [_|Hc]; [reflexivity|lia]. }
      rewrite Hloop. simpl. split; [reflexivity|exact Hn0].
    + intros _ ->. simpl. split; [reflexivity|]. split; [exact Hn0|exact Hex0].
Qed.
End BufferEdgeFacts.

(** The rows [gather] returns are the items at the subscripts, in order. *)
Lemma gather_lookup {T : Type} (t : list T) (choice : list Z) (rows : list T) :
  gather t choice = Ok rows ->
  (forall i, i ∈ choice -> 0 <= i) ->
  forall (k : nat) (i : Z), choice !! k = Some i -> rows !! k = t !! Z.to_nat i.
Proof.
  revert rows. induction choice as [|j choice IH]; intros rows Hrun Hpos k i Hk;
    [discriminate|].
  simpl in Hrun. unfold py_getitem in Hrun.
  rewrite py_index_nonneg in Hrun by (apply Hpos; left).
  destruct (decide (j < Z.of_nat (length t))); [|discriminate]. simpl in Hrun.
  destruct (t !! Z.to_nat j) as [a|] eqn:Ej; [|discriminate]. simpl in Hrun.
  destruct (gather t choice) as [r|e] eqn:Er; [|discriminate]. simpl in Hrun.
  injection Hrun as <-. destruct k as [|k].
  - simpl in Hk. injection Hk as <-. simpl. symmetry. exact Ej.
  - simpl in Hk. simpl. apply (IH r eq_refl); [|exact Hk].
    intros i' Hi'. apply Hpos. right. exact Hi'.
Qed.

(** Distinct subscripts that exhaust a range are a rearrangement of it. *)
Lemma choice_all_Permutation (n : Z) (choice : list Z) :
  NoDup choice -> Z.of_nat (length choice) = n ->
  (forall v, v ∈ choice -> 0 <= v < n) ->
  choice ≡ₚ py_range n.
Proof.
  intros Hnd Hlen Hin. destruct (py_range_spec n) as (_ & Hrlen & _).
  apply submseteq_length_Permutation; [|lia].
  apply NoDup_submseteq; [exact Hnd|]. intros v Hv. specialize (Hin v Hv).
  unfold py_range. apply list_elem_of_fmap. exists (Z.to_nat v).
  split; [lia|]. apply elem_of_seq. lia.
Qed.

Section GetDataMoreFacts.
Context {T : Type} `{Float32 T} {G : Type} `{RandomState G}.
Import Buffer.

(** X17: a request for at least as many items as the buffer holds returns
    all of them. On a reachable buffer of positive capacity that has
    counted an item, [get_data(size)] with [size] at least
    [n = min(num_seen_examples, buffer_size)] returns, and its first tensor
    is a rearrangement of the first [n] transformed examples: each stored
    item exactly once. *)
Theorem Buffer_get_data_everything (b : Buffer.t T) (ex : list T) (size : Z)
    (transform : option (T -> T)) (g : G) :
  reachable b ->
  tensors b !! "examples"%string = Some ex ->
  0 < buffer_size b -> 1 <= num_seen_examples b ->
  Z.min (num_seen_examples b) (buffer_size b) <= size ->
  exists first others g',
    get_data size transform b g = (Ok (first :: others), g') /\
    first ≡ₚ map (default (fun x => x) transform)
               (take (Z.to_nat (Z.min (num_seen_examples b) (buffer_size b))) ex).
Proof.
  intros Hr Eex Hsize Hseen Hall.
  pose proof (buf_reachable_inv b Hr) as (_ & _ & Ht).
  pose proof (Ht _ _ Eex) as Hlen.
  pose proof (get_data_choice_spec b ex size g Eex) as Hchoice. simpl in Hchoice.
  rewrite Hlen in Hchoice.
  set (n := Z.min (num_seen_examples b) (buffer_size b)) in *.
  assert (Hclamp : (if decide (n < size) then n else size) = n)
    by (destruct (decide (n < size)); lia).
  rewrite Hclamp in Hchoice.
  destruct (np_random_choice_spec n n g) as [Hspec Htotal].
  destruct Htotal as (choice & g' & Hrun); [lia|].
  destruct (Hspec _ _ Hrun) as (Hnd & Hclen & Hin).
  destruct (gather_in_range ex choice) as [rows Hrows].
  { intros i Hi. specialize (Hin i Hi). lia. }
  destruct (other_attributes_gather_total (py_slice_from 1 (attributes b)) choice b)
    as [others Hothers].
  { intros k v i Hk Hi. specialize (Hin i Hi). rewrite (Ht _ _ Hk). lia. }
  destruct ex as [|e0 ex']; [simpl in Hlen; lia|].
  set (ex := e0 :: ex') in *.
  set (f := fun i : Z => default e0 (ex !! Z.to_nat i)).
  assert (Hmap : rows = map f choice).
  { apply list_eq. intros k. rewrite list_lookup_fmap.
    destruct (choice !! k) as [i|] eqn:Ek; simpl.
    - rewrite (gather_lookup ex choice rows Hrows) with (i := i); [|..|exact Ek].
      + assert (Hi : i ∈ choice) by (apply list_elem_of_lookup; eauto).
        specialize (Hin i Hi). subst f. simpl.
        destruct (lookup_lt_is_Some_2 ex (Z.to_nat i)) as [v Hv]; [lia|].
        rewrite Hv. reflexivity.
      + intros j Hj. apply Hin, Hj.
    - apply lookup_ge_None. rewrite (gather_length _ _ _ Hrows).
      apply lookup_ge_None. exact Ek. }
  assert (Htake : take (Z.to_nat n) ex = map f (py_range n)).
  { apply list_eq. intros k. unfold py_range. rewrite !list_lookup_fmap.
    destruct (decide (k < Z.to_nat n)%nat) as [Hk|Hk].
    - rewrite lookup_take_lt by exact Hk. rewrite lookup_seq_lt by exact Hk. simpl.
      subst f. simpl. rewrite Nat2Z.id.
      destruct (lookup_lt_is_Some_2 ex k) as [v Hv]; [lia|]. rewrite Hv. reflexivity.
    - rewrite lookup_take_ge by lia. rewrite lookup_ge_None_2; [reflexivity|].
      rewrite length_seq. lia. }
  assert (Hne : rows <> []).
  { intros ->. apply gather_length in Hrows. simpl in Hrows. lia. }
  exists (map (default (fun x => x) transform) rows), others, g'. split.
  - unfold get_data, st_bind. rewrite Hchoice, Hrun.
    unfold st_lift, getattr. rewrite Eex. simpl. fold ex. rewrite Hrows. simpl.
    destruct rows as [|r rows]; [contradiction|]. simpl. rewrite Hothers. reflexivity.
  - rewrite Htake, Hmap. apply fmap_Permutation, fmap_Permutation.
    apply choice_all_Permutation; assumption.
Qed.

(** X18: the tensors [get_data] returns are aligned. On a reachable buffer
    that has [examples] and [labels], row [k] of the first returned tensor
    is the transformed example, and row [k] of the second the label, of one
    and the same slot, the [k]-th subscript drawn. *)
Theorem Buffer_get_data_rows_paired (b : Buffer.t T) (ex lab : list T) (size : Z)
    (transform : option (T -> T)) (g g' : G) (ret : list (list T)) :
  reachable b ->
  tensors b !! "examples"%string = Some ex ->
  tensors b !! "labels"%string = Some lab ->
  get_data size transform b g = (Ok ret, g') ->
  exists (choice : list Z) (first second : list T),
    get_data_choice size b g = (Ok choice, g') /\
    ret !! 0%nat = Some first /\ ret !! 1%nat = Some second /\
    length first = length choice /\ length second = length choice /\
    forall (k : nat) (i : Z),
      choice !! k = Some i ->
      first !! k = default (fun x => x) transform <$> ex !! Z.to_nat i /\
      second !! k = lab !! Z.to_nat i.
Proof.
  intros Hr Eex Elab Hrun.
  pose proof (buf_reachable_inv b Hr) as (Ha & _ & _).
  pose proof (get_data_choice_spec b ex size g Eex) as Hchoice. simpl in Hchoice.
  unfold get_data, st_bind in Hrun.
  destruct (get_data_choice size b g) as [[choice|e] g1] eqn:Hc; [|discriminate].
  unfold st_lift, getattr in Hrun. rewrite Eex in Hrun. simpl in Hrun.
  destruct (gather ex choice) as [rows|e] eqn:Hrows; simpl in Hrun; [|discriminate].
  destruct (torch_stack _) as [first|e] eqn:Hstack; simpl in Hrun; [|discriminate].
  destruct (other_attributes _ _ b) as [others|e] eqn:Hothers; simpl in Hrun;
    [|discriminate].
  injection Hrun as <- <-.
  rewrite Ha in Hothers.
  change (py_slice_from 1 ["examples"; "labels"; "logits"; "task_labels"]%string)
    with ["labels"; "logits"; "task_labels"]%string in Hothers.
  cbn [other_attributes] in Hothers. rewrite Elab in Hothers.
  destruct (gather lab choice) as [lrows|e] eqn:Hlrows; simpl in Hothers; [|discriminate].
  assert (Hsecond : others !! 0%nat = Some lrows).
  { match type of Hothers with
    | result_bind ?m _ = _ => destruct m as [r|e]
    end; simpl in Hothers; [|discriminate].
    injection Hothers as <-. reflexivity. }
  assert (Hfirst : first = map (default (fun x => x) transform) rows).
  { unfold torch_stack in Hstack. destruct (map _ rows); [discriminate|].
    injection Hstack as <-. reflexivity. }
  symmetry in Hchoice.
  match type of Hchoice with
  | np_random_choice ?a ?k _ = _ => destruct (np_random_choice_spec a k g) as [Hspec _]
  end.
  destruct (Hspec _ _ Hchoice) as (_ & _ & Hin).
  exists choice, first, lrows.
  split; [reflexivity|]. split; [reflexivity|]. split; [exact Hsecond|].
  split; [subst first; rewrite length_map; apply (gather_length _ _ _ Hrows)|].
  split; [apply (gather_length _ _ _ Hlrows)|].
  intros k i Hk.
  assert (Hpos : forall j, j ∈ choice -> 0 <= j) by (intros j Hj; apply Hin, Hj).
  split.
  - subst first. rewrite list_lookup_fmap.
    rewrite (gather_lookup ex choice rows Hrows Hpos k i Hk). reflexivity.
  - apply (gather_lookup lab choice lrows Hlrows Hpos k i Hk).
Qed.
End GetDataMoreFacts.

(** [Buffer_add_data_degenerate] for an empty batch on the fresh capacity-3
    buffer. *)
Lemma Buffer_add_data_degenerate_witness :
  Buffer.reachable fifo3 /\
  (Buffer.add_data [] None None None fifo3).1 = Ok tt /\
  Buffer.num_seen_examples (Buffer.add_data [] None None None fifo3).2 = 0 /\
  is_Some (Buffer.tensors (Buffer.add_data [] None None None fifo3).2 !! "examples"%string).
Proof.
  split; [exact fifo3_reachable|].
  apply (proj2 (proj2 (Buffer_add_data_degenerate fifo3 [] None None None fifo3_reachable))).
  - vm_compute; first [reflexivity | discriminate].
  - reflexivity.
Defined.

(** [Buffer_get_data_everything] for a request of five items on a full
    buffer of three: the three items come back, each once, in the order
    drawn. *)
Lemma Buffer_get_data_everything_witness :
  Buffer.reachable fifo3_full /\
  exists first others g',
    Buffer.get_data 5 None fifo3_full (7 : Z) = (Ok (first :: others), g') /\
    first = [30; 10; 20] /\
    first ≡ₚ [10; 20; 30].
Proof.
  split; [exact fifo3_full_reachable|].
  destruct (Buffer_get_data_everything fifo3_full [10; 20; 30] 5 None (7 : Z)
              fifo3_full_reachable) as (first & others & g' & Hrun & Hperm).
  - reflexivity.
  - vm_compute; first [reflexivity | discriminate].
  - vm_compute; first [reflexivity | discriminate].
  - vm_compute; first [reflexivity | discriminate].
  - exists first, others, g'. split; [exact Hrun|]. split; [|exact Hperm].
    vm_compute in Hrun. injection Hrun as <- _ _. reflexivity.
Defined.

(** [Buffer_get_data_rows_paired] for a request of two items on a full
    buffer of three whose labels differ from the examples: the subscripts
    drawn are 2 and 0, and the rows are the example 30 with its label 3,
    then the example 10 with its label 1. *)
Lemma Buffer_get_data_rows_paired_witness :
  Buffer.reachable fifo3_full /\
  Buffer.tensors fifo3_full !! "examples"%string = Some [10; 20; 30] /\
  Buffer.tensors fifo3_full !! "labels"%string = Some [1; 2; 3] /\
  exists (choice first second : list Z) (g' : Z),
    Buffer.get_data 2 None fifo3_full (7 : Z) = (Ok [first; second], g') /\
    Buffer.get_data_choice 2 fifo3_full (7 : Z) = (Ok choice, g') /\
    choice = [2; 0] /\
    (first !! 0%nat = Some 30 /\ second !! 0%nat = Some 3) /\
    (first !! 1%nat = Some 10 /\ second !! 1%nat = Some 1).
Proof.
  split; [exact fifo3_full_reachable|]. split; [reflexivity|]. split; [reflexivity|].
  assert (Hrun : Buffer.get_data 2 None fifo3_full (7 : Z)
                 = (Ok [[30; 10]; [3; 1]], 642666333)) by (vm_compute; reflexivity).
  destruct (Buffer_get_data_rows_paired fifo3_full [10; 20; 30] [1; 2; 3] 2 None (7 : Z)
              642666333 [[30; 10]; [3; 1]] fifo3_full_reachable eq_refl eq_refl Hrun)
    as (choice & first & second & Hc & Hf & Hs & _ & _ & Hrows).
  injection Hf as <-. injection Hs as <-.
  assert (Hchoice : choice = [2; 0])
    by (vm_compute in Hc; injection Hc as <-; reflexivity).
  exists choice, [30; 10], [3; 1], 642666333.
  split; [exact Hrun|]. split; [exact Hc|]. split; [exact Hchoice|].
  subst choice. split.
  - exact (Hrows 0%nat 2 eq_refl).
  - exact (Hrows 1%nat 0 eq_refl).
Defined.
